(** * Adjust Sound Volume: playback parameters, shortcuts and the player hook

    A shallow embedding of the add-on's [config.py], [hook.py] and the
    non-widget logic of [ui.py], with the properties of its specification
    stated over it.

    Conventions.
    - Python [int] is [Z]; Python [float] is the kernel's binary64 [float],
      so comparisons and divisions are the IEEE ones the interpreter runs.
    - The value [getConfig] hands back is JSON decoded by the host: [pyval].
    - A Python [dict] with string keys is a [gmap string pyval].
    - Code that mutates [volume_config] inside [try] is written in the
      [Try] monad: the object as mutated so far survives a raised exception.
    - Code that talks to the host (config store, shortcuts, tooltips) is
      written in the [UI] state monad over [World]. *)

From Stdlib Require Import ZArith String Ascii List Bool Lia DecimalString.
From Stdlib Require Import PrimFloat SpecFloat.
From Stdlib Require FloatOps.
From stdpp Require Import gmap strings.

Set Warnings "-register-all,-inexact-float".

Import ListNotations.
Local Open Scope string_scope.
Local Open Scope Z_scope.

(** ** Values decoded from JSON *)

Inductive pyval : Type :=
| PNone
| PBool (b : bool)
| PInt (n : Z)
| PFloat (x : float)
| PStr (s : string)
| PList (items : list pyval)
| PDict (entries : gmap string pyval).

(** ** The builtins [int], [float], [bool] and [str] on decoded values

    Each conversion that can raise returns an [option]: [None] stands for
    the [TypeError], [ValueError] or [OverflowError] the interpreter
    raises.  Characters are code points below 256. *)

Module Py.

Definition chars (s : string) : list ascii := list_ascii_of_string s.

Definition code (c : ascii) : Z := Z.of_N (N_of_ascii c).

(** [str.isspace] on one character. *)
Definition is_space (c : ascii) : bool :=
  let n := code c in
  ((9 <=? n) && (n <=? 13)) || ((28 <=? n) && (n <=? 32))
  || (n =? 133) || (n =? 160).

(** The blanks [int] and [float] skip around the text of a number: those
    of the C function [isspace] (tab to carriage return, and the space),
    and the two blanks above 127, which both parsers turn into spaces
    before they read.  The separators 28 to 31 are blanks for
    [str.isspace] only: around a number they are a [ValueError]. *)
Definition is_blank (c : ascii) : bool :=
  let n := code c in
  ((9 <=? n) && (n <=? 13)) || (n =? 32) || (n =? 133) || (n =? 160).

(** What [int] and [float] skip before the text of a number. *)
Fixpoint lstrip (l : list ascii) : list ascii :=
  match l with
  | c :: l' => if is_blank c then lstrip l' else l
  | [] => []
  end.

(** The text of a number without the blanks around it. *)
Definition strip (l : list ascii) : list ascii :=
  rev (lstrip (rev (lstrip l))).

(** [s.isspace()]: at least one character, and all of them white. *)
Definition isspace (s : string) : bool :=
  match chars s with
  | [] => false
  | l => forallb is_space l
  end.

Definition digit_val (c : ascii) : option Z :=
  let n := code c in
  if (48 <=? n) && (n <=? 57) then Some (n - 48) else None.

(** After a first digit: more digits, each one optionally preceded by a
    single underscore.  Returns the value read, the number of digits read
    and what is left. *)
Fixpoint digits_tail (acc : Z) (count : Z) (l : list ascii)
  : Z * Z * list ascii :=
  match l with
  | [] => (acc, count, [])
  | c :: l' =>
      match digit_val c with
      | Some d => digits_tail (10 * acc + d) (count + 1) l'
      | None =>
          if (code c =? 95) then
            match l' with
            | c' :: l'' =>
                match digit_val c' with
                | Some d => digits_tail (10 * acc + d) (count + 1) l''
                | None => (acc, count, l)
                end
            | [] => (acc, count, l)
            end
          else (acc, count, l)
      end
  end.

(** A digit part: one digit, then [digits_tail]. *)
Definition digitpart (l : list ascii) : option (Z * Z * list ascii) :=
  match l with
  | c :: l' =>
      match digit_val c with
      | Some d => Some (digits_tail d 1 l')
      | None => None
      end
  | [] => None
  end.

(** An optional sign: [true] for a minus. *)
Definition sign (l : list ascii) : bool * list ascii :=
  match l with
  | c :: l' =>
      if code c =? 45 then (true, l')
      else if code c =? 43 then (false, l')
      else (false, l)
  | [] => (false, [])
  end.

(** [sys.int_info.default_max_str_digits]: the longest text, in digits,
    that [int] converts. *)
Definition int_max_str_digits : Z := 4300.

(** [int(s)] for a string, base ten: blanks, an optional sign, a digit
    part and blanks, and nothing else; a text of more digits than
    [int_max_str_digits] is a [ValueError] too. *)
Definition int_of_string (s : string) : option Z :=
  let (neg, l) := sign (strip (chars s)) in
  match digitpart l with
  | Some (v, count, []) =>
      if count >? int_max_str_digits then None
      else Some (if neg then - v else v)
  | _ => None
  end.

(** [int(x)] for a float: truncation toward zero; infinities and NaN
    raise. *)
Definition int_of_float (x : float) : option Z :=
  match FloatOps.Prim2SF x with
  | S754_zero _ => Some 0
  | S754_finite s m e =>
      let a := if 0 <=? e then Z.pos m * 2 ^ e else Z.pos m / 2 ^ (- e) in
      Some (if s then - a else a)
  | S754_infinity _ => None
  | S754_nan => None
  end.

(** The binary64 number nearest to an integer (ties to even); an
    infinity when the integer is out of range. *)
Definition round_Z (n : Z) : spec_float :=
  binary_normalize FloatOps.prec FloatOps.emax n 0 false.

(** [float(n)] for an integer: [OverflowError] when out of range. *)
Definition float_of_int (n : Z) : option float :=
  match round_Z n with
  | S754_infinity _ => None
  | sf => Some (FloatOps.SF2Prim sf)
  end.

(** The binary64 number nearest to [m * 10 ^ e10], for [0 <= m].  A
    negative exponent divides with 64 extra bits and a sticky bit, so
    the one rounding [binary_normalize] does is the correct one. *)
Definition round_decimal (m e10 : Z) : spec_float :=
  if m =? 0 then S754_zero false
  else if 0 <=? e10 then
    binary_normalize FloatOps.prec FloatOps.emax (m * 10 ^ e10) 0 false
  else
    let d := 10 ^ (- e10) in
    let s := Z.max 0 (Z.log2 d - Z.log2 m + 64) in
    let q := (m * 2 ^ s) / d in
    let r := (m * 2 ^ s) mod d in
    binary_normalize FloatOps.prec FloatOps.emax
      (2 * q + (if r =? 0 then 0 else 1)) (- (s + 1)) false.

Definition lower (c : ascii) : ascii :=
  let n := code c in
  if (65 <=? n) && (n <=? 90) then ascii_of_N (Z.to_N (n + 32)) else c.

Definition same_text (l : list ascii) (s : string) : bool :=
  String.eqb (string_of_list_ascii (map lower l)) s.

(** An exponent: the letter e in either case, an optional sign and a
    digit part, read to the end; nothing at all is exponent zero. *)
Definition exponent (l : list ascii) : option Z :=
  match l with
  | [] => Some 0
  | c :: l' =>
      if code (lower c) =? 101 then
        let (neg, l'') := sign l' in
        match digitpart l'' with
        | Some (v, _, []) => Some (if neg then - v else v)
        | _ => None
        end
      else None
  end.

(** A number: a digit part, optionally followed by a point and an
    optional digit part; or a point followed by a digit part.  Then the
    exponent.  Returns mantissa and decimal exponent. *)
Definition decimal (l : list ascii) : option (Z * Z) :=
  match digitpart l with
  | Some (i, _, rest) =>
      match rest with
      | c :: rest' =>
          if code c =? 46 then
            match digitpart rest' with
            | Some (f, k, rest'') =>
                match exponent rest'' with
                | Some e => Some (i * 10 ^ k + f, e - k)
                | None => None
                end
            | None =>
                match exponent rest' with
                | Some e => Some (i, e)
                | None => None
                end
            end
          else
            match exponent rest with
            | Some e => Some (i, e)
            | None => None
            end
      | [] => Some (i, 0)
      end
  | None =>
      match l with
      | c :: rest' =>
          if code c =? 46 then
            match digitpart rest' with
            | Some (f, k, rest'') =>
                match exponent rest'' with
                | Some e => Some (f, e - k)
                | None => None
                end
            | None => None
            end
          else None
      | [] => None
      end
  end.

(** [float(s)] for a string: blanks, an optional sign, then inf,
    infinity or nan in any case or a decimal number, and blanks. *)
Definition float_of_string (s : string) : option float :=
  let (neg, l) := sign (strip (chars s)) in
  let signed (x : float) := if neg then PrimFloat.opp x else x in
  if same_text l "inf" || same_text l "infinity" then
    Some (signed infinity)
  else if same_text l "nan" then Some nan
  else
    match decimal l with
    | Some (m, e10) => Some (signed (FloatOps.SF2Prim (round_decimal m e10)))
    | None => None
    end.

Definition int (v : pyval) : option Z :=
  match v with
  | PBool b => Some (if b then 1 else 0)
  | PInt n => Some n
  | PFloat x => int_of_float x
  | PStr s => int_of_string s
  | PNone | PList _ | PDict _ => None
  end.

Definition float (v : pyval) : option float :=
  match v with
  | PBool b => Some (if b then 1%float else 0%float)
  | PInt n => float_of_int n
  | PFloat x => Some x
  | PStr s => float_of_string s
  | PNone | PList _ | PDict _ => None
  end.

(** Truth value testing: never raises. *)
Definition bool (v : pyval) : Datatypes.bool :=
  match v with
  | PNone => false
  | PBool b => b
  | PInt n => negb (n =? 0)
  | PFloat x => negb (PrimFloat.eqb x 0%float)
  | PStr s => negb (String.eqb s "")
  | PList items => match items with [] => false | _ => true end
  | PDict entries => negb (Nat.eqb (size entries) 0)
  end.

(** [isinstance(v, dict)] *)
Definition is_dict (v : pyval) : Datatypes.bool :=
  match v with
  | PDict _ => true
  | _ => false
  end.

(** [str(n)] for an integer. *)
Definition str_of_int (n : Z) : string :=
  NilEmpty.string_of_int (Z.to_int n).

(** [dict.get(key, default)] *)
Definition get (d : gmap string pyval) (key : string) (default : pyval)
  : pyval :=
  match d !! key with
  | Some v => v
  | None => default
  end.

(** [x / y] on floats: [ZeroDivisionError] when [y] is zero. *)
Definition truediv (x y : PrimFloat.float) : option PrimFloat.float :=
  if PrimFloat.eqb y 0%float then None else Some (PrimFloat.div x y).

(** [round(x)] with one argument: the nearest integer, a tie going to the
    even one; NaN and the infinities raise. *)
Definition round (x : PrimFloat.float) : option Z :=
  match FloatOps.Prim2SF x with
  | S754_zero _ => Some 0
  | S754_finite s m e =>
      let a :=
        if 0 <=? e then Z.pos m * 2 ^ e
        else
          let d := 2 ^ (- e) in
          let q := Z.pos m / d in
          let r := Z.pos m mod d in
          if 2 * r <? d then q
          else if d <? 2 * r then q + 1
          else if Z.even q then q else q + 1 in
      Some (if s then - a else a)
  | S754_infinity _ => None
  | S754_nan => None
  end.

End Py.

(** [str(v)].  The text the interpreter prints for a float, a list or a
    dict ([repr]) is not spelled out here: it is the parameter [repr]. *)
Definition py_str (repr : pyval -> string) (v : pyval) : string :=
  match v with
  | PStr s => s
  | PNone => "None"
  | PBool true => "True"
  | PBool false => "False"
  | PInt n => Py.str_of_int n
  | PFloat _ | PList _ | PDict _ => repr v
  end.

(** ** config.py: the dataclasses *)

Record LoudnormConfig : Type := {
  enabled : bool;
  i : Z;
  dual_mono : bool
}.

Record VolumeConfig : Type := {
  volume : Z;
  is_muted : bool;
  allow_volume_boost : bool;
  mute_shortcut : string;
  settings_shortcut : string;
  volume_up_shortcut : string;
  volume_down_shortcut : string;
  loudnorm : LoudnormConfig;
  playback_speed : float;
  speed_up_shortcut : string;
  speed_down_shortcut : string
}.

(** [LoudnormConfig()] *)
Definition default_loudnorm : LoudnormConfig :=
  {| enabled := false; i := -24; dual_mono := false |}.

(** [VolumeConfig()] *)
Definition default_config : VolumeConfig :=
  {| volume := 100;
     is_muted := false;
     allow_volume_boost := false;
     mute_shortcut := "";
     settings_shortcut := "";
     volume_up_shortcut := "";
     volume_down_shortcut := "";
     loudnorm := default_loudnorm;
     playback_speed := 1%float;
     speed_up_shortcut := "";
     speed_down_shortcut := "" |}.

(** Attribute assignment [volume_config.<field> = v], one function per
    attribute. *)

Definition set_volume (v : Z) (c : VolumeConfig) : VolumeConfig :=
  {| volume := v;
     is_muted := is_muted c;
     allow_volume_boost := allow_volume_boost c;
     mute_shortcut := mute_shortcut c;
     settings_shortcut := settings_shortcut c;
     volume_up_shortcut := volume_up_shortcut c;
     volume_down_shortcut := volume_down_shortcut c;
     loudnorm := loudnorm c;
     playback_speed := playback_speed c;
     speed_up_shortcut := speed_up_shortcut c;
     speed_down_shortcut := speed_down_shortcut c |}.

Definition set_is_muted (v : bool) (c : VolumeConfig) : VolumeConfig :=
  {| volume := volume c;
     is_muted := v;
     allow_volume_boost := allow_volume_boost c;
     mute_shortcut := mute_shortcut c;
     settings_shortcut := settings_shortcut c;
     volume_up_shortcut := volume_up_shortcut c;
     volume_down_shortcut := volume_down_shortcut c;
     loudnorm := loudnorm c;
     playback_speed := playback_speed c;
     speed_up_shortcut := speed_up_shortcut c;
     speed_down_shortcut := speed_down_shortcut c |}.

Definition set_allow_volume_boost (v : bool) (c : VolumeConfig) : VolumeConfig :=
  {| volume := volume c;
     is_muted := is_muted c;
     allow_volume_boost := v;
     mute_shortcut := mute_shortcut c;
     settings_shortcut := settings_shortcut c;
     volume_up_shortcut := volume_up_shortcut c;
     volume_down_shortcut := volume_down_shortcut c;
     loudnorm := loudnorm c;
     playback_speed := playback_speed c;
     speed_up_shortcut := speed_up_shortcut c;
     speed_down_shortcut := speed_down_shortcut c |}.

Definition set_mute_shortcut (v : string) (c : VolumeConfig) : VolumeConfig :=
  {| volume := volume c;
     is_muted := is_muted c;
     allow_volume_boost := allow_volume_boost c;
     mute_shortcut := v;
     settings_shortcut := settings_shortcut c;
     volume_up_shortcut := volume_up_shortcut c;
     volume_down_shortcut := volume_down_shortcut c;
     loudnorm := loudnorm c;
     playback_speed := playback_speed c;
     speed_up_shortcut := speed_up_shortcut c;
     speed_down_shortcut := speed_down_shortcut c |}.

Definition set_settings_shortcut (v : string) (c : VolumeConfig) : VolumeConfig :=
  {| volume := volume c;
     is_muted := is_muted c;
     allow_volume_boost := allow_volume_boost c;
     mute_shortcut := mute_shortcut c;
     settings_shortcut := v;
     volume_up_shortcut := volume_up_shortcut c;
     volume_down_shortcut := volume_down_shortcut c;
     loudnorm := loudnorm c;
     playback_speed := playback_speed c;
     speed_up_shortcut := speed_up_shortcut c;
     speed_down_shortcut := speed_down_shortcut c |}.

Definition set_volume_up_shortcut (v : string) (c : VolumeConfig) : VolumeConfig :=
  {| volume := volume c;
     is_muted := is_muted c;
     allow_volume_boost := allow_volume_boost c;
     mute_shortcut := mute_shortcut c;
     settings_shortcut := settings_shortcut c;
     volume_up_shortcut := v;
     volume_down_shortcut := volume_down_shortcut c;
     loudnorm := loudnorm c;
     playback_speed := playback_speed c;
     speed_up_shortcut := speed_up_shortcut c;
     speed_down_shortcut := speed_down_shortcut c |}.

Definition set_volume_down_shortcut (v : string) (c : VolumeConfig) : VolumeConfig :=
  {| volume := volume c;
     is_muted := is_muted c;
     allow_volume_boost := allow_volume_boost c;
     mute_shortcut := mute_shortcut c;
     settings_shortcut := settings_shortcut c;
     volume_up_shortcut := volume_up_shortcut c;
     volume_down_shortcut := v;
     loudnorm := loudnorm c;
     playback_speed := playback_speed c;
     speed_up_shortcut := speed_up_shortcut c;
     speed_down_shortcut := speed_down_shortcut c |}.

Definition set_loudnorm (v : LoudnormConfig) (c : VolumeConfig) : VolumeConfig :=
  {| volume := volume c;
     is_muted := is_muted c;
     allow_volume_boost := allow_volume_boost c;
     mute_shortcut := mute_shortcut c;
     settings_shortcut := settings_shortcut c;
     volume_up_shortcut := volume_up_shortcut c;
     volume_down_shortcut := volume_down_shortcut c;
     loudnorm := v;
     playback_speed := playback_speed c;
     speed_up_shortcut := speed_up_shortcut c;
     speed_down_shortcut := speed_down_shortcut c |}.

Definition set_playback_speed (v : float) (c : VolumeConfig) : VolumeConfig :=
  {| volume := volume c;
     is_muted := is_muted c;
     allow_volume_boost := allow_volume_boost c;
     mute_shortcut := mute_shortcut c;
     settings_shortcut := settings_shortcut c;
     volume_up_shortcut := volume_up_shortcut c;
     volume_down_shortcut := volume_down_shortcut c;
     loudnorm := loudnorm c;
     playback_speed := v;
     speed_up_shortcut := speed_up_shortcut c;
     speed_down_shortcut := speed_down_shortcut c |}.

Definition set_speed_up_shortcut (v : string) (c : VolumeConfig) : VolumeConfig :=
  {| volume := volume c;
     is_muted := is_muted c;
     allow_volume_boost := allow_volume_boost c;
     mute_shortcut := mute_shortcut c;
     settings_shortcut := settings_shortcut c;
     volume_up_shortcut := volume_up_shortcut c;
     volume_down_shortcut := volume_down_shortcut c;
     loudnorm := loudnorm c;
     playback_speed := playback_speed c;
     speed_up_shortcut := v;
     speed_down_shortcut := speed_down_shortcut c |}.

Definition set_speed_down_shortcut (v : string) (c : VolumeConfig) : VolumeConfig :=
  {| volume := volume c;
     is_muted := is_muted c;
     allow_volume_boost := allow_volume_boost c;
     mute_shortcut := mute_shortcut c;
     settings_shortcut := settings_shortcut c;
     volume_up_shortcut := volume_up_shortcut c;
     volume_down_shortcut := volume_down_shortcut c;
     loudnorm := loudnorm c;
     playback_speed := playback_speed c;
     speed_up_shortcut := speed_up_shortcut c;
     speed_down_shortcut := v |}.

(** [volume_config.loudnorm.<field> = v]: the nested object is updated in
    place. *)

Definition set_loudnorm_enabled (v : bool) (c : VolumeConfig) : VolumeConfig :=
  set_loudnorm
    {| enabled := v;
       i := i (loudnorm c);
       dual_mono := dual_mono (loudnorm c) |} c.

Definition set_loudnorm_i (v : Z) (c : VolumeConfig) : VolumeConfig :=
  set_loudnorm
    {| enabled := enabled (loudnorm c);
       i := v;
       dual_mono := dual_mono (loudnorm c) |} c.

Definition set_loudnorm_dual_mono (v : bool) (c : VolumeConfig) : VolumeConfig :=
  set_loudnorm
    {| enabled := enabled (loudnorm c);
       i := i (loudnorm c);
       dual_mono := v |} c.

(** [setattr(volume_config, name, v)] for the six shortcut attributes. *)
Definition setattr (name : string) (v : string) (c : VolumeConfig)
  : VolumeConfig :=
  if String.eqb name "mute_shortcut" then set_mute_shortcut v c
  else if String.eqb name "settings_shortcut" then set_settings_shortcut v c
  else if String.eqb name "volume_up_shortcut" then set_volume_up_shortcut v c
  else if String.eqb name "volume_down_shortcut" then
    set_volume_down_shortcut v c
  else if String.eqb name "speed_up_shortcut" then set_speed_up_shortcut v c
  else if String.eqb name "speed_down_shortcut" then
    set_speed_down_shortcut v c
  else c.

(** ** Statements inside [try] that mutate an object and may raise

    A computation takes the object ([volume_config], or the player) as it
    is and returns it as mutated, with [Some] result, or [None] when an
    exception was raised on the way: what had been assigned before the
    exception stays assigned. *)

Definition Try (S A : Type) : Type := S -> S * option A.

#[export] Instance Try_ret (S : Type) : MRet (Try S) :=
  fun A a c => (c, Some a).

#[export] Instance Try_bind (S : Type) : MBind (Try S) :=
  fun A B k m c =>
    match m c with
    | (c', Some a) => k a c'
    | (c', None) => (c', None)
    end.

(** The value of an expression that may raise. *)
Definition eval {S A : Type} (o : option A) : Try S A :=
  fun c => (c, o).

(** An assignment to an attribute of the object. *)
Definition assign {S : Type} (f : S -> S) : Try S unit :=
  fun c => (f c, Some tt).

(** [for x in xs: body(x)] *)
Fixpoint for_each {S A : Type} (xs : list A) (body : A -> Try S unit)
  : Try S unit :=
  match xs with
  | [] => mret tt
  | x :: xs' => body x ;; for_each xs' body
  end.

(** ** The host: Anki's add-on manager, main window and notifications *)

Inductive Warning : Type :=
| InvalidFormat   (* Invalid configuration format. Resetting to defaults. *)
| LoadError       (* Error loading configuration ... Resetting to defaults. *)
| SaveFailed.     (* Failed to save volume settings ... *)

(** What a registered shortcut runs when triggered. *)
Inductive Callback : Type :=
| AdjustVolume (delta : Z)
| ToggleMute
| ShowDialog
| AdjustSpeed (delta : float).

(** A [QAction] attached to the main window: the key text handed to
    [QKeySequence] and the connected callback. *)
Record QAction : Type := {
  shortcut : string;
  triggered : Callback
}.

Inductive Event : Type :=
| ShowWarning (w : Warning)
| Tooltip (text : string)
| MessageBox (title : string)
| Print (text : string).

Record World : Type := {
  (** what [mw.addonManager.getConfig] returns; [None] when it raises *)
  stored_config : option pyval;
  (** whether [mw.addonManager.writeConfig] succeeds *)
  writable : bool;
  (** how many times the hook is on [av_player_did_begin_playing] *)
  begin_playing_hooks : nat;
  (** [mw._volume_shortcuts]: the add-on's actions on the main window;
      the empty list when the attribute does not exist yet *)
  volume_shortcuts : list QAction;
  (** warnings, tooltips and message boxes shown, oldest first *)
  shown : list Event
}.

Definition set_stored_config (v : option pyval) (w : World) : World :=
  {| stored_config := v;
     writable := writable w;
     begin_playing_hooks := begin_playing_hooks w;
     volume_shortcuts := volume_shortcuts w;
     shown := shown w |}.

Definition set_begin_playing_hooks (n : nat) (w : World) : World :=
  {| stored_config := stored_config w;
     writable := writable w;
     begin_playing_hooks := n;
     volume_shortcuts := volume_shortcuts w;
     shown := shown w |}.

Definition set_volume_shortcuts (l : list QAction) (w : World) : World :=
  {| stored_config := stored_config w;
     writable := writable w;
     begin_playing_hooks := begin_playing_hooks w;
     volume_shortcuts := l;
     shown := shown w |}.

Definition set_shown (l : list Event) (w : World) : World :=
  {| stored_config := stored_config w;
     writable := writable w;
     begin_playing_hooks := begin_playing_hooks w;
     volume_shortcuts := volume_shortcuts w;
     shown := l |}.

(** Code that runs against the host. *)
Definition UI (A : Type) : Type := World -> A * World.

#[export] Instance UI_ret : MRet UI :=
  fun A a w => (a, w).

#[export] Instance UI_bind : MBind UI :=
  fun A B k m w => let (a, w') := m w in k a w'.

Definition modify (f : World -> World) : UI unit :=
  fun w => (tt, f w).

Definition show_event (e : Event) : UI unit :=
  modify (fun w => set_shown (shown w ++ [e]) w).

Definition showWarning (x : Warning) : UI unit := show_event (ShowWarning x).

Definition tooltip (text : string) : UI unit := show_event (Tooltip text).

(** The world a computation leaves behind. *)
Definition exec {A : Type} (m : UI A) (w : World) : World := snd (m w).

(** ** config.py *)

Module config.

Definition shortcut_names : list string :=
  ["mute_shortcut"; "settings_shortcut";
   "volume_up_shortcut"; "volume_down_shortcut";
   "speed_up_shortcut"; "speed_down_shortcut"].

Section WithRepr.

(** How the interpreter prints floats, lists and dicts. *)
Variable repr : pyval -> string.

(** The body of [if addon_config:], lines 44 to 61. *)
Definition load_fields (addon_config : gmap string pyval)
  : Try VolumeConfig unit :=
  v ← eval (Py.int (Py.get addon_config "volume" (PInt 100)));
  assign (set_volume v) ;;
  assign (set_is_muted
            (Py.bool (Py.get addon_config "is_muted" (PBool false)))) ;;
  assign (set_allow_volume_boost
            (Py.bool (Py.get addon_config "allow_volume_boost"
                        (PBool false)))) ;;
  x ← eval (Py.float (Py.get addon_config "playback_speed"
                         (PFloat 1%float)));
  assign (set_playback_speed x) ;;
  for_each shortcut_names (fun shortcut_name =>
    let value := Py.get addon_config shortcut_name (PStr "") in
    assign (setattr shortcut_name
              (if Py.bool value then py_str repr value else ""))) ;;
  match Py.get addon_config "loudnorm" (PDict ∅) with
  | PDict loudnorm =>
      assign (set_loudnorm_enabled
                (Py.bool (Py.get loudnorm "enabled" (PBool false)))) ;;
      n ← eval (Py.int (Py.get loudnorm "i" (PInt (-24))));
      assign (set_loudnorm_i n) ;;
      assign (set_loudnorm_dual_mono
                (Py.bool (Py.get loudnorm "dual_mono" (PBool false))))
  | _ => mret tt
  end.

(** [load_config] as a function of what [getConfig] did: the object
    returned, and the warning shown if any. *)
Definition load_config_from (got : option pyval)
  : VolumeConfig * option Warning :=
  let volume_config := default_config in
  match got with
  | None => (volume_config, Some LoadError)
  | Some (PDict addon_config) =>
      if Py.bool (PDict addon_config) then
        match load_fields addon_config volume_config with
        | (volume_config', Some _) => (volume_config', None)
        | (volume_config', None) => (volume_config', Some LoadError)
        end
      else (volume_config, None)
  | Some _ => (volume_config, Some InvalidFormat)
  end.

(** The parameters the next [load_config] returns. *)
Definition persisted (w : World) : VolumeConfig :=
  fst (load_config_from (stored_config w)).

Definition load_config : UI VolumeConfig :=
  fun w =>
    match load_config_from (stored_config w) with
    | (volume_config, Some x) => (volume_config, exec (showWarning x) w)
    | (volume_config, None) => (volume_config, w)
    end.

End WithRepr.

(** The dict literal of [save_config]. *)
Definition config_dict (volume_config : VolumeConfig) : gmap string pyval :=
  list_to_map
    [("volume", PInt (volume volume_config));
     ("is_muted", PBool (is_muted volume_config));
     ("allow_volume_boost", PBool (allow_volume_boost volume_config));
     ("mute_shortcut", PStr (mute_shortcut volume_config));
     ("settings_shortcut", PStr (settings_shortcut volume_config));
     ("volume_up_shortcut", PStr (volume_up_shortcut volume_config));
     ("volume_down_shortcut", PStr (volume_down_shortcut volume_config));
     ("speed_up_shortcut", PStr (speed_up_shortcut volume_config));
     ("speed_down_shortcut", PStr (speed_down_shortcut volume_config));
     ("playback_speed", PFloat (playback_speed volume_config));
     ("loudnorm",
       PDict (list_to_map
         [("enabled", PBool (enabled (loudnorm volume_config)));
          ("i", PInt (i (loudnorm volume_config)));
          ("dual_mono", PBool (dual_mono (loudnorm volume_config)))]))].

(** [save_config]: the argument is a [VolumeConfig] by its type, so the
    [isinstance] guard passes; a failed write shows a warning. *)
Definition save_config (volume_config : VolumeConfig) : UI unit :=
  fun w =>
    if writable w then
      (tt, set_stored_config (Some (PDict (config_dict volume_config))) w)
    else showWarning SaveFailed w.

End config.

(** ** hook.py *)

Inductive PropertyValue : Type :=
| IntValue (n : Z)
| StrValue (s : string)
| FloatValue (x : float).

(** The mpv player: which property names [set_property] raises on, and
    the properties set so far, oldest first. *)
Record MpvManager : Type := {
  raises_on : string -> bool;
  properties : list (string * PropertyValue)
}.

Module hook.

Definition set_property (name : string) (value : PropertyValue)
  : Try MpvManager unit :=
  fun player =>
    if raises_on player name then (player, None)
    else ({| raises_on := raises_on player;
             properties := properties player ++ [(name, value)] |},
          Some tt).

(** [str(b).lower()] *)
Definition lower_str_of_bool (b : bool) : string :=
  if b then "true" else "false".

(** Lines 36 to 54: the property calls made for a loaded config.  The
    branch for a muted or silent config ends with [return]. *)
Definition set_properties (volume_config : VolumeConfig)
  : Try MpvManager unit :=
  let actual_volume :=
    if is_muted volume_config then 0 else volume volume_config in
  set_property "volume" (IntValue actual_volume) ;;
  if is_muted volume_config || (actual_volume =? 0) then
    set_property "af" (StrValue "")
  else
    (if enabled (loudnorm volume_config) then
       let i := i (loudnorm volume_config) in
       let dual_mono :=
         lower_str_of_bool (dual_mono (loudnorm volume_config)) in
       set_property "af"
         (StrValue ("loudnorm=I=" +:+ Py.str_of_int i
                    +:+ ":dual_mono=" +:+ dual_mono))
     else set_property "af" (StrValue "")) ;;
    set_property "speed" (FloatValue (playback_speed volume_config)).

Section WithRepr.

Variable repr : pyval -> string.

(** [player] is [None] when the argument is [None] or not an
    [MpvManager]. *)
Definition did_begin_playing (player : option MpvManager)
  : UI (option MpvManager) :=
  match player with
  | None => mret None
  | Some player =>
      volume_config ← config.load_config repr;
      match set_properties volume_config player with
      | (player', Some _) => mret (Some player')
      | (player', None) =>
          show_event (Print "Sound volume control error") ;;
          mret (Some player')
      end
  end.

End WithRepr.

End hook.

(** ** The Qt widgets the dialog reads and writes

    [QSlider] and [QSpinBox] keep an integer inside a range.  As Qt
    documents them: [setRange] keeps the range valid and brings the value
    into it; [setMaximum] lowers the minimum when it has to; [setValue]
    bounds its argument; [valueChanged] is emitted only when the value
    moved. *)

Module Qt.

Record QRange : Type := {
  minimum : Z;
  maximum : Z;
  value : Z
}.

Definition qBound (lo v hi : Z) : Z := Z.max lo (Z.min hi v).

Definition setValue (v : Z) (w : QRange) : QRange :=
  {| minimum := minimum w;
     maximum := maximum w;
     value := qBound (minimum w) v (maximum w) |}.

Definition setRange (lo hi : Z) (w : QRange) : QRange :=
  let hi' := Z.max lo hi in
  {| minimum := lo;
     maximum := hi';
     value := qBound lo (value w) hi' |}.

Definition setMaximum (hi : Z) (w : QRange) : QRange :=
  setRange (Z.min (minimum w) hi) hi w.

(** Two widgets, each connected to the other's [setValue].  [sender]
    has just moved: the receiver is set, and when that moves it the
    signal goes back.  [depth] bounds the calls to [setValue]. *)
Fixpoint valueChanged (depth : nat) (sender receiver : QRange)
  : QRange * QRange :=
  match depth with
  | O => (sender, receiver)
  | S depth' =>
      let receiver' := setValue (value sender) receiver in
      if value receiver' =? value receiver then (sender, receiver')
      else
        let (r, s) := valueChanged depth' receiver' sender in (s, r)
  end.

(** Three calls always settle the pair (lemma [valueChanged_settles]). *)
Definition signal_depth : nat := 3.

(** [before] became [after] by a call on one widget of the pair. *)
Definition emit (before after other : QRange) : QRange * QRange :=
  if value after =? value before then (after, other)
  else valueChanged signal_depth after other.

(** A key with its modifiers, and a sequence of up to four of them. *)
Record QKeyCombination : Type := {
  keyboardModifiers : Z;
  key : Z
}.

Definition QKeySequence : Type := list QKeyCombination.

Definition isEmpty (sequence : QKeySequence) : bool :=
  match sequence with
  | [] => true
  | _ :: _ => false
  end.

(** [Qt.KeyboardModifier] *)
Definition ShiftModifier : Z := 0x02000000.
Definition ControlModifier : Z := 0x04000000.
Definition AltModifier : Z := 0x08000000.
Definition MetaModifier : Z := 0x10000000.

(** [setMinimum] raises the maximum when it has to. *)
Definition setMinimum (lo : Z) (w : QRange) : QRange :=
  setRange lo (Z.max (maximum w) lo) w.

(** A [QSlider()] or [QSpinBox()] as constructed: range 0 to 99, value 0. *)
Definition new_widget : QRange :=
  {| minimum := 0; maximum := 99; value := 0 |}.

End Qt.

(** ** ui.py *)

(** The state of a [VolumeDialog] that [accept] and
    [on_volume_boost_changed] read or write. *)
Record VolumeDialog : Type := {
  _current_session_boost_enabled : bool;
  volume_slider : Qt.QRange;
  volume_spin_box : Qt.QRange;
  volume_boost_check_box : bool;
  mute_check_box : bool;
  loudnorm_group_box : bool;
  i_spin_box : Qt.QRange;
  dual_mono_check_box : bool;
  volume_up_shortcut_edit : Qt.QKeySequence;
  volume_down_shortcut_edit : Qt.QKeySequence;
  mute_shortcut_edit : Qt.QKeySequence;
  settings_shortcut_edit : Qt.QKeySequence;
  speed_up_shortcut_edit : Qt.QKeySequence;
  speed_down_shortcut_edit : Qt.QKeySequence;
  speed_slider : Qt.QRange
}.

(** The volume slider and spin box replaced, the rest kept. *)
Definition set_volume_widgets (slider spin_box : Qt.QRange)
    (self : VolumeDialog) : VolumeDialog :=
  {| _current_session_boost_enabled := _current_session_boost_enabled self;
     volume_slider := slider;
     volume_spin_box := spin_box;
     volume_boost_check_box := volume_boost_check_box self;
     mute_check_box := mute_check_box self;
     loudnorm_group_box := loudnorm_group_box self;
     i_spin_box := i_spin_box self;
     dual_mono_check_box := dual_mono_check_box self;
     volume_up_shortcut_edit := volume_up_shortcut_edit self;
     volume_down_shortcut_edit := volume_down_shortcut_edit self;
     mute_shortcut_edit := mute_shortcut_edit self;
     settings_shortcut_edit := settings_shortcut_edit self;
     speed_up_shortcut_edit := speed_up_shortcut_edit self;
     speed_down_shortcut_edit := speed_down_shortcut_edit self;
     speed_slider := speed_slider self |}.

Definition set__current_session_boost_enabled (b : bool)
    (self : VolumeDialog) : VolumeDialog :=
  {| _current_session_boost_enabled := b;
     volume_slider := volume_slider self;
     volume_spin_box := volume_spin_box self;
     volume_boost_check_box := volume_boost_check_box self;
     mute_check_box := mute_check_box self;
     loudnorm_group_box := loudnorm_group_box self;
     i_spin_box := i_spin_box self;
     dual_mono_check_box := dual_mono_check_box self;
     volume_up_shortcut_edit := volume_up_shortcut_edit self;
     volume_down_shortcut_edit := volume_down_shortcut_edit self;
     mute_shortcut_edit := mute_shortcut_edit self;
     settings_shortcut_edit := settings_shortcut_edit self;
     speed_up_shortcut_edit := speed_up_shortcut_edit self;
     speed_down_shortcut_edit := speed_down_shortcut_edit self;
     speed_slider := speed_slider self |}.

Definition set_mute_check_box (b : bool) (self : VolumeDialog)
  : VolumeDialog :=
  {| _current_session_boost_enabled := _current_session_boost_enabled self;
     volume_slider := volume_slider self;
     volume_spin_box := volume_spin_box self;
     volume_boost_check_box := volume_boost_check_box self;
     mute_check_box := b;
     loudnorm_group_box := loudnorm_group_box self;
     i_spin_box := i_spin_box self;
     dual_mono_check_box := dual_mono_check_box self;
     volume_up_shortcut_edit := volume_up_shortcut_edit self;
     volume_down_shortcut_edit := volume_down_shortcut_edit self;
     mute_shortcut_edit := mute_shortcut_edit self;
     settings_shortcut_edit := settings_shortcut_edit self;
     speed_up_shortcut_edit := speed_up_shortcut_edit self;
     speed_down_shortcut_edit := speed_down_shortcut_edit self;
     speed_slider := speed_slider self |}.

(** Which of the volume controls take input: what [setEnabled] was last
    called with on the volume slider, the volume spin box and the mute
    box. *)
Record Enabled : Type := {
  slider_enabled : bool;
  spin_box_enabled : bool;
  mute_enabled : bool
}.

Module ui.

(** *** [_get_nearest_speed] *)

Definition SPEED_STEPS : list float :=
  [0.25; 0.5; 0.6; 0.7; 0.8; 0.9; 1.0; 1.1; 1.2; 1.3; 1.4; 1.5; 1.75;
   2.0]%float.

Definition _get_nearest_speed (current_speed : float) (increase : bool)
  : float :=
  if increase then
    match
      find (fun speed => PrimFloat.ltb current_speed speed) SPEED_STEPS
    with
    | Some speed => speed
    | None => List.last SPEED_STEPS 0%float
    end
  else
    match
      find (fun speed => PrimFloat.ltb speed current_speed)
        (rev SPEED_STEPS)
    with
    | Some speed => speed
    | None => List.hd 0%float SPEED_STEPS
    end.

(** *** The dialog's checks on a key sequence *)

(** [bool(modifiers & (Control | Alt | Shift | Meta))] of the first key
    combination. *)
Definition has_modifier (sequence : Qt.QKeySequence) : bool :=
  match sequence with
  | key_combination :: _ =>
      let modifiers := Qt.keyboardModifiers key_combination in
      negb (Z.land modifiers
              (Z.lor (Z.lor (Z.lor Qt.ControlModifier Qt.AltModifier)
                        Qt.ShiftModifier) Qt.MetaModifier) =? 0)
  | [] => false
  end.

(** [self.shortcut_editors.items()], in insertion order. *)
Definition shortcut_editors (self : VolumeDialog)
  : list (string * Qt.QKeySequence) :=
  [("volume_up_shortcut_edit", volume_up_shortcut_edit self);
   ("volume_down_shortcut_edit", volume_down_shortcut_edit self);
   ("mute_shortcut_edit", mute_shortcut_edit self);
   ("settings_shortcut_edit", settings_shortcut_edit self);
   ("speed_up_shortcut_edit", speed_up_shortcut_edit self);
   ("speed_down_shortcut_edit", speed_down_shortcut_edit self)].

(** The first loop of [accept]: is there an editor whose sequence is not
    empty and has no modifier? *)
Fixpoint missing_modifier (editors : list (string * Qt.QKeySequence))
  : bool :=
  match editors with
  | [] => false
  | (_, sequence) :: rest =>
      if negb (Qt.isEmpty sequence) && negb (has_modifier sequence)
      then true
      else missing_modifier rest
  end.

Definition register_shortcut (key : string) (fn : Callback)
  : option QAction :=
  if String.eqb key "" || Py.isspace key then None
  else Some {| shortcut := key; triggered := fn |}.

(** The list [shortcuts] of [setup_shortcuts]: key text and callback. *)
Definition shortcuts (volume_config : VolumeConfig)
  : list (string * Callback) :=
  [(volume_up_shortcut volume_config, AdjustVolume 10);
   (volume_down_shortcut volume_config, AdjustVolume (-10));
   (mute_shortcut volume_config, ToggleMute);
   (settings_shortcut volume_config, ShowDialog);
   (speed_up_shortcut volume_config, AdjustSpeed 0.1%float);
   (speed_down_shortcut volume_config, AdjustSpeed (-0.1)%float)].

(** The last loop of [setup_shortcuts]: the actions it appends. *)
Fixpoint register_all (shortcuts : list (string * Callback)) : UI unit :=
  match shortcuts with
  | [] => mret tt
  | (shortcut, callback) :: rest =>
      match register_shortcut shortcut callback with
      | Some action =>
          modify (fun w =>
                    set_volume_shortcuts (volume_shortcuts w ++ [action]) w)
      | None => mret tt
      end ;;
      register_all rest
  end.

(** A player of [av_player.players]: mpv, or another kind. *)
Inductive Player : Type :=
| Mpv (manager : MpvManager)
| OtherPlayer.

(** [self.shortcut_editors[name].keySequence()], when there is an editor
    of that name. *)
Fixpoint sequence_named (name : string)
    (editors : list (string * Qt.QKeySequence)) : option Qt.QKeySequence :=
  match editors with
  | [] => None
  | (name', sequence) :: rest =>
      if String.eqb name' name then Some sequence
      else sequence_named name rest
  end.

Definition editor_sequence (name : string) (self : VolumeDialog)
  : option Qt.QKeySequence :=
  sequence_named name (shortcut_editors self).

(** [self.shortcut_editors[name].setKeySequence(sequence)]: the editor of
    that name holds [sequence]; another name changes nothing. *)
Definition set_editor (name : string) (sequence : Qt.QKeySequence)
    (self : VolumeDialog) : VolumeDialog :=
  if String.eqb name "volume_up_shortcut_edit" then
    {| _current_session_boost_enabled := _current_session_boost_enabled self;
       volume_slider := volume_slider self;
       volume_spin_box := volume_spin_box self;
       volume_boost_check_box := volume_boost_check_box self;
       mute_check_box := mute_check_box self;
       loudnorm_group_box := loudnorm_group_box self;
       i_spin_box := i_spin_box self;
       dual_mono_check_box := dual_mono_check_box self;
       volume_up_shortcut_edit := sequence;
       volume_down_shortcut_edit := volume_down_shortcut_edit self;
       mute_shortcut_edit := mute_shortcut_edit self;
       settings_shortcut_edit := settings_shortcut_edit self;
       speed_up_shortcut_edit := speed_up_shortcut_edit self;
       speed_down_shortcut_edit := speed_down_shortcut_edit self;
       speed_slider := speed_slider self |}
  else if String.eqb name "volume_down_shortcut_edit" then
    {| _current_session_boost_enabled := _current_session_boost_enabled self;
       volume_slider := volume_slider self;
       volume_spin_box := volume_spin_box self;
       volume_boost_check_box := volume_boost_check_box self;
       mute_check_box := mute_check_box self;
       loudnorm_group_box := loudnorm_group_box self;
       i_spin_box := i_spin_box self;
       dual_mono_check_box := dual_mono_check_box self;
       volume_up_shortcut_edit := volume_up_shortcut_edit self;
       volume_down_shortcut_edit := sequence;
       mute_shortcut_edit := mute_shortcut_edit self;
       settings_shortcut_edit := settings_shortcut_edit self;
       speed_up_shortcut_edit := speed_up_shortcut_edit self;
       speed_down_shortcut_edit := speed_down_shortcut_edit self;
       speed_slider := speed_slider self |}
  else if String.eqb name "mute_shortcut_edit" then
    {| _current_session_boost_enabled := _current_session_boost_enabled self;
       volume_slider := volume_slider self;
       volume_spin_box := volume_spin_box self;
       volume_boost_check_box := volume_boost_check_box self;
       mute_check_box := mute_check_box self;
       loudnorm_group_box := loudnorm_group_box self;
       i_spin_box := i_spin_box self;
       dual_mono_check_box := dual_mono_check_box self;
       volume_up_shortcut_edit := volume_up_shortcut_edit self;
       volume_down_shortcut_edit := volume_down_shortcut_edit self;
       mute_shortcut_edit := sequence;
       settings_shortcut_edit := settings_shortcut_edit self;
       speed_up_shortcut_edit := speed_up_shortcut_edit self;
       speed_down_shortcut_edit := speed_down_shortcut_edit self;
       speed_slider := speed_slider self |}
  else if String.eqb name "settings_shortcut_edit" then
    {| _current_session_boost_enabled := _current_session_boost_enabled self;
       volume_slider := volume_slider self;
       volume_spin_box := volume_spin_box self;
       volume_boost_check_box := volume_boost_check_box self;
       mute_check_box := mute_check_box self;
       loudnorm_group_box := loudnorm_group_box self;
       i_spin_box := i_spin_box self;
       dual_mono_check_box := dual_mono_check_box self;
       volume_up_shortcut_edit := volume_up_shortcut_edit self;
       volume_down_shortcut_edit := volume_down_shortcut_edit self;
       mute_shortcut_edit := mute_shortcut_edit self;
       settings_shortcut_edit := sequence;
       speed_up_shortcut_edit := speed_up_shortcut_edit self;
       speed_down_shortcut_edit := speed_down_shortcut_edit self;
       speed_slider := speed_slider self |}
  else if String.eqb name "speed_up_shortcut_edit" then
    {| _current_session_boost_enabled := _current_session_boost_enabled self;
       volume_slider := volume_slider self;
       volume_spin_box := volume_spin_box self;
       volume_boost_check_box := volume_boost_check_box self;
       mute_check_box := mute_check_box self;
       loudnorm_group_box := loudnorm_group_box self;
       i_spin_box := i_spin_box self;
       dual_mono_check_box := dual_mono_check_box self;
       volume_up_shortcut_edit := volume_up_shortcut_edit self;
       volume_down_shortcut_edit := volume_down_shortcut_edit self;
       mute_shortcut_edit := mute_shortcut_edit self;
       settings_shortcut_edit := settings_shortcut_edit self;
       speed_up_shortcut_edit := sequence;
       speed_down_shortcut_edit := speed_down_shortcut_edit self;
       speed_slider := speed_slider self |}
  else if String.eqb name "speed_down_shortcut_edit" then
    {| _current_session_boost_enabled := _current_session_boost_enabled self;
       volume_slider := volume_slider self;
       volume_spin_box := volume_spin_box self;
       volume_boost_check_box := volume_boost_check_box self;
       mute_check_box := mute_check_box self;
       loudnorm_group_box := loudnorm_group_box self;
       i_spin_box := i_spin_box self;
       dual_mono_check_box := dual_mono_check_box self;
       volume_up_shortcut_edit := volume_up_shortcut_edit self;
       volume_down_shortcut_edit := volume_down_shortcut_edit self;
       mute_shortcut_edit := mute_shortcut_edit self;
       settings_shortcut_edit := settings_shortcut_edit self;
       speed_up_shortcut_edit := speed_up_shortcut_edit self;
       speed_down_shortcut_edit := sequence;
       speed_slider := speed_slider self |}
  else self.

Section WithHost.

(** How the interpreter prints floats, lists and dicts. *)
Variable repr : pyval -> string.

(** [QKeySequence.toString()]: Qt's text for a key sequence. *)
Variable toString : Qt.QKeySequence -> string.

(** The second loop of [accept]: the first key text met twice, with
    [used_shortcuts] the texts met so far. *)
Fixpoint duplicate_shortcut (editors : list (string * Qt.QKeySequence))
    (used_shortcuts : gmap string string) : option string :=
  match editors with
  | [] => None
  | (name, sequence) :: rest =>
      if negb (Qt.isEmpty sequence) then
        let key_string := toString sequence in
        match used_shortcuts !! key_string with
        | Some _ => Some key_string
        | None =>
            duplicate_shortcut rest (<[key_string := name]> used_shortcuts)
        end
      else duplicate_shortcut rest used_shortcuts
  end.

(** *** [setup_shortcuts] *)

Definition setup_shortcuts : UI unit :=
  volume_config ← config.load_config repr;
  (* the existing actions are disabled, removed and deleted *)
  modify (set_volume_shortcuts []) ;;
  register_all (shortcuts volume_config).

(** *** [save_config] *)

Definition save_config (volume_config : VolumeConfig) : UI unit :=
  config.save_config volume_config ;;
  modify (fun w =>
            set_begin_playing_hooks (Nat.pred (begin_playing_hooks w)) w) ;;
  modify (fun w => set_begin_playing_hooks (S (begin_playing_hooks w)) w) ;;
  setup_shortcuts.

(** *** [adjust_volume] *)

(** Lines 87 to 104: the loaded object as mutated before it is
    saved. *)
Definition adjusted (delta : Z) (volume_config : VolumeConfig)
  : VolumeConfig :=
  let max_volume :=
    if allow_volume_boost volume_config then 200 else 100 in
  let new_volume :=
    Z.max 0 (Z.min max_volume (volume volume_config + delta)) in
  let delta :=
    if Z.abs delta >? max_volume then
      (if delta >? 0 then max_volume else - max_volume)
    else delta in
  let volume_config :=
    if new_volume =? 0 then set_is_muted true volume_config
    else if (volume volume_config =? 0) && (new_volume >? 0) then
      set_is_muted false volume_config
    else if (delta >? 0) && is_muted volume_config then
      set_is_muted false volume_config
    else volume_config in
  set_volume new_volume volume_config.

Definition adjust_volume (delta : Z) : UI unit :=
  volume_config ← config.load_config repr;
  let volume_config := adjusted delta volume_config in
  save_config volume_config ;;
  tooltip (if is_muted volume_config then "Muted"
           else "Volume: " +:+ Py.str_of_int (volume volume_config)
                +:+ "%").

(** *** [toggle_mute] *)

Definition toggle_mute : UI unit :=
  volume_config ← config.load_config repr;
  if volume volume_config >? 0 then
    let volume_config :=
      set_is_muted (negb (is_muted volume_config)) volume_config in
    save_config volume_config ;;
    tooltip ("Sound " +:+
             (if is_muted volume_config then "Muted" else "Unmuted"))
  else tooltip "Cannot toggle mute when volume is 0".

(** *** [VolumeDialog.accept] *)

(** [sequence.toString()], or the empty string when that is falsy. *)
Definition key_text (sequence : Qt.QKeySequence) : string :=
  let s := toString sequence in
  if String.eqb s "" then "" else s.

(** Lines 515 to 533: the loaded object with every attribute
    overwritten from the widgets. *)
Definition read_widgets (self : VolumeDialog)
    (volume_config : VolumeConfig) : VolumeConfig :=
  let volume_config :=
    set_volume (Qt.value (volume_slider self)) volume_config in
  let volume_config := set_is_muted (mute_check_box self) volume_config in
  let volume_config :=
    set_allow_volume_boost (volume_boost_check_box self) volume_config in
  let volume_config :=
    set_playback_speed
      (PrimFloat.div
         (FloatOps.SF2Prim (Py.round_Z (Qt.value (speed_slider self))))
         100%float)
      volume_config in
  let volume_config :=
    set_volume_up_shortcut (key_text (volume_up_shortcut_edit self))
      volume_config in
  let volume_config :=
    set_volume_down_shortcut (key_text (volume_down_shortcut_edit self))
      volume_config in
  let volume_config :=
    set_mute_shortcut (key_text (mute_shortcut_edit self))
      volume_config in
  let volume_config :=
    set_settings_shortcut (key_text (settings_shortcut_edit self))
      volume_config in
  let volume_config :=
    set_speed_up_shortcut (key_text (speed_up_shortcut_edit self))
      volume_config in
  let volume_config :=
    set_speed_down_shortcut (key_text (speed_down_shortcut_edit self))
      volume_config in
  let volume_config :=
    set_loudnorm_enabled (loudnorm_group_box self) volume_config in
  let volume_config :=
    set_loudnorm_i (Qt.value (i_spin_box self)) volume_config in
  set_loudnorm_dual_mono (dual_mono_check_box self) volume_config.

(** Returns [true] when the dialog closed as accepted ([super().accept()]
    was reached) and [false] when it returned early and stays open. *)
Definition accept (self : VolumeDialog) : UI bool :=
  if missing_modifier (shortcut_editors self) then
    tooltip ("Invalid shortcut settings. "
             +:+ "Please ensure all shortcuts include modifier keys") ;;
    mret false
  else
    match duplicate_shortcut (shortcut_editors self) ∅ with
    | Some key_string =>
        tooltip ("Shortcut '" +:+ key_string
                 +:+ "' is used multiple times") ;;
        mret false
    | None =>
        volume_config ← config.load_config repr;
        let volume_config := read_widgets self volume_config in
        save_config volume_config ;;
        setup_shortcuts ;;
        mret true
    end.

(** *** [adjust_speed] *)

(** The text of a float under the format [.2f]. *)
Variable format_speed : float -> string.

(** One turn of the loop over [av_player.players]: an mpv player is given
    the speed, and what it raises is passed over. *)
Definition set_speed_on (new_speed : float) (player : Player) : Player :=
  match player with
  | Mpv manager =>
      Mpv (fst (hook.set_property "speed" (FloatValue new_speed) manager))
  | OtherPlayer => OtherPlayer
  end.

(** [players] is [av_player.players], the empty list when the attribute
    is missing; the players as the loop leaves them are returned. *)
Definition adjust_speed (delta : float) (players : list Player)
  : UI (list Player) :=
  volume_config ← config.load_config repr;
  let new_speed :=
    _get_nearest_speed (playback_speed volume_config)
      (PrimFloat.ltb 0 delta) in
  let volume_config := set_playback_speed new_speed volume_config in
  save_config volume_config ;;
  let players := map (set_speed_on new_speed) players in
  tooltip ("Speed: " +:+ format_speed new_speed +:+ "x") ;;
  mret players.

(** *** [VolumeDialog.on_mute_changed_silent] *)

Definition on_mute_changed_silent (state : Z) : UI unit :=
  volume_config ← config.load_config repr;
  let volume_config := set_is_muted (negb (state =? 0)) volume_config in
  save_config volume_config.

(** *** [VolumeDialog.validate_shortcut] *)

(** The loop that fills [current_shortcuts]: the texts of the editors
    other than the sender that are not empty, each with its name. *)
Fixpoint current_shortcuts (sender : string)
    (editors : list (string * Qt.QKeySequence))
    (acc : gmap string string) : gmap string string :=
  match editors with
  | [] => acc
  | (name, seq) :: rest =>
      if String.eqb name sender then current_shortcuts sender rest acc
      else if negb (Qt.isEmpty seq) then
        current_shortcuts sender rest (<[toString seq := name]> acc)
      else current_shortcuts sender rest acc
  end.

(** [sender] names the editor whose sequence changed; [None], or a name
    that is no editor's, when the sender is not a [QKeySequenceEdit].
    [editor.clear()] signals the change again, and that second call
    returns at once on the empty sequence. *)
Definition validate_shortcut (sender : option string) (self : VolumeDialog)
  : UI VolumeDialog :=
  match sender with
  | None => mret self
  | Some editor =>
      match editor_sequence editor self with
      | None => mret self
      | Some sequence =>
          if Qt.isEmpty sequence then mret self
          else if negb (has_modifier sequence) then
            tooltip ("Shortcut must include at least one modifier key "
                     +:+ "(Ctrl, Alt, Shift)") ;;
            mret (set_editor editor [] self)
          else
            let key_string := toString sequence in
            match
              current_shortcuts editor (shortcut_editors self) ∅
                !! key_string
            with
            | Some _ =>
                tooltip ("Shortcut '" +:+ key_string
                         +:+ "' is already used") ;;
                mret (set_editor editor [] self)
            | None => mret self
            end
      end
  end.

End WithHost.

(** *** [VolumeDialog.on_volume_boost_changed] *)

(** A call on the volume slider, with its signal to the spin box. *)
Definition on_slider (f : Qt.QRange -> Qt.QRange) (self : VolumeDialog)
  : VolumeDialog :=
  let (slider, spin_box) :=
    Qt.emit (volume_slider self) (f (volume_slider self))
      (volume_spin_box self) in
  set_volume_widgets slider spin_box self.

(** A call on the volume spin box, with its signal to the slider. *)
Definition on_spin_box (f : Qt.QRange -> Qt.QRange) (self : VolumeDialog)
  : VolumeDialog :=
  let (spin_box, slider) :=
    Qt.emit (volume_spin_box self) (f (volume_spin_box self))
      (volume_slider self) in
  set_volume_widgets slider spin_box self.

(** [state] is the check state the box moved to: [0] when unchecked. *)
Definition on_volume_boost_changed (state : Z) (self : VolumeDialog)
  : UI VolumeDialog :=
  let allow_boost := negb (state =? 0) in
  let current_volume := Qt.value (volume_slider self) in
  (if allow_boost && negb (_current_session_boost_enabled self) then
     show_event (MessageBox "Volume Boost Warning")
   else mret tt) ;;
  let self := set__current_session_boost_enabled allow_boost self in
  let max_volume := if allow_boost then 200 else 100 in
  let self := on_slider (Qt.setMaximum max_volume) self in
  let self := on_spin_box (Qt.setMaximum max_volume) self in
  let self :=
    if negb allow_boost && (current_volume >? 100) then
      on_spin_box (Qt.setValue 100) (on_slider (Qt.setValue 100) self)
    else self in
  mret self.

(** *** [_round_to_nearest_step] *)

(** [round(value / step) * step]; the callers leave [step] at its default
    0.05. *)
Definition _round_to_nearest_step (value step : float) : option float :=
  q ← Py.truediv value step;
  k ← Py.round q;
  kf ← Py.float_of_int k;
  Some (PrimFloat.mul kf step).

(** *** [_create_config_widgets] and [_set_value] *)

(** The slider and the spin box of [_create_config_widgets], each built
    and given its minimum and maximum before the two are connected (the
    label and the step sizes are left out). *)
Definition _create_config_widgets (min_max : Z * Z) : Qt.QRange * Qt.QRange :=
  let slider :=
    Qt.setMaximum (snd min_max) (Qt.setMinimum (fst min_max) Qt.new_widget) in
  let spin_box :=
    Qt.setMaximum (snd min_max) (Qt.setMinimum (fst min_max) Qt.new_widget) in
  (slider, spin_box).


(** *** [VolumeDialog.update_volume_controls] and the mute box *)

Section WithRepr.

Variable repr : pyval -> string.

(** [setChecked] is [self.mute_check_box.setChecked] with the slots it
    runs. *)
Definition update_volume_controls
    (setChecked :
       bool -> VolumeDialog -> Enabled -> UI (VolumeDialog * Enabled))
    (state : Z) (self : VolumeDialog) (enabled : Enabled)
  : UI (VolumeDialog * Enabled) :=
  let is_muted := negb (state =? 0) in
  let volume := Qt.value (volume_slider self) in
  let enabled :=
    {| slider_enabled := negb is_muted || (volume =? 0);
       spin_box_enabled := negb is_muted || (volume =? 0);
       mute_enabled := mute_enabled enabled |} in
  if volume =? 0 then
    let enabled :=
      {| slider_enabled := slider_enabled enabled;
         spin_box_enabled := spin_box_enabled enabled;
         mute_enabled := false |} in
    setChecked true self enabled
  else
    mret (self,
          {| slider_enabled := slider_enabled enabled;
             spin_box_enabled := spin_box_enabled enabled;
             mute_enabled := true |}).

(** The mute box set to [checked], by the user or by [setChecked].  When
    that changes its state, [stateChanged] runs its two slots in the
    order of lines 201 and 202, with the state 2 of a checked box or 0;
    [update_volume_controls] may set the box again.  [depth] bounds the
    nested signals. *)
Fixpoint mute_setChecked (depth : nat) (checked : bool)
    (self : VolumeDialog) (enabled : Enabled)
  : UI (VolumeDialog * Enabled) :=
  if Bool.eqb (mute_check_box self) checked then mret (self, enabled)
  else
    let self := set_mute_check_box checked self in
    match depth with
    | O => mret (self, enabled)
    | S depth' =>
        let state := if checked then 2 else 0 in
        on_mute_changed_silent repr state ;;
        update_volume_controls (mute_setChecked depth') state self enabled
    end.

End WithRepr.

End ui.

(** * Properties *)

(** ** Notions the statements use *)

(** A widget's value lies in its range: Qt keeps this for every slider
    and spin box. *)
Definition in_range (w : Qt.QRange) : Prop :=
  Qt.minimum w <= Qt.value w <= Qt.maximum w.

(** The volume slider and the volume spin box show the same value: the
    state the two [valueChanged] connections keep between events. *)
Definition linked (self : VolumeDialog) : Prop :=
  in_range (volume_slider self) /\ in_range (volume_spin_box self) /\
  Qt.value (volume_spin_box self) = Qt.value (volume_slider self).

(** The same widget showing another value. *)
Definition with_value (v : Z) (w : Qt.QRange) : Qt.QRange :=
  {| Qt.minimum := Qt.minimum w; Qt.maximum := Qt.maximum w; Qt.value := v |}.

(** The actions [setup_shortcuts] leaves on the main window for a config:
    one per shortcut text that is neither empty nor blank. *)
Definition registered (volume_config : VolumeConfig) : list QAction :=
  omap (fun '(key, fn) => ui.register_shortcut key fn)
    (ui.shortcuts volume_config).

(** Some editor holds a sequence that is not empty and has no modifier. *)
Definition unmodified (editors : list (string * Qt.QKeySequence)) : Prop :=
  exists name sequence,
    In (name, sequence) editors /\ sequence <> [] /\
    ui.has_modifier sequence = false.

(** Two editors of different actions hold sequences that are not empty and
    have the same text. *)
Definition clash (toString : Qt.QKeySequence -> string)
    (editors : list (string * Qt.QKeySequence)) : Prop :=
  exists name1 sequence1 name2 sequence2,
    In (name1, sequence1) editors /\ In (name2, sequence2) editors /\
    name1 <> name2 /\ sequence1 <> [] /\ sequence2 <> [] /\
    toString sequence1 = toString sequence2.

(** The value a shortcut attribute gets from the stored mapping. *)
Definition shortcut_value (repr : pyval -> string)
    (addon_config : gmap string pyval) (name : string) : string :=
  let value := Py.get addon_config name (PStr "") in
  if Py.bool value then py_str repr value else "".

(** The six shortcut attributes as the loop of [load_config] assigns
    them. *)
Definition with_shortcuts (repr : pyval -> string)
    (d : gmap string pyval) (c : VolumeConfig)
  : VolumeConfig :=
  set_speed_down_shortcut (shortcut_value repr d "speed_down_shortcut")
    (set_speed_up_shortcut (shortcut_value repr d "speed_up_shortcut")
       (set_volume_down_shortcut (shortcut_value repr d "volume_down_shortcut")
          (set_volume_up_shortcut (shortcut_value repr d "volume_up_shortcut")
             (set_settings_shortcut (shortcut_value repr d "settings_shortcut")
                (set_mute_shortcut (shortcut_value repr d "mute_shortcut")
                   c))))).

(** The property calls the hook makes for a config on a player that
    accepts them all. *)
Definition planned (volume_config : VolumeConfig)
  : list (string * PropertyValue) :=
  properties
    (fst (hook.set_properties volume_config
            {| raises_on := fun _ => false; properties := [] |})).

(** The calls of a list made before the first one the player raises
    on. *)
Fixpoint accepted_prefix (raises : string -> bool)
    (calls : list (string * PropertyValue)) : list (string * PropertyValue) :=
  match calls with
  | [] => []
  | (name, value) :: rest =>
      if raises name then [] else (name, value) :: accepted_prefix raises rest
  end.

(** The filter text the hook builds for an enabled loudnorm section. *)
Definition loudnorm_filter (l : LoudnormConfig) : string :=
  "loudnorm=I=" +:+ Py.str_of_int (i l) +:+ ":dual_mono="
  +:+ (if dual_mono l then "true" else "false").

(** Two host states that differ at most in what has been shown. *)
Definition same_settings (w w' : World) : Prop :=
  stored_config w' = stored_config w /\
  writable w' = writable w /\
  begin_playing_hooks w' = begin_playing_hooks w /\
  volume_shortcuts w' = volume_shortcuts w.

(** The warning a [load_config] shows on a host, if any. *)
Definition load_warning (repr : pyval -> string) (w : World) : list Event :=
  match snd (config.load_config_from repr (stored_config w)) with
  | Some x => [ShowWarning x]
  | None => []
  end.

(** The calls that reach the host: a shortcut callback ([adjust_volume],
    [toggle_mute], [adjust_speed] with the players of the moment), the
    slot [on_mute_changed_silent], [accept] on a dialog, and the playback
    hook. *)
Inductive Operation : Type :=
| PressVolume (delta : Z)
| PressMute
| PressSpeed (delta : float) (players : list ui.Player)
| CheckMute (state : Z)
| Accept (self : VolumeDialog)
| BeginPlaying (player : option MpvManager).

Definition perform (repr : pyval -> string)
    (toString : Qt.QKeySequence -> string) (format_speed : float -> string)
    (op : Operation) : UI unit :=
  match op with
  | PressVolume delta => ui.adjust_volume repr delta
  | PressMute => ui.toggle_mute repr
  | PressSpeed delta players =>
      ui.adjust_speed repr format_speed delta players ;; mret tt
  | CheckMute state => ui.on_mute_changed_silent repr state
  | Accept self => ui.accept repr toString self ;; mret tt
  | BeginPlaying player => hook.did_begin_playing repr player ;; mret tt
  end.

Fixpoint run (repr : pyval -> string)
    (toString : Qt.QKeySequence -> string) (format_speed : float -> string)
    (ops : list Operation) : UI unit :=
  match ops with
  | [] => mret tt
  | op :: rest =>
      perform repr toString format_speed op ;;
      run repr toString format_speed rest
  end.

(** The operations bound to the keyboard shortcuts. *)
Definition keyboard (op : Operation) : bool :=
  match op with
  | PressVolume _ | PressMute | PressSpeed _ _ => true
  | _ => false
  end.

(** A config the shortcut callbacks can have produced: the volume within
    the range its boost flag allows, muted when silent, the speed on the
    table. *)
Definition well_formed (c : VolumeConfig) : Prop :=
  0 <= volume c <= (if allow_volume_boost c then 200 else 100) /\
  (volume c = 0 -> is_muted c = true) /\
  In (playback_speed c) ui.SPEED_STEPS.

(** One operation: the host keeps its write switch, gains at most the one
    missing hook, and either leaves the settings alone or ends with the
    actions of what is stored. *)
Definition step_effect (repr : pyval -> string) (w w' : World) : Prop :=
  writable w' = writable w /\
  (begin_playing_hooks w' = begin_playing_hooks w \/
   begin_playing_hooks w' = S (Nat.pred (begin_playing_hooks w))) /\
  (volume_shortcuts w' = registered (config.persisted repr w') \/
   same_settings w w').

(** A slider and a spin box between events: the same range, the same
    value, inside the range. *)
Definition paired (slider spin_box : Qt.QRange) : Prop :=
  in_range slider /\
  Qt.minimum spin_box = Qt.minimum slider /\
  Qt.maximum spin_box = Qt.maximum slider /\
  Qt.value spin_box = Qt.value slider.

(** The editors of a list other than the one called [name]. *)
Definition other_editors (name : string)
    (editors : list (string * Qt.QKeySequence))
  : list (string * Qt.QKeySequence) :=
  List.filter (fun e => negb (String.eqb (fst e) name)) editors.

(** Another editor holds a sequence that is not empty and has the text
    of [sequence]. *)
Definition taken (toString : Qt.QKeySequence -> string) (name : string)
    (sequence : Qt.QKeySequence)
    (editors : list (string * Qt.QKeySequence)) : Prop :=
  exists name' sequence',
    In (name', sequence') editors /\ name' <> name /\ sequence' <> [] /\
    toString sequence' = toString sequence.

(** [value / 100] for a slider position. *)
Definition hundredths (value : Z) : float :=
  PrimFloat.div (FloatOps.SF2Prim (Py.round_Z value)) 100%float.

(** ** Sample inputs *)

(** A stand-in for the interpreter's [repr]. *)
Definition sample_repr (v : pyval) : string := "".

(** A stand-in for Qt's text of a key sequence: the numbers of each key
    combination. *)
Definition sample_toString (sequence : Qt.QKeySequence) : string :=
  String.concat ", "
    (map (fun k => Py.str_of_int (Qt.keyboardModifiers k) +:+ "+"
                   +:+ Py.str_of_int (Qt.key k)) sequence).

(** A host that stores [addon_config] and takes writes. *)
Definition world_with (addon_config : gmap string pyval) : World :=
  {| stored_config := Some (PDict addon_config);
     writable := true;
     begin_playing_hooks := 1;
     volume_shortcuts := [];
     shown := [] |}.

Definition muted_world : World :=
  world_with (list_to_map [("volume", PInt 40); ("is_muted", PBool true);
                           ("playback_speed", PFloat 1.5%float);
                           ("mute_shortcut", PStr "Ctrl+M")]).

Definition silent_world : World :=
  world_with (list_to_map [("volume", PInt 0); ("is_muted", PBool true)]).

Definition loud_world : World :=
  world_with (list_to_map [("volume", PInt 95)]).

(** The mapping of [test_invalid_playback_speed] with a valid volume
    beside it. *)
Definition bad_speed_config : gmap string pyval :=
  list_to_map [("volume", PInt 50); ("playback_speed", PStr "fast")].

Definition bad_loudnorm_config : gmap string pyval :=
  list_to_map [("loudnorm", PStr "not a dict"); ("is_muted", PBool true);
               ("volume", PInt 70); ("mute_shortcut", PStr "Ctrl+M")].

(** A loudnorm entry that is not a dict beside a speed that [float]
    rejects. *)
Definition bad_loudnorm_speed_config : gmap string pyval :=
  list_to_map [("loudnorm", PStr "not a dict"); ("volume", PInt 50);
               ("playback_speed", PStr "fast");
               ("mute_shortcut", PStr "Ctrl+M")].

(** A player that accepts every property. *)
Definition fresh_player : MpvManager :=
  {| raises_on := fun _ => false; properties := [] |}.

Definition ctrl_m : Qt.QKeySequence :=
  [{| Qt.keyboardModifiers := Qt.ControlModifier; Qt.key := 77 |}].

Definition ctrl_alt_up : Qt.QKeySequence :=
  [{| Qt.keyboardModifiers := Z.lor Qt.ControlModifier Qt.AltModifier;
      Qt.key := 0x01000013 |}].

Definition bare_m : Qt.QKeySequence :=
  [{| Qt.keyboardModifiers := 0; Qt.key := 77 |}].

(** A dialog with boost on, volume 150 and the given editors for volume
    up, volume down and mute. *)
Definition sample_dialog (up down mute : Qt.QKeySequence) : VolumeDialog :=
  {| _current_session_boost_enabled := true;
     volume_slider := {| Qt.minimum := 0; Qt.maximum := 200; Qt.value := 150 |};
     volume_spin_box :=
       {| Qt.minimum := 0; Qt.maximum := 200; Qt.value := 150 |};
     volume_boost_check_box := true;
     mute_check_box := false;
     loudnorm_group_box := false;
     i_spin_box := {| Qt.minimum := -50; Qt.maximum := -14; Qt.value := -24 |};
     dual_mono_check_box := false;
     volume_up_shortcut_edit := up;
     volume_down_shortcut_edit := down;
     mute_shortcut_edit := mute;
     settings_shortcut_edit := [];
     speed_up_shortcut_edit := [];
     speed_down_shortcut_edit := [];
     speed_slider := {| Qt.minimum := 25; Qt.maximum := 200; Qt.value := 110 |}
  |}.

(** A stand-in for the format [.2f]. *)
Definition sample_format_speed (x : float) : string := "".

(** A host that refuses writes. *)
Definition offline_world : World :=
  {| stored_config := Some (PDict (list_to_map [("volume", PInt 50)]));
     writable := false;
     begin_playing_hooks := 1;
     volume_shortcuts := [];
     shown := [] |}.

(** A mapping whose numbers are stored under other types: a volume as
    text, a speed as an integer, a loudness target as a float. *)
Definition typed_config : gmap string pyval :=
  list_to_map
    [("volume", PStr " 70 "); ("playback_speed", PInt 2);
     ("loudnorm", PDict (list_to_map [("i", PFloat (-16.5)%float)]))].

Definition bad_target_config : gmap string pyval :=
  list_to_map
    [("volume", PInt 60);
     ("loudnorm",
       PDict (list_to_map [("enabled", PBool true); ("i", PStr "loud");
                           ("dual_mono", PBool true)]))].

(** A player that raises on the audio filter. *)
Definition deaf_player : MpvManager :=
  {| raises_on := fun name => String.eqb name "af"; properties := [] |}.

Definition sample_presses : list Operation :=
  [PressVolume 10; PressMute; PressSpeed 0.1%float [ui.Mpv fresh_player];
   PressVolume (-200)].

(** The sample dialog before boost was allowed: volume 80 of 100. *)
Definition plain_dialog : VolumeDialog :=
  {| _current_session_boost_enabled := false;
     volume_slider := {| Qt.minimum := 0; Qt.maximum := 100; Qt.value := 80 |};
     volume_spin_box :=
       {| Qt.minimum := 0; Qt.maximum := 100; Qt.value := 80 |};
     volume_boost_check_box := false;
     mute_check_box := false;
     loudnorm_group_box := false;
     i_spin_box := {| Qt.minimum := -50; Qt.maximum := -14; Qt.value := -24 |};
     dual_mono_check_box := false;
     volume_up_shortcut_edit := [];
     volume_down_shortcut_edit := [];
     mute_shortcut_edit := [];
     settings_shortcut_edit := [];
     speed_up_shortcut_edit := [];
     speed_down_shortcut_edit := [];
     speed_slider := {| Qt.minimum := 25; Qt.maximum := 200; Qt.value := 100 |}
  |}.

(** The plain dialog with the volume at 0 and the mute box unchecked. *)
Definition silent_dialog : VolumeDialog :=
  set_volume_widgets
    {| Qt.minimum := 0; Qt.maximum := 100; Qt.value := 0 |}
    {| Qt.minimum := 0; Qt.maximum := 100; Qt.value := 0 |}
    plain_dialog.

Definition all_enabled : Enabled :=
  {| slider_enabled := true; spin_box_enabled := true;
     mute_enabled := true |}.

(** ** Proof tools *)

Ltac try_unfold :=
  unfold mbind, Try_bind, mret, Try_ret, eval, assign in *.

Ltac project := cbn [Qt.minimum Qt.maximum Qt.value] in *.

Ltac conflict H :=
  match type of H with
  | ?a = true =>
      match goal with
      | H' : a = false |- _ => rewrite H in H'; discriminate H'
      end
  end.

Section Properties.

Variable repr : pyval -> string.
Variable toString : Qt.QKeySequence -> string.

(** ** The host monad *)

Lemma exec_bind {A B : Type} (m : UI A) (k : A -> UI B) (w : World) :
  exec (m ≫= k) w = exec (k (fst (m w))) (exec m w).
Proof. unfold exec, mbind, UI_bind. destruct (m w); reflexivity. Qed.

Lemma value_bind {A B : Type} (m : UI A) (k : A -> UI B) (w : World) :
  fst ((m ≫= k) w) = fst (k (fst (m w)) (exec m w)).
Proof. unfold exec, mbind, UI_bind. destruct (m w); reflexivity. Qed.

Lemma exec_modify (f : World -> World) (w : World) : exec (modify f) w = f w.
Proof. reflexivity. Qed.

Lemma exec_ret {A : Type} (a : A) (w : World) : exec (mret a) w = w.
Proof. reflexivity. Qed.

Lemma exec_tooltip (text : string) (w : World) :
  exec (tooltip text) w = set_shown (shown w ++ [Tooltip text]) w.
Proof. reflexivity. Qed.

(** ** config.py: the unit tests of test_config.py *)

Example test_default :
  fst (config.load_config_from repr (Some (PDict ∅))) = default_config.
Proof. reflexivity. Qed.

Example test_full_valid_config :
  fst (config.load_config_from repr
         (Some (PDict (list_to_map
            [("volume", PInt 50); ("is_muted", PBool true);
             ("allow_volume_boost", PBool true);
             ("mute_shortcut", PStr "M"); ("settings_shortcut", PStr "S");
             ("volume_up_shortcut", PStr "U");
             ("volume_down_shortcut", PStr "D");
             ("speed_up_shortcut", PStr "R");
             ("speed_down_shortcut", PStr "L");
             ("playback_speed", PFloat 1.5%float);
             ("loudnorm", PDict (list_to_map
                [("enabled", PBool true); ("i", PInt (-10));
                 ("dual_mono", PBool true)]))])))) =
  {| volume := 50; is_muted := true; allow_volume_boost := true;
     mute_shortcut := "M"; settings_shortcut := "S";
     volume_up_shortcut := "U"; volume_down_shortcut := "D";
     loudnorm := {| enabled := true; i := -10; dual_mono := true |};
     playback_speed := 1.5%float;
     speed_up_shortcut := "R"; speed_down_shortcut := "L" |}.
Proof. vm_compute. reflexivity. Qed.

Example test_valid_volume :
  volume (fst (config.load_config_from repr
                 (Some (PDict (list_to_map [("volume", PInt 70)]))))) = 70.
Proof. vm_compute. reflexivity. Qed.

Example test_invalid_volume :
  fst (config.load_config_from repr
         (Some (PDict (list_to_map [("volume", PStr "a")])))) =
  default_config.
Proof. vm_compute. reflexivity. Qed.

Example test_playback_speed :
  playback_speed
    (fst (config.load_config_from repr
            (Some (PDict (list_to_map
               [("playback_speed", PFloat 2.0%float)]))))) = 2.0%float.
Proof. vm_compute. reflexivity. Qed.

Example test_invalid_playback_speed :
  fst (config.load_config_from repr
         (Some (PDict (list_to_map [("playback_speed", PStr "fast")])))) =
  default_config.
Proof. vm_compute. reflexivity. Qed.

Example test_shortcuts :
  let actual :=
    fst (config.load_config_from repr
           (Some (PDict (list_to_map
              [("mute_shortcut", PStr "Ctrl+M");
               ("volume_up_shortcut", PStr "Ctrl+Up")])))) in
  mute_shortcut actual = "Ctrl+M" /\ volume_up_shortcut actual = "Ctrl+Up" /\
  settings_shortcut actual = "".
Proof. vm_compute. repeat split. Qed.

Example test_empty_shortcuts :
  mute_shortcut
    (fst (config.load_config_from repr
            (Some (PDict (list_to_map [("mute_shortcut", PStr "")]))))) = "".
Proof. vm_compute. reflexivity. Qed.

Example test_loudnorm_partial :
  loudnorm
    (fst (config.load_config_from repr
            (Some (PDict (list_to_map
               [("loudnorm",
                 PDict (list_to_map [("enabled", PBool true)]))]))))) =
  {| enabled := true; i := -24; dual_mono := false |}.
Proof. vm_compute. reflexivity. Qed.

Example test_loudnorm_invalid_type :
  fst (config.load_config_from repr
         (Some (PDict (list_to_map [("loudnorm", PStr "not a dict")])))) =
  default_config.
Proof. vm_compute. reflexivity. Qed.

Example test_invalid_config_format :
  config.load_config_from repr (Some (PStr "not a dict")) =
  (default_config, Some InvalidFormat).
Proof. reflexivity. Qed.

(** ** config.py: loading *)

Lemma dict_with_key_truthy (d : gmap string pyval) (k : string) (v : pyval) :
  d !! k = Some v -> Py.bool (PDict d) = true.
Proof.
  intros H. simpl. destruct (Nat.eqb_spec (size d) 0) as [E|E]; [|reflexivity].
  apply map_size_empty_iff in E. subst d. rewrite lookup_empty in H.
  discriminate.
Qed.

(** What is saved loads back as it was, without a warning. *)
Lemma load_saved (c : VolumeConfig) :
  config.load_config_from repr (Some (PDict (config.config_dict c))) =
  (c, None).
Proof.
  destruct c as [v m b s1 s2 s3 s4 [e n dm] x s5 s6].
  destruct s1, s2, s3, s4, s5, s6; vm_compute; reflexivity.
Qed.

(** A volume that [int] rejects: nothing has been assigned when the
    exception is raised, and the defaults are returned. *)
Lemma load_config_bad_volume (d : gmap string pyval) :
  Py.int (Py.get d "volume" (PInt 100)) = None ->
  fst (config.load_config_from repr (Some (PDict d))) = default_config.
Proof.
  intros H. unfold config.load_config_from.
  destruct (Py.bool (PDict d)); [|reflexivity].
  unfold config.load_fields. try_unfold. rewrite H. reflexivity.
Qed.

(** A speed that [float] rejects: the three attributes assigned before it
    keep what was stored. *)
Lemma load_config_bad_speed (d : gmap string pyval) (n : Z) :
  Py.bool (PDict d) = true ->
  Py.int (Py.get d "volume" (PInt 100)) = Some n ->
  Py.float (Py.get d "playback_speed" (PFloat 1)) = None ->
  config.load_config_from repr (Some (PDict d)) =
  (set_allow_volume_boost
     (Py.bool (Py.get d "allow_volume_boost" (PBool false)))
     (set_is_muted (Py.bool (Py.get d "is_muted" (PBool false)))
        (set_volume n default_config)),
   Some LoadError).
Proof.
  intros Hb Hv Hs. unfold config.load_config_from. rewrite Hb.
  unfold config.load_fields. try_unfold. rewrite Hv, Hs. reflexivity.
Qed.

(** C1 (the code departs from the claim).  The claim: a mapping whose
    volume or playback_speed is not numeric loads as the all-defaults
    parameters whatever the other fields hold.  The code: with a stored
    volume of 50 and the speed text fast, [float] raises after the volume
    has been assigned, and the object returned keeps volume 50 instead of
    the default 100. *)
Theorem load_config_bad_speed_keeps_volume :
  Py.float (PStr "fast") = None /\
  config.load_config_from repr (Some (PDict bad_speed_config)) =
    (set_volume 50 default_config, Some LoadError) /\
  volume (fst (config.load_config_from repr (Some (PDict bad_speed_config))))
    <> volume default_config.
Proof.
  split; [|split].
  - vm_compute. reflexivity.
  - vm_compute. reflexivity.
  - vm_compute. discriminate.
Qed.

(** A value under the key loudnorm that is not a dict is passed over: the
    result is the one of the mapping without that key. *)
Lemma load_config_ignores_bad_loudnorm (d : gmap string pyval) (v : pyval) :
  d !! "loudnorm" = Some v ->
  Py.is_dict v = false ->
  config.load_config_from repr (Some (PDict d)) =
  config.load_config_from repr (Some (PDict (delete "loudnorm" d))).
Proof.
  intros Hl Hnd.
  assert (Hg : Py.get d "loudnorm" (PDict ∅) = v)
    by (unfold Py.get; rewrite Hl; reflexivity).
  assert (G : forall k def, k <> "loudnorm" ->
                Py.get (delete "loudnorm" d) k def = Py.get d k def).
  { intros k def Hk. unfold Py.get. rewrite lookup_delete_ne by congruence.
    reflexivity. }
  assert (GL : Py.get (delete "loudnorm" d) "loudnorm" (PDict ∅) = PDict ∅).
  { unfold Py.get. rewrite lookup_delete_eq. reflexivity. }
  unfold config.load_config_from. rewrite (dict_with_key_truthy d _ _ Hl).
  destruct (Py.bool (PDict (delete "loudnorm" d))) eqn:Hb.
  - unfold config.load_fields. cbn [for_each config.shortcut_names].
    rewrite GL, Hg. rewrite !G by discriminate. try_unfold.
    destruct (Py.int (Py.get d "volume" (PInt 100))) as [n|]; [|reflexivity].
    destruct (Py.float (Py.get d "playback_speed" (PFloat 1))) as [x|];
      [|reflexivity].
    destruct v; try reflexivity. discriminate.
  - assert (E : delete "loudnorm" d = ∅).
    { apply map_size_empty_iff. simpl in Hb.
      destruct (Nat.eqb_spec (size (delete "loudnorm" d)) 0);
        [assumption|discriminate]. }
    assert (D : forall k def, k <> "loudnorm" -> Py.get d k def = def).
    { intros k def Hk. rewrite <- G by assumption. rewrite E. reflexivity. }
    unfold config.load_fields. cbn [for_each config.shortcut_names].
    rewrite Hg. rewrite !D by discriminate.
    destruct v; try reflexivity. discriminate.
Qed.

(** C9 (amended).  The claim: with a value under the key loudnorm that is
    not a dict, the loudnorm section loads as its defaults while every
    other recognized field loads its stored value normally.  The other
    fields do so only when the load reaches them: a volume [int] rejects
    or a speed [float] rejects ends the load first, as for any mapping
    (lemma [loudnorm_not_a_dict_counterexample]).  As amended: the loaded
    loudnorm section is the default one (enabled false, i -24, dual_mono
    false); the load is the one of the same mapping without that key; and
    when [int] accepts the stored volume and [float] the stored speed, no
    warning is shown and every other attribute holds its stored value,
    converted as usual. *)
Theorem loudnorm_not_a_dict_defaults_section_only
    (d : gmap string pyval) (v : pyval) :
  d !! "loudnorm" = Some v ->
  Py.is_dict v = false ->
  let loaded := fst (config.load_config_from repr (Some (PDict d))) in
  loudnorm loaded = default_loudnorm /\
  config.load_config_from repr (Some (PDict d)) =
    config.load_config_from repr (Some (PDict (delete "loudnorm" d))) /\
  (forall n x,
     Py.int (Py.get d "volume" (PInt 100)) = Some n ->
     Py.float (Py.get d "playback_speed" (PFloat 1)) = Some x ->
     config.load_config_from repr (Some (PDict d)) =
     ({| volume := n;
         is_muted := Py.bool (Py.get d "is_muted" (PBool false));
         allow_volume_boost :=
           Py.bool (Py.get d "allow_volume_boost" (PBool false));
         mute_shortcut := shortcut_value repr d "mute_shortcut";
         settings_shortcut := shortcut_value repr d "settings_shortcut";
         volume_up_shortcut := shortcut_value repr d "volume_up_shortcut";
         volume_down_shortcut := shortcut_value repr d "volume_down_shortcut";
         loudnorm := default_loudnorm;
         playback_speed := x;
         speed_up_shortcut := shortcut_value repr d "speed_up_shortcut";
         speed_down_shortcut := shortcut_value repr d "speed_down_shortcut"
       |}, None)).
Proof.
  intros Hl Hnd loaded.
  split; [|split; [exact (load_config_ignores_bad_loudnorm d v Hl Hnd)|]];
    subst loaded; unfold config.load_config_from;
    rewrite (dict_with_key_truthy d _ _ Hl);
    unfold config.load_fields;
    assert (Hg : Py.get d "loudnorm" (PDict ∅) = v)
      by (unfold Py.get; rewrite Hl; reflexivity);
    rewrite Hg; clear Hg Hl; try_unfold.
  - destruct (Py.int (Py.get d "volume" (PInt 100))) as [n|]; [|reflexivity].
    destruct (Py.float (Py.get d "playback_speed" (PFloat 1))) as [x|];
      [|reflexivity].
    destruct v; try reflexivity. discriminate.
  - intros n x Hn Hx. rewrite Hn, Hx.
    destruct v; try reflexivity. discriminate.
Qed.

(** ** hook.py *)

Lemma set_property_accepted (name : string) (value : PropertyValue)
    (player : MpvManager) :
  raises_on player name = false ->
  hook.set_property name value player =
  ({| raises_on := raises_on player;
      properties := (properties player ++ [(name, value)])%list |}, Some tt).
Proof. intros H. unfold hook.set_property. rewrite H. reflexivity. Qed.

(** With a muted or silent config and a player that accepts every
    property, two properties are set and the function returns. *)
Lemma set_properties_silent (c : VolumeConfig) (player : MpvManager) :
  is_muted c = true \/ volume c = 0 ->
  (forall name, raises_on player name = false) ->
  properties (fst (hook.set_properties c player)) =
  (properties player ++ [("volume", IntValue 0); ("af", StrValue "")])%list.
Proof.
  intros Hc Hp. unfold hook.set_properties. try_unfold.
  rewrite set_property_accepted by apply Hp.
  assert (Hz : (if is_muted c then 0 else volume c) = 0).
  { destruct (is_muted c); [reflexivity|]. destruct Hc; [discriminate|assumption]. }
  rewrite Hz, Z.eqb_refl, orb_true_r.
  rewrite set_property_accepted by apply Hp.
  cbn [fst properties]. rewrite <- app_assoc. reflexivity.
Qed.

(** With an audible config the speed is the last property set. *)
Lemma set_properties_audible (c : VolumeConfig) (player : MpvManager) :
  is_muted c = false -> volume c <> 0 ->
  (forall name, raises_on player name = false) ->
  exists filter,
    properties (fst (hook.set_properties c player)) =
    (properties player ++
     [("volume", IntValue (volume c)); ("af", StrValue filter);
      ("speed", FloatValue (playback_speed c))])%list.
Proof.
  intros Hm Hv Hp. unfold hook.set_properties. try_unfold.
  rewrite Hm. cbn [orb].
  rewrite set_property_accepted by apply Hp.
  destruct (Z.eqb_spec (volume c) 0) as [E|_]; [contradiction|].
  destruct (enabled (loudnorm c)); eexists;
    rewrite set_property_accepted by apply Hp;
    rewrite set_property_accepted by apply Hp;
    cbn [fst properties]; rewrite <- !app_assoc; reflexivity.
Qed.

(** C2 (the code departs from the claim).  The claim: the hook sets the
    player's speed to playback_speed whatever the mute and volume branch
    does.  The code: for the stored config of [muted_world] (muted, speed
    1.5) the hook sets volume 0, clears the filter and returns; no speed
    property is set. *)
Theorem did_begin_playing_muted_skips_speed :
  playback_speed (config.persisted repr muted_world) = 1.5%float /\
  option_map properties
    (fst (hook.did_begin_playing repr (Some fresh_player) muted_world)) =
  Some [("volume", IntValue 0); ("af", StrValue "")].
Proof. split; vm_compute; reflexivity. Qed.

(** ** ui.py: what the host keeps *)

Lemma load_config_value (w : World) :
  fst (config.load_config repr w) = config.persisted repr w.
Proof.
  unfold config.load_config, config.persisted.
  destruct (config.load_config_from repr (stored_config w)) as [c [x|]];
    reflexivity.
Qed.

(** Loading shows at most a warning. *)
Lemma exec_load_config (w : World) :
  let w' := exec (config.load_config repr) w in
  stored_config w' = stored_config w /\
  writable w' = writable w /\
  begin_playing_hooks w' = begin_playing_hooks w /\
  volume_shortcuts w' = volume_shortcuts w.
Proof.
  unfold config.load_config, exec.
  destruct (config.load_config_from repr (stored_config w)) as [c [x|]];
    simpl; auto.
Qed.

Lemma persisted_set_shown (l : list Event) (w : World) :
  config.persisted repr (set_shown l w) = config.persisted repr w.
Proof. reflexivity. Qed.

Lemma register_all_exec (l : list (string * Callback)) (w : World) :
  exec (ui.register_all l) w =
  set_volume_shortcuts
    (volume_shortcuts w ++
     omap (fun '(key, fn) => ui.register_shortcut key fn) l)%list w.
Proof.
  revert w. induction l as [|[key fn] l IH]; intros w; simpl.
  - rewrite exec_ret, app_nil_r. destruct w; reflexivity.
  - rewrite exec_bind, IH.
    destruct (ui.register_shortcut key fn) as [a|]; simpl.
    + rewrite <- app_assoc. reflexivity.
    + reflexivity.
Qed.

(** [setup_shortcuts] replaces the actions by those of the stored
    config and touches nothing else of the host. *)
Lemma setup_shortcuts_exec (w : World) :
  let w' := exec (ui.setup_shortcuts repr) w in
  stored_config w' = stored_config w /\
  writable w' = writable w /\
  begin_playing_hooks w' = begin_playing_hooks w /\
  volume_shortcuts w' = registered (config.persisted repr w).
Proof.
  unfold ui.setup_shortcuts. cbv zeta.
  rewrite exec_bind, exec_bind, exec_modify, register_all_exec,
    load_config_value.
  destruct (exec_load_config w) as (H1 & H2 & H3 & H4).
  simpl. auto.
Qed.

Lemma config_save_exec (c : VolumeConfig) (w : World) :
  writable w = true ->
  exec (config.save_config c) w =
  set_stored_config (Some (PDict (config.config_dict c))) w.
Proof. intros H. unfold config.save_config, exec. rewrite H. reflexivity. Qed.

(** Saving from the UI, when the host takes the write: the config is
    stored, loads back as it is, and its shortcuts are the live ones. *)
Lemma save_config_exec (c : VolumeConfig) (w : World) :
  writable w = true ->
  let w' := exec (ui.save_config repr c) w in
  stored_config w' = Some (PDict (config.config_dict c)) /\
  writable w' = true /\
  config.persisted repr w' = c /\
  volume_shortcuts w' = registered c.
Proof.
  intros Hw. unfold ui.save_config. cbv zeta.
  rewrite !exec_bind, !exec_modify, config_save_exec by assumption.
  match goal with |- context [exec (ui.setup_shortcuts repr) ?w0] =>
    destruct (setup_shortcuts_exec w0) as (H1 & H2 & H3 & H4);
    assert (Hp : config.persisted repr w0 = c)
      by (unfold config.persisted;
          cbn [stored_config set_begin_playing_hooks set_stored_config];
          rewrite load_saved; reflexivity)
  end.
  rewrite Hp in H4.
  cbn [stored_config writable set_begin_playing_hooks set_stored_config]
    in H1, H2.
  repeat split; try assumption.
  - rewrite H2. exact Hw.
  - unfold config.persisted. rewrite H1, load_saved. reflexivity.
Qed.

(** ** ui.py: [adjust_volume] *)

Lemma adjust_volume_exec (delta : Z) (w : World) :
  writable w = true ->
  let w' := exec (ui.adjust_volume repr delta) w in
  let c' := ui.adjusted delta (config.persisted repr w) in
  stored_config w' = Some (PDict (config.config_dict c')) /\
  config.persisted repr w' = c'.
Proof.
  intros Hw. unfold ui.adjust_volume. cbv zeta.
  rewrite !exec_bind, exec_tooltip, load_config_value.
  destruct (exec_load_config w) as (_ & H2 & _).
  rewrite <- H2 in Hw.
  destruct (save_config_exec (ui.adjusted delta (config.persisted repr w))
              _ Hw) as (H1 & _ & H3 & _).
  split.
  - exact H1.
  - rewrite persisted_set_shown. exact H3.
Qed.

(** [adjusted] assigns the volume and the mute flag and nothing else. *)
Lemma adjusted_shape (delta : Z) (c : VolumeConfig) :
  exists m v, ui.adjusted delta c = set_volume v (set_is_muted m c).
Proof.
  unfold ui.adjusted.
  set (max_volume := if allow_volume_boost c then 200 else 100).
  set (new_volume := Z.max 0 _).
  set (delta' := if Z.abs delta >? max_volume then _ else delta).
  destruct (new_volume =? 0); [eexists _, _; reflexivity|].
  destruct (_ && _); [eexists _, _; reflexivity|].
  destruct (_ && _); [eexists _, _; reflexivity|].
  exists (is_muted c), new_volume. destruct c; reflexivity.
Qed.

(** C3.  For every parameters and every delta, the mute flag that
    [adjust_volume] computes follows the priority rules: true if the new
    volume is 0; else false if the old volume was 0 and the new one is
    positive; else false if delta is positive and the parameters were
    muted; else unchanged.  These are the parameters stored afterwards
    when the host takes the write. *)
Theorem adjust_volume_mute_priority (before : VolumeConfig) (delta : Z) :
  let after := ui.adjusted delta before in
  is_muted after =
    (if volume after =? 0 then true
     else if (volume before =? 0) && (0 <? volume after) then false
     else if (0 <? delta) && is_muted before then false
     else is_muted before) /\
  forall w,
    config.persisted repr w = before -> writable w = true ->
    config.persisted repr (exec (ui.adjust_volume repr delta) w) = after.
Proof.
  cbv zeta. split.
  - unfold ui.adjusted.
    set (max_volume := if allow_volume_boost before then 200 else 100).
    assert (Hmax : 0 < max_volume)
      by (subst max_volume; destruct (allow_volume_boost before); lia).
    set (new_volume := Z.max 0 (Z.min max_volume (volume before + delta))).
    set (delta' := if Z.abs delta >? max_volume then _ else delta).
    assert (Hd : (delta' >? 0) = (0 <? delta)).
    { subst delta'. rewrite !Z.gtb_ltb.
      destruct (Z.ltb_spec max_volume (Z.abs delta)); [|reflexivity].
      destruct (Z.ltb_spec 0 delta);
        [apply Z.ltb_lt; lia | apply Z.ltb_ge; lia]. }
    rewrite Hd, (Z.gtb_ltb new_volume 0). cbn [volume set_volume].
    destruct (new_volume =? 0); [reflexivity|].
    destruct ((volume before =? 0) && (0 <? new_volume)); [reflexivity|].
    destruct ((0 <? delta) && is_muted before); reflexivity.
  - intros w <- Hw. exact (proj2 (adjust_volume_exec delta w Hw)).
Qed.

(** C6.  For every parameters and every delta, the volume that
    [adjust_volume] computes lies between 0 and the maximum, which is 200
    when allow_volume_boost is set and 100 otherwise; the flag itself is
    not changed.  No bound on the volume before is needed.  These are the
    parameters stored afterwards when the host takes the write. *)
Theorem adjust_volume_within_range (before : VolumeConfig) (delta : Z) :
  let after := ui.adjusted delta before in
  let max_volume := if allow_volume_boost before then 200 else 100 in
  0 <= volume after <= max_volume /\
  allow_volume_boost after = allow_volume_boost before /\
  forall w,
    config.persisted repr w = before -> writable w = true ->
    config.persisted repr (exec (ui.adjust_volume repr delta) w) = after.
Proof.
  cbv zeta. split; [|split].
  - unfold ui.adjusted. cbn [volume set_volume].
    destruct (allow_volume_boost before); lia.
  - destruct (adjusted_shape delta before) as (m & v & ->). reflexivity.
  - intros w <- Hw. exact (proj2 (adjust_volume_exec delta w Hw)).
Qed.

(** C10.  [adjust_volume] changes the volume and the mute flag only: in
    the parameters it computes, and stores when the host takes the write,
    the speed, the loudnorm section and the six shortcut texts are the
    loaded ones. *)
Theorem adjust_volume_frame (before : VolumeConfig) (delta : Z) :
  let after := ui.adjusted delta before in
  playback_speed after = playback_speed before /\
  loudnorm after = loudnorm before /\
  allow_volume_boost after = allow_volume_boost before /\
  mute_shortcut after = mute_shortcut before /\
  settings_shortcut after = settings_shortcut before /\
  volume_up_shortcut after = volume_up_shortcut before /\
  volume_down_shortcut after = volume_down_shortcut before /\
  speed_up_shortcut after = speed_up_shortcut before /\
  speed_down_shortcut after = speed_down_shortcut before /\
  forall w,
    config.persisted repr w = before -> writable w = true ->
    stored_config (exec (ui.adjust_volume repr delta) w) =
      Some (PDict (config.config_dict after)) /\
    config.persisted repr (exec (ui.adjust_volume repr delta) w) = after.
Proof.
  cbv zeta.
  assert (Hw : forall w,
    config.persisted repr w = before -> writable w = true ->
    stored_config (exec (ui.adjust_volume repr delta) w) =
      Some (PDict (config.config_dict (ui.adjusted delta before))) /\
    config.persisted repr (exec (ui.adjust_volume repr delta) w) =
      ui.adjusted delta before).
  { intros w <- Hw. exact (adjust_volume_exec delta w Hw). }
  destruct (adjusted_shape delta before) as (m & v & E).
  rewrite E in *. cbn. repeat split; apply Hw; assumption.
Qed.

(** ** ui.py: [toggle_mute] *)

(** C5.  With a stored volume of 0, [toggle_mute] writes nothing: the
    stored parameters and the shortcuts are as before, and the tooltip
    says why.  With a positive volume and a host that takes the write, the
    parameters stored afterwards are the loaded ones with the mute flag
    flipped. *)
Theorem toggle_mute_rejects_zero_else_flips (w : World) :
  let before := config.persisted repr w in
  let w' := exec (ui.toggle_mute repr) w in
  (volume before = 0 ->
     stored_config w' = stored_config w /\
     config.persisted repr w' = before /\
     volume_shortcuts w' = volume_shortcuts w /\
     List.last (shown w') (Tooltip "") =
       Tooltip "Cannot toggle mute when volume is 0") /\
  (0 < volume before -> writable w = true ->
     let flipped := set_is_muted (negb (is_muted before)) before in
     stored_config w' = Some (PDict (config.config_dict flipped)) /\
     config.persisted repr w' = flipped /\
     is_muted (config.persisted repr w') = negb (is_muted before)).
Proof.
  intros before w'. subst w'. unfold ui.toggle_mute.
  rewrite exec_bind, load_config_value. fold before.
  destruct (exec_load_config w) as (H1 & H2 & H3 & H4).
  split.
  - intros Hz. rewrite Hz. cbn [Z.gtb Z.compare]. rewrite exec_tooltip.
    cbn [stored_config volume_shortcuts shown set_shown].
    repeat split; try assumption.
    + subst before. unfold config.persisted. cbn [stored_config set_shown].
      rewrite H1. reflexivity.
    + apply last_last.
  - intros Hpos Hw. cbv zeta.
    set (flipped := set_is_muted (negb (is_muted before)) before).
    assert (Hg : (volume before >? 0) = true) by (apply Z.gtb_lt; lia).
    rewrite Hg, exec_bind, exec_tooltip. rewrite <- H2 in Hw.
    destruct (save_config_exec flipped _ Hw) as (E1 & _ & E3 & _).
    rewrite persisted_set_shown.
    split; [exact E1|]. split; [exact E3|]. rewrite E3. reflexivity.
Qed.

(** ** ui.py: [_get_nearest_speed] *)

(** C4.  For a current speed on the step table: going up returns the
    smallest entry strictly greater, going down the largest entry strictly
    less; at 2.0 going up and at 0.25 going down the current value is
    returned.  In particular 1.0 goes up to 1.1, 2.0 goes up to 2.0 and
    0.25 goes down to 0.25. *)
Theorem nearest_speed_on_table (current : float) :
  In current ui.SPEED_STEPS ->
  let up := ui._get_nearest_speed current true in
  let down := ui._get_nearest_speed current false in
  In up ui.SPEED_STEPS /\ In down ui.SPEED_STEPS /\
  (if PrimFloat.ltb current 2.0 then
     PrimFloat.ltb current up = true /\
     forall s, In s ui.SPEED_STEPS -> PrimFloat.ltb current s = true ->
               PrimFloat.leb up s = true
   else up = current) /\
  (if PrimFloat.ltb 0.25 current then
     PrimFloat.ltb down current = true /\
     forall s, In s ui.SPEED_STEPS -> PrimFloat.ltb s current = true ->
               PrimFloat.leb s down = true
   else down = current) /\
  ui._get_nearest_speed 1.0 true = 1.1%float /\
  ui._get_nearest_speed 2.0 true = 2.0%float /\
  ui._get_nearest_speed 0.25 false = 0.25%float.
Proof.
  intros Hin.
  repeat (destruct Hin as [<- | Hin];
          [ vm_compute; repeat split; try tauto;
            intros s Hs;
            repeat (destruct Hs as [<- | Hs];
                    [ vm_compute; intros; try reflexivity; discriminate | ]);
            contradiction
          | ]).
  contradiction.
Qed.

(** ** ui.py: [VolumeDialog.accept] *)

Lemma isEmpty_false (sequence : Qt.QKeySequence) :
  Qt.isEmpty sequence = false <-> sequence <> [].
Proof. destruct sequence; simpl; split; congruence. Qed.

(** The first loop finds an editor exactly when one has no modifier. *)
Lemma missing_modifier_iff (editors : list (string * Qt.QKeySequence)) :
  ui.missing_modifier editors = true <-> unmodified editors.
Proof.
  unfold unmodified. induction editors as [|[name sequence] rest IH]; simpl.
  - split; [discriminate|]. intros (? & ? & [] & _).
  - destruct (Qt.isEmpty sequence) eqn:He; simpl.
    + rewrite IH. split.
      * intros (n & s & Hin & H). exists n, s. auto.
      * intros (n & s & [Heq|Hin] & Hne & Hm).
        -- injection Heq as <- <-. destruct sequence; [congruence|discriminate].
        -- exists n, s. auto.
    + destruct (ui.has_modifier sequence) eqn:Hm; simpl.
      * rewrite IH. split.
        -- intros (n & s & Hin & H). exists n, s. auto.
        -- intros (n & s & [Heq|Hin] & Hne & Hm').
           ++ injection Heq as <- <-. congruence.
           ++ exists n, s. auto.
      * split; [|reflexivity]. intros _. exists name, sequence.
        split; [auto|]. split; [apply isEmpty_false; exact He | exact Hm].
Qed.

(** The second loop, from any set of texts already met: it stops exactly
    when an editor repeats one of them or two editors clash. *)
Lemma duplicate_shortcut_iff (editors : list (string * Qt.QKeySequence))
    (used : gmap string string) :
  NoDup (map fst editors) ->
  is_Some (ui.duplicate_shortcut toString editors used) <->
  (exists name sequence,
      In (name, sequence) editors /\ sequence <> [] /\
      is_Some (used !! toString sequence)) \/
  clash toString editors.
Proof.
  unfold clash. revert used.
  induction editors as [|[name sequence] rest IH]; intros used Hnd; simpl.
  - split.
    + intros [? ?]. discriminate.
    + intros [(? & ? & [] & _) | (? & ? & ? & ? & [] & _)].
  - inversion Hnd as [|? ? Hnotin Hnd']; subst. simpl in Hnotin.
    destruct (Qt.isEmpty sequence) eqn:He; simpl.
    + (* an empty editor takes no part *)
      assert (Hs : sequence = [])
        by (destruct sequence; [reflexivity|discriminate]).
      rewrite (IH used Hnd'). split.
      * intros [(n & s & Hin & H) | (n1 & s1 & n2 & s2 & H1 & H2 & H)].
        -- left. exists n, s. auto.
        -- right. exists n1, s1, n2, s2. auto.
      * intros [(n & s & [Heq|Hin] & Hne & H) |
                (n1 & s1 & n2 & s2 & [E1|H1] & [E2|H2] & Hn & Hne1 & Hne2 & Ht)].
        -- injection Heq as <- <-. congruence.
        -- left. exists n, s. auto.
        -- injection E1 as <- <-. congruence.
        -- injection E1 as <- <-. congruence.
        -- injection E2 as <- <-. congruence.
        -- right. exists n1, s1, n2, s2. auto 7.
    + apply isEmpty_false in He.
      destruct (used !! toString sequence) as [owner|] eqn:Hu.
      * split; [|intros _; eexists; reflexivity]. intros _. left.
        exists name, sequence. rewrite Hu.
        split; [auto|]. split; [exact He|eauto].
      * rewrite (IH _ Hnd'). split.
        -- intros [(n & s & Hin & Hne & Hsome) |
                   (n1 & s1 & n2 & s2 & H1 & H2 & H)].
           ++ destruct (decide (toString sequence = toString s)) as [Et|Et].
              ** right. exists name, sequence, n, s.
                 split; [auto|]. split; [auto|]. split; [|auto].
                 intros ->. apply Hnotin. apply list_elem_of_In, in_map_iff.
                 exists (n, s). auto.
              ** left. exists n, s.
                 rewrite lookup_insert_ne in Hsome by exact Et. auto.
           ++ right. exists n1, s1, n2, s2. auto.
        -- intros [(n & s & [Heq|Hin] & Hne & Hsome) |
                   (n1 & s1 & n2 & s2 & [E1|H1] & [E2|H2] & Hn & Hne1 & Hne2 & Ht)].
           ++ injection Heq as <- <-. rewrite Hu in Hsome.
              destruct Hsome; discriminate.
           ++ left. exists n, s. split; [exact Hin|]. split; [exact Hne|].
              destruct (decide (toString sequence = toString s)) as [Et|Et].
              ** rewrite Et, lookup_insert_eq. eauto.
              ** rewrite lookup_insert_ne by exact Et. exact Hsome.
           ++ injection E1 as <- <-. injection E2 as <- <-. congruence.
           ++ injection E1 as <- <-. left. exists n2, s2.
              split; [exact H2|]. split; [exact Hne2|].
              rewrite Ht, lookup_insert_eq. eauto.
           ++ injection E2 as <- <-. left. exists n1, s1.
              split; [exact H1|]. split; [exact Hne1|].
              rewrite <- Ht, lookup_insert_eq. eauto.
           ++ right. exists n1, s1, n2, s2. auto 7.
Qed.

Lemma shortcut_editors_names (self : VolumeDialog) :
  NoDup (map fst (ui.shortcut_editors self)).
Proof.
  simpl.
  repeat (apply NoDup_cons_2;
          [rewrite list_elem_of_In; simpl; intuition discriminate|]).
  apply NoDup_nil_2.
Qed.

Lemma duplicate_shortcut_none (self : VolumeDialog) :
  ui.duplicate_shortcut toString (ui.shortcut_editors self) ∅ = None <->
  ~ clash toString (ui.shortcut_editors self).
Proof.
  pose proof (duplicate_shortcut_iff (ui.shortcut_editors self) ∅
                (shortcut_editors_names self)) as H.
  split.
  - intros E Hc. rewrite E in H. destruct H as [_ H].
    destruct (H (or_intror Hc)); discriminate.
  - intros Hn.
    destruct (ui.duplicate_shortcut _ _ _) as [k|] eqn:E; [|reflexivity].
    exfalso. destruct H as [H _].
    destruct (H (ex_intro _ k eq_refl)) as [(n & s & _ & _ & Hs) | Hc].
    + rewrite lookup_empty in Hs. destruct Hs; discriminate.
    + exact (Hn Hc).
Qed.

(** C7.  [accept] is all or nothing.  If some editor that is not empty has
    no modifier, or two editors of different actions that are not empty
    have the same text, the dialog stays open and the host is as before
    but for one tooltip: the stored config and the live shortcuts do not
    change.  Otherwise the dialog closes as accepted and, when the host
    takes the write, the config read from the widgets is stored and its
    shortcuts are the live ones. *)
Theorem accept_all_or_nothing (self : VolumeDialog) (w : World) :
  let editors := ui.shortcut_editors self in
  let accepted := fst (ui.accept repr toString self w) in
  let w' := exec (ui.accept repr toString self) w in
  (unmodified editors \/ clash toString editors ->
   accepted = false /\
   exists text, w' = set_shown (shown w ++ [Tooltip text]) w) /\
  (~ unmodified editors -> ~ clash toString editors ->
   accepted = true /\
   (writable w = true ->
    let saved := ui.read_widgets toString self (config.persisted repr w) in
    stored_config w' = Some (PDict (config.config_dict saved)) /\
    config.persisted repr w' = saved /\
    volume_shortcuts w' = registered saved)).
Proof.
  cbv zeta. unfold ui.accept.
  pose proof (missing_modifier_iff (ui.shortcut_editors self)) as Hm.
  pose proof (duplicate_shortcut_none self) as Hd.
  destruct (ui.missing_modifier (ui.shortcut_editors self)).
  { split.
    - intros _. split; [reflexivity|]. eexists. reflexivity.
    - intros Hn. exfalso. apply Hn, Hm. reflexivity. }
  destruct (ui.duplicate_shortcut toString (ui.shortcut_editors self) ∅)
    as [key_string|].
  { split.
    - intros _. split; [reflexivity|]. eexists. reflexivity.
    - intros _ Hn. exfalso. apply Hd in Hn. discriminate. }
  assert (Hnc : ~ clash toString (ui.shortcut_editors self))
    by (apply Hd; reflexivity).
  assert (Hnm : ~ unmodified (ui.shortcut_editors self))
    by (intros H; apply Hm in H; discriminate).
  split; [intros [H|H]; contradiction|].
  intros _ _. split.
  { rewrite !value_bind. reflexivity. }
  intros Hw.
  rewrite !exec_bind, exec_ret, load_config_value.
  destruct (exec_load_config w) as (_ & H2 & _). rewrite <- H2 in Hw.
  set (saved := ui.read_widgets toString self (config.persisted repr w)).
  destruct (save_config_exec saved _ Hw) as (E1 & E2 & E3 & E4).
  match goal with |- context [exec (ui.setup_shortcuts repr) ?w0] =>
    destruct (setup_shortcuts_exec w0) as (F1 & F2 & F3 & F4) end.
  rewrite F1, F4, E3. repeat split; try assumption.
  unfold config.persisted. rewrite F1. exact E3.
Qed.

(** ** ui.py: [VolumeDialog.on_volume_boost_changed] *)

(** The exchange of [valueChanged] signals is over after three calls of
    [setValue]: more depth changes nothing. *)
Lemma valueChanged_settles (n : nat) (s r : Qt.QRange) :
  in_range s -> Qt.minimum r <= Qt.maximum r ->
  Qt.valueChanged (Qt.signal_depth + n) s r =
  Qt.valueChanged Qt.signal_depth s r.
Proof.
  unfold in_range. destruct s as [smin smax sv], r as [rmin rmax rv].
  project. intros Hs Hr.
  unfold Qt.signal_depth.
  cbn [Nat.add Qt.valueChanged Qt.setValue Qt.minimum Qt.maximum Qt.value].
  unfold Qt.qBound.
  destruct (Z.eqb_spec (Z.max rmin (Z.min rmax sv)) rv); [reflexivity|].
  destruct (Z.eqb_spec (Z.max smin (Z.min smax (Z.max rmin (Z.min rmax sv))))
              sv); [reflexivity|].
  destruct (Z.eqb_spec
              (Z.max rmin
                 (Z.min rmax
                    (Z.max smin (Z.min smax (Z.max rmin (Z.min rmax sv))))))
              (Z.max rmin (Z.min rmax sv))) as [|Hne]; [reflexivity|].
  exfalso. apply Hne. lia.
Qed.

Lemma emit_same (a a' b : Qt.QRange) :
  Qt.value a' = Qt.value a -> Qt.emit a a' b = (a', b).
Proof.
  intros E. unfold Qt.emit. rewrite E, Z.eqb_refl. reflexivity.
Qed.

(** The first widget moved to a value it keeps when the second one,
    bounded by its own range, answers: the exchange stops there. *)
Lemma emit_moved (a a' b : Qt.QRange) :
  let vb := Qt.qBound (Qt.minimum b) (Qt.value a') (Qt.maximum b) in
  Qt.value a' <> Qt.value a ->
  Qt.qBound (Qt.minimum a') vb (Qt.maximum a') = Qt.value a' ->
  Qt.emit a a' b = (a', with_value vb b).
Proof.
  intros vb Hne Hback. unfold Qt.emit.
  destruct (Z.eqb_spec (Qt.value a') (Qt.value a)) as [E|_]; [contradiction|].
  assert (Hb : Qt.setValue (Qt.value a') b = with_value vb b) by reflexivity.
  assert (Ha : Qt.setValue vb a' = a').
  { destruct a'. unfold Qt.setValue. project. rewrite Hback. reflexivity. }
  unfold Qt.signal_depth. cbn [Qt.valueChanged]. rewrite Hb.
  cbn [Qt.value with_value].
  destruct (Z.eqb_spec vb (Qt.value b)) as [E1|E1]; [reflexivity|].
  rewrite Ha, Z.eqb_refl. reflexivity.
Qed.

Lemma setMaximum_in_range (hi : Z) (w : Qt.QRange) :
  in_range w ->
  Qt.setMaximum hi w =
  {| Qt.minimum := Z.min (Qt.minimum w) hi;
     Qt.maximum := hi;
     Qt.value := Z.min (Qt.value w) hi |}.
Proof.
  unfold in_range, Qt.setMaximum, Qt.setRange, Qt.qBound. intros H.
  f_equal; lia.
Qed.

(** The four widget calls of the branch that disables boost, on a linked
    pair: each widget ends as its own [setMaximum 100]. *)
Lemma disable_boost_widgets (s p : Qt.QRange) :
  in_range s -> in_range p -> Qt.value p = Qt.value s ->
  exists s1 p1,
    Qt.emit s (Qt.setMaximum 100 s) p = (s1, p1) /\
    Qt.emit p1 (Qt.setMaximum 100 p1) s1 =
      (Qt.setMaximum 100 p, Qt.setMaximum 100 s) /\
    (100 < Qt.value s ->
     Qt.emit (Qt.setMaximum 100 s) (Qt.setValue 100 (Qt.setMaximum 100 s))
       (Qt.setMaximum 100 p) = (Qt.setMaximum 100 s, Qt.setMaximum 100 p) /\
     Qt.emit (Qt.setMaximum 100 p) (Qt.setValue 100 (Qt.setMaximum 100 p))
       (Qt.setMaximum 100 s) = (Qt.setMaximum 100 p, Qt.setMaximum 100 s)).
Proof.
  intros Hs Hp Hv.
  rewrite (setMaximum_in_range 100 s Hs), (setMaximum_in_range 100 p Hp).
  destruct s as [smin smax sv], p as [pmin pmax pv].
  unfold in_range in *. project. subst pv.
  destruct (Z.le_gt_cases sv 100) as [Hle|Hgt].
  - (* nothing moves *)
    rewrite (Z.min_l sv 100) by lia.
    eexists _, _. split; [apply emit_same; reflexivity|].
    rewrite setMaximum_in_range by (unfold in_range; project; lia).
    project. rewrite (Z.min_l sv 100) by lia.
    split; [apply emit_same; reflexivity|]. intros; exfalso; lia.
  - rewrite (Z.min_r sv 100) by lia.
    eexists _, _. split.
    { apply emit_moved;
        [ project; lia | unfold Qt.qBound; project; lia ]. }
    unfold with_value, Qt.qBound. project.
    rewrite (Z.min_r pmax 100) by lia.
    rewrite setMaximum_in_range by (unfold in_range; project; lia).
    project. rewrite (Z.min_r (Z.max pmin 100) 100) by lia.
    split.
    { destruct (Z.eq_dec (Z.max pmin 100) 100) as [E|E].
      - apply emit_same. project. lia.
      - rewrite emit_moved;
          [| project; lia | unfold Qt.qBound; project; lia].
        unfold with_value, Qt.qBound. project.
        f_equal. f_equal. lia. }
    intros _.
    assert (Hset : forall m,
      Qt.setValue 100
        {| Qt.minimum := Z.min m 100; Qt.maximum := 100; Qt.value := 100 |} =
      {| Qt.minimum := Z.min m 100; Qt.maximum := 100; Qt.value := 100 |}).
    { intros m. unfold Qt.setValue, Qt.qBound. project. f_equal. lia. }
    rewrite !Hset. split; apply emit_same; reflexivity.
Qed.

Lemma on_slider_eq (f : Qt.QRange -> Qt.QRange) (self : VolumeDialog)
    (s' p' : Qt.QRange) :
  Qt.emit (volume_slider self) (f (volume_slider self)) (volume_spin_box self)
    = (s', p') ->
  ui.on_slider f self = set_volume_widgets s' p' self.
Proof. unfold ui.on_slider. intros ->. reflexivity. Qed.

Lemma on_spin_box_eq (f : Qt.QRange -> Qt.QRange) (self : VolumeDialog)
    (p' s' : Qt.QRange) :
  Qt.emit (volume_spin_box self) (f (volume_spin_box self)) (volume_slider self)
    = (p', s') ->
  ui.on_spin_box f self = set_volume_widgets s' p' self.
Proof. unfold ui.on_spin_box. intros ->. reflexivity. Qed.

(** Unchecking the boost box on a linked dialog. *)
Lemma disabling_boost_widgets (self : VolumeDialog) (w : World) :
  linked self ->
  fst (ui.on_volume_boost_changed 0 self w) =
  set_volume_widgets
    (Qt.setMaximum 100 (volume_slider self))
    (Qt.setMaximum 100 (volume_spin_box self))
    (set__current_session_boost_enabled false self).
Proof.
  intros (Hs & Hp & Hv).
  destruct (disable_boost_widgets _ _ Hs Hp Hv) as (s1 & p1 & E1 & E2 & E34).
  unfold ui.on_volume_boost_changed.
  cbn [Z.eqb negb andb]. unfold mbind, UI_bind, mret, UI_ret. cbn [fst snd].
  set (self0 := set__current_session_boost_enabled false self).
  rewrite (on_slider_eq _ self0 s1 p1) by exact E1.
  rewrite (on_spin_box_eq _ (set_volume_widgets s1 p1 self0) _ _) by exact E2.
  rewrite Z.gtb_ltb.
  destruct (Z.ltb_spec 100 (Qt.value (volume_slider self))) as [Hgt|Hle];
    [|reflexivity].
  destruct (E34 Hgt) as [E3 E4].
  rewrite (on_slider_eq _ (set_volume_widgets _ _ _) _ _) by exact E3.
  rewrite (on_spin_box_eq _ (set_volume_widgets _ _ _) _ _) by exact E4.
  reflexivity.
Qed.

(** C8.  In a dialog whose volume slider and spin box are linked,
    unchecking the boost box brings a volume above 100 down to 100 within
    the same call and leaves a volume of at most 100 as it is; the spin
    box shows the same volume, the slider ends at 100, and the widgets
    stay linked. *)
Theorem disabling_boost_clamps_volume (self : VolumeDialog) (w : World) :
  linked self ->
  let self' := fst (ui.on_volume_boost_changed 0 self w) in
  let volume_before := Qt.value (volume_slider self) in
  let volume_after := Qt.value (volume_slider self') in
  (100 < volume_before -> volume_after = 100) /\
  (volume_before <= 100 -> volume_after = volume_before) /\
  Qt.value (volume_spin_box self') = volume_after /\
  Qt.maximum (volume_slider self') = 100 /\
  linked self'.
Proof.
  intros Hl. cbv zeta. rewrite (disabling_boost_widgets self w Hl).
  destruct Hl as (Hs & Hp & Hv).
  cbn [volume_slider volume_spin_box set_volume_widgets].
  rewrite !setMaximum_in_range by assumption.
  unfold linked, in_range in *.
  cbn [Qt.minimum Qt.maximum Qt.value volume_slider volume_spin_box
       set_volume_widgets].
  rewrite Hv. lia.
Qed.

End Properties.

(** ** The theorems at sample inputs *)

Lemma loudnorm_not_a_dict_witness :
  bad_loudnorm_config !! "loudnorm" = Some (PStr "not a dict") /\
  Py.is_dict (PStr "not a dict") = false /\
  loudnorm
    (fst (config.load_config_from sample_repr
            (Some (PDict bad_loudnorm_config)))) = default_loudnorm /\
  config.load_config_from sample_repr (Some (PDict bad_loudnorm_config)) =
    ({| volume := 70; is_muted := true; allow_volume_boost := false;
        mute_shortcut := "Ctrl+M"; settings_shortcut := "";
        volume_up_shortcut := ""; volume_down_shortcut := "";
        loudnorm := default_loudnorm; playback_speed := 1%float;
        speed_up_shortcut := ""; speed_down_shortcut := "" |}, None).
Proof.
  assert (H : bad_loudnorm_config !! "loudnorm" = Some (PStr "not a dict"))
    by (vm_compute; reflexivity).
  assert (Hn : Py.int (Py.get bad_loudnorm_config "volume" (PInt 100))
               = Some 70) by (vm_compute; reflexivity).
  assert (Hx : Py.float (Py.get bad_loudnorm_config "playback_speed"
                           (PFloat 1)) = Some 1%float)
    by (vm_compute; reflexivity).
  split; [exact H|]. split; [reflexivity|].
  pose proof (loudnorm_not_a_dict_defaults_section_only sample_repr
                bad_loudnorm_config (PStr "not a dict") H eq_refl) as T.
  cbv zeta in T. destruct T as (T1 & _ & T3).
  split; [exact T1|]. rewrite (T3 70 1%float Hn Hx).
  vm_compute. reflexivity.
Defined.

(** C9 as it is stated fails where the load ends early.  The mapping
    holds a loudnorm entry that is not a dict, the shortcut text Ctrl+M
    and the speed text fast: [float] raises on the speed before the
    shortcuts are read, and the mute shortcut is returned empty, not as
    stored. *)
Lemma loudnorm_not_a_dict_counterexample :
  bad_loudnorm_speed_config !! "loudnorm" = Some (PStr "not a dict") /\
  Py.is_dict (PStr "not a dict") = false /\
  bad_loudnorm_speed_config !! "mute_shortcut" = Some (PStr "Ctrl+M") /\
  config.load_config_from sample_repr
    (Some (PDict bad_loudnorm_speed_config)) =
    (set_volume 50 default_config, Some LoadError) /\
  ~ (loudnorm
       (fst (config.load_config_from sample_repr
               (Some (PDict bad_loudnorm_speed_config)))) = default_loudnorm /\
     mute_shortcut
       (fst (config.load_config_from sample_repr
               (Some (PDict bad_loudnorm_speed_config)))) = "Ctrl+M").
Proof.
  assert (E : config.load_config_from sample_repr
                (Some (PDict bad_loudnorm_speed_config)) =
              (set_volume 50 default_config, Some LoadError))
    by (vm_compute; reflexivity).
  split; [vm_compute; reflexivity|]. split; [reflexivity|].
  split; [vm_compute; reflexivity|]. split; [exact E|].
  rewrite E. intros [_ H]. discriminate H.
Qed.

Lemma adjust_volume_mute_priority_witness :
  writable muted_world = true /\
  is_muted
    (config.persisted sample_repr
       (exec (ui.adjust_volume sample_repr 10) muted_world)) = false.
Proof.
  split; [reflexivity|].
  pose proof (adjust_volume_mute_priority sample_repr
                (config.persisted sample_repr muted_world) 10) as T.
  cbv zeta in T. destruct T as [Hrule Hstored].
  rewrite (Hstored muted_world eq_refl eq_refl), Hrule.
  vm_compute. reflexivity.
Defined.

Lemma adjust_volume_within_range_witness :
  writable loud_world = true /\
  0 <= volume (config.persisted sample_repr
                 (exec (ui.adjust_volume sample_repr 10) loud_world)) <= 100.
Proof.
  split; [reflexivity|].
  pose proof (adjust_volume_within_range sample_repr
                (config.persisted sample_repr loud_world) 10) as T.
  cbv zeta in T. destruct T as (Hrange & _ & Hstored).
  rewrite (Hstored loud_world eq_refl eq_refl).
  assert (E : allow_volume_boost (config.persisted sample_repr loud_world)
              = false) by (vm_compute; reflexivity).
  rewrite E in Hrange. exact Hrange.
Defined.

Lemma adjust_volume_frame_witness :
  writable muted_world = true /\
  playback_speed
    (config.persisted sample_repr
       (exec (ui.adjust_volume sample_repr 10) muted_world)) = 1.5%float /\
  mute_shortcut
    (config.persisted sample_repr
       (exec (ui.adjust_volume sample_repr 10) muted_world)) = "Ctrl+M".
Proof.
  pose proof (adjust_volume_frame sample_repr
                (config.persisted sample_repr muted_world) 10) as T.
  cbv zeta in T.
  destruct T as (Hspeed & _ & _ & Hmute & _ & _ & _ & _ & _ & Hstored).
  destruct (Hstored muted_world eq_refl eq_refl) as [_ E].
  split; [reflexivity|]. rewrite E. split.
  - rewrite Hspeed. vm_compute. reflexivity.
  - rewrite Hmute. vm_compute. reflexivity.
Defined.

Lemma nearest_speed_on_table_witness :
  In 1.0%float ui.SPEED_STEPS /\
  PrimFloat.ltb 1.0 (ui._get_nearest_speed 1.0 true) = true /\
  ui._get_nearest_speed 1.0 true = 1.1%float.
Proof.
  assert (H : In 1.0%float ui.SPEED_STEPS) by (simpl; tauto).
  pose proof (nearest_speed_on_table 1.0%float H) as T.
  cbv zeta in T. destruct T as (_ & _ & Hup & _ & E & _).
  split; [exact H|]. split; [|exact E].
  rewrite E. vm_compute. reflexivity.
Defined.

Lemma toggle_mute_rejects_zero_else_flips_witness :
  (volume (config.persisted sample_repr silent_world) = 0 /\
   stored_config (exec (ui.toggle_mute sample_repr) silent_world) =
     stored_config silent_world) /\
  (0 < volume (config.persisted sample_repr muted_world) /\
   writable muted_world = true /\
   is_muted
     (config.persisted sample_repr
        (exec (ui.toggle_mute sample_repr) muted_world)) = false).
Proof.
  assert (Hz : volume (config.persisted sample_repr silent_world) = 0)
    by (vm_compute; reflexivity).
  assert (Hp : 0 < volume (config.persisted sample_repr muted_world))
    by (vm_compute; reflexivity).
  pose proof (toggle_mute_rejects_zero_else_flips sample_repr silent_world)
    as T0.
  pose proof (toggle_mute_rejects_zero_else_flips sample_repr muted_world)
    as T1.
  cbv zeta in T0, T1.
  destruct T0 as [T0 _]. destruct (T0 Hz) as (Hstore & _).
  destruct T1 as [_ T1]. destruct (T1 Hp eq_refl) as (_ & _ & Hflip).
  split.
  - split; [exact Hz | exact Hstore].
  - split; [exact Hp|]. split; [reflexivity|].
    rewrite Hflip. vm_compute. reflexivity.
Defined.

Lemma accept_all_or_nothing_witness :
  (clash sample_toString
     (ui.shortcut_editors (sample_dialog ctrl_m ctrl_alt_up ctrl_m)) /\
   fst (ui.accept sample_repr sample_toString
          (sample_dialog ctrl_m ctrl_alt_up ctrl_m) muted_world) = false) /\
  (~ unmodified (ui.shortcut_editors (sample_dialog ctrl_alt_up [] ctrl_m)) /\
   ~ clash sample_toString
       (ui.shortcut_editors (sample_dialog ctrl_alt_up [] ctrl_m)) /\
   fst (ui.accept sample_repr sample_toString
          (sample_dialog ctrl_alt_up [] ctrl_m) muted_world) = true).
Proof.
  assert (Hc : clash sample_toString
                 (ui.shortcut_editors (sample_dialog ctrl_m ctrl_alt_up ctrl_m))).
  { exists "volume_up_shortcut_edit", ctrl_m, "mute_shortcut_edit", ctrl_m.
    simpl. repeat split; try tauto; discriminate. }
  assert (Hm : ~ unmodified
                 (ui.shortcut_editors (sample_dialog ctrl_alt_up [] ctrl_m))).
  { intros H. apply missing_modifier_iff in H. vm_compute in H.
    discriminate. }
  assert (Hd : ~ clash sample_toString
                 (ui.shortcut_editors (sample_dialog ctrl_alt_up [] ctrl_m))).
  { apply duplicate_shortcut_none. vm_compute. reflexivity. }
  pose proof (accept_all_or_nothing sample_repr sample_toString
                (sample_dialog ctrl_m ctrl_alt_up ctrl_m) muted_world) as T0.
  pose proof (accept_all_or_nothing sample_repr sample_toString
                (sample_dialog ctrl_alt_up [] ctrl_m) muted_world) as T1.
  cbv zeta in T0, T1.
  destruct T0 as [T0 _]. destruct (T0 (or_intror Hc)) as [Hrejected _].
  destruct T1 as [_ T1]. destruct (T1 Hm Hd) as [Haccepted _].
  split.
  - split; [exact Hc | exact Hrejected].
  - split; [exact Hm|]. split; [exact Hd | exact Haccepted].
Defined.

Lemma disabling_boost_clamps_volume_witness :
  linked (sample_dialog [] [] []) /\
  Qt.value
    (volume_slider
       (fst (ui.on_volume_boost_changed 0 (sample_dialog [] [] [])
               muted_world))) = 100.
Proof.
  assert (H : linked (sample_dialog [] [] []))
    by (unfold linked, in_range; simpl; lia).
  pose proof (disabling_boost_clamps_volume (sample_dialog [] [] [])
                muted_world H) as T.
  cbv zeta in T. destruct T as [T _].
  split; [exact H|]. apply T. reflexivity.
Defined.

(** * Further properties *)

Set Default Proof Using "Type".

Section MoreProperties.

Variable repr : pyval -> string.
Variable toString : Qt.QKeySequence -> string.
Variable format_speed : float -> string.

(** ** The builtins at the edges of what they accept *)

(** A unit separator before the digit: blank for [str.isspace], not for
    [int]. *)
Example int_rejects_separator :
  Py.int (PStr (String "031" "5")) = None /\
  Py.isspace (String "031" "") = true.
Proof. split; reflexivity. Qed.

Example float_rejects_separator :
  Py.float (PStr ("1.5" +:+ String "028" "")) = None.
Proof. vm_compute. reflexivity. Qed.

(** A tab, a no-break space and a trailing space are skipped. *)
Example int_skips_blanks :
  Py.int (PStr (String "009" (String "160" "5 "))) = Some 5 /\
  Py.float (PStr (String "009" (String "160" "1.5 "))) = Some 1.5%float.
Proof. split; vm_compute; reflexivity. Qed.

Lemma digits_tail_ones (n : nat) (acc count : Z) :
  exists v,
    Py.digits_tail acc count (repeat "1"%char n) =
    (v, count + Z.of_nat n, []).
Proof.
  revert acc count. induction n as [|n IH]; intros acc count.
  - exists acc. cbn [repeat Py.digits_tail]. rewrite Z.add_0_r. reflexivity.
  - cbn [repeat Py.digits_tail].
    change (Py.digit_val "1"%char) with (Some 1).
    destruct (IH (10 * acc + 1) (count + 1)) as [v E]. exists v.
    rewrite E. f_equal. f_equal. lia.
Qed.

Lemma rev_ones (n : nat) : rev (repeat "1"%char n) = repeat "1"%char n.
Proof.
  induction n as [|n IH]; [reflexivity|].
  cbn [repeat rev]. rewrite IH. symmetry. apply repeat_cons.
Qed.

(** A text of ones converts exactly when it has at most 4300 digits. *)
Lemma int_digit_limit (n : nat) :
  Py.int (PStr (string_of_list_ascii (repeat "1"%char (S n)))) = None <->
  Py.int_max_str_digits < Z.of_nat (S n).
Proof.
  cbn [Py.int]. unfold Py.int_of_string, Py.chars.
  rewrite list_ascii_of_string_of_list_ascii.
  assert (S1 : Py.strip (repeat "1"%char (S n)) = repeat "1"%char (S n)).
  { unfold Py.strip.
    assert (L : Py.lstrip (repeat "1"%char (S n)) = repeat "1"%char (S n))
      by reflexivity.
    rewrite L, rev_ones, L, rev_ones. reflexivity. }
  rewrite S1.
  change (Py.sign (repeat "1"%char (S n)))
    with (false, repeat "1"%char (S n)).
  cbn [repeat Py.digitpart]. change (Py.digit_val "1"%char) with (Some 1).
  destruct (digits_tail_ones n 1 1) as [v E]. rewrite E.
  destruct (Z.gtb_spec (1 + Z.of_nat n) Py.int_max_str_digits) as [G|G].
  - split; [intros _; lia|reflexivity].
  - split; [discriminate|intros H; lia].
Qed.

(** A stored volume that [int] rejects for its separator: the code warns
    and returns the defaults. *)
Example load_config_separator_in_volume :
  config.load_config_from repr
    (Some (PDict (list_to_map [("volume", PStr (String "031" "5"))]))) =
  (default_config, Some LoadError).
Proof. vm_compute. reflexivity. Qed.

(** ** config.py: every path of [load_config] *)

Lemma load_fields_paths (d : gmap string pyval) (c : VolumeConfig) :
  config.load_fields repr d c =
  match Py.int (Py.get d "volume" (PInt 100)) with
  | None => (c, None)
  | Some n =>
      let c1 :=
        set_allow_volume_boost
          (Py.bool (Py.get d "allow_volume_boost" (PBool false)))
          (set_is_muted (Py.bool (Py.get d "is_muted" (PBool false)))
             (set_volume n c)) in
      match Py.float (Py.get d "playback_speed" (PFloat 1)) with
      | None => (c1, None)
      | Some x =>
          let c2 := with_shortcuts repr d (set_playback_speed x c1) in
          match Py.get d "loudnorm" (PDict ∅) with
          | PDict l =>
              let c3 :=
                set_loudnorm_enabled
                  (Py.bool (Py.get l "enabled" (PBool false))) c2 in
              match Py.int (Py.get l "i" (PInt (-24))) with
              | None => (c3, None)
              | Some k =>
                  (set_loudnorm_dual_mono
                     (Py.bool (Py.get l "dual_mono" (PBool false)))
                     (set_loudnorm_i k c3), Some tt)
              end
          | _ => (c2, Some tt)
          end
      end
  end.
Proof.
  unfold config.load_fields. cbn [for_each config.shortcut_names].
  try_unfold.
  destruct (Py.int (Py.get d "volume" (PInt 100))) as [n|]; [|reflexivity].
  destruct (Py.float (Py.get d "playback_speed" (PFloat 1))) as [x|];
    [|reflexivity].
  destruct (Py.get d "loudnorm" (PDict ∅)); reflexivity.
Qed.

Lemma nonempty_truthy (d : gmap string pyval) :
  d <> ∅ -> Py.bool (PDict d) = true.
Proof.
  intros H. simpl. destruct (Nat.eqb_spec (size d) 0) as [E|E]; [|reflexivity].
  apply map_size_empty_iff in E. contradiction.
Qed.

Lemma get_missing (d : gmap string pyval) (k : string) (def : pyval) :
  d !! k = None -> Py.get d k def = def.
Proof. intros H. unfold Py.get. rewrite H. reflexivity. Qed.

Lemma load_config_from_paths (d : gmap string pyval) :
  d <> ∅ ->
  config.load_config_from repr (Some (PDict d)) =
  match config.load_fields repr d default_config with
  | (c, Some _) => (c, None)
  | (c, None) => (c, Some LoadError)
  end.
Proof.
  intros H. unfold config.load_config_from. rewrite (nonempty_truthy d H).
  reflexivity.
Qed.

(** X1.  After a save that the host takes, the stored mapping is the dict
    of the saved parameters, and the next load_config returns exactly
    those parameters and shows nothing. *)
Theorem save_config_load_config_round_trip (c : VolumeConfig) (w : World) :
  writable w = true ->
  let w' := exec (config.save_config c) w in
  stored_config w' = Some (PDict (config.config_dict c)) /\
  config.load_config repr w' = (c, w').
Proof.
  intros H w'. subst w'. rewrite (config_save_exec c w H). split; [reflexivity|].
  unfold config.load_config. cbn [stored_config set_stored_config].
  rewrite load_saved. reflexivity.
Qed.

(** X2.  A key that is missing from the stored mapping always loads as its
    default, whatever the other entries hold and whether or not the load
    ends in an error: 100 for volume, false for the flags, 1.0 for the
    speed, the empty text for each shortcut, and the default section for
    loudnorm. *)
Theorem load_config_missing_key_is_default (d : gmap string pyval) :
  let c := fst (config.load_config_from repr (Some (PDict d))) in
  (d !! "volume" = None -> volume c = 100) /\
  (d !! "is_muted" = None -> is_muted c = false) /\
  (d !! "allow_volume_boost" = None -> allow_volume_boost c = false) /\
  (d !! "playback_speed" = None -> playback_speed c = 1%float) /\
  (d !! "mute_shortcut" = None -> mute_shortcut c = "") /\
  (d !! "settings_shortcut" = None -> settings_shortcut c = "") /\
  (d !! "volume_up_shortcut" = None -> volume_up_shortcut c = "") /\
  (d !! "volume_down_shortcut" = None -> volume_down_shortcut c = "") /\
  (d !! "speed_up_shortcut" = None -> speed_up_shortcut c = "") /\
  (d !! "speed_down_shortcut" = None -> speed_down_shortcut c = "") /\
  (d !! "loudnorm" = None -> loudnorm c = default_loudnorm).
Proof.
  intros c. subst c. unfold config.load_config_from.
  destruct (Py.bool (PDict d)); [|repeat split; reflexivity].
  rewrite load_fields_paths.
  assert (S : forall k, d !! k = None -> shortcut_value repr d k = "").
  { intros k H. unfold shortcut_value. rewrite (get_missing _ _ _ H).
    reflexivity. }
  destruct (Py.int (Py.get d "volume" (PInt 100))) as [n|] eqn:Hn;
    [|repeat split; reflexivity].
  cbv zeta.
  destruct (Py.float (Py.get d "playback_speed" (PFloat 1))) as [x|] eqn:Hx;
    [destruct (Py.get d "loudnorm" (PDict ∅)) as [| | | | | |l] eqn:Hl;
       [..|destruct (Py.int (Py.get l "i" (PInt (-24)))) as [k|] eqn:Hk]|];
    cbn; repeat split; try reflexivity; intros H;
    try (apply S; assumption);
    rewrite (get_missing _ _ _ H) in *; try reflexivity;
    try discriminate; try congruence.
  all: try match goal with
         | |- _ = 100 => vm_compute in Hn; congruence
         | |- _ = 1%float => vm_compute in Hx; congruence
         end.
  all: injection Hl as <-; vm_compute in Hk;
    first [discriminate | injection Hk as <-; reflexivity].
Qed.

(** X3.  When the stored mapping is not empty and int accepts the volume,
    float accepts the speed, and the loudnorm entry is a dict whose target
    int accepts, load_config shows no warning and every attribute is the
    conversion of the stored value (a text such as 70 with blanks around
    it counts as a volume). *)
Theorem load_config_converts_each_field
    (d l : gmap string pyval) (n k : Z) (x : float) :
  d <> ∅ ->
  Py.int (Py.get d "volume" (PInt 100)) = Some n ->
  Py.float (Py.get d "playback_speed" (PFloat 1)) = Some x ->
  Py.get d "loudnorm" (PDict ∅) = PDict l ->
  Py.int (Py.get l "i" (PInt (-24))) = Some k ->
  config.load_config_from repr (Some (PDict d)) =
  ({| volume := n;
      is_muted := Py.bool (Py.get d "is_muted" (PBool false));
      allow_volume_boost :=
        Py.bool (Py.get d "allow_volume_boost" (PBool false));
      mute_shortcut := shortcut_value repr d "mute_shortcut";
      settings_shortcut := shortcut_value repr d "settings_shortcut";
      volume_up_shortcut := shortcut_value repr d "volume_up_shortcut";
      volume_down_shortcut := shortcut_value repr d "volume_down_shortcut";
      loudnorm :=
        {| enabled := Py.bool (Py.get l "enabled" (PBool false));
           i := k;
           dual_mono := Py.bool (Py.get l "dual_mono" (PBool false)) |};
      playback_speed := x;
      speed_up_shortcut := shortcut_value repr d "speed_up_shortcut";
      speed_down_shortcut := shortcut_value repr d "speed_down_shortcut" |},
   None).
Proof.
  intros Hd Hn Hx Hl Hk.
  rewrite (load_config_from_paths d Hd), load_fields_paths.
  rewrite Hn, Hx. cbv zeta. rewrite Hl, Hk. reflexivity.
Qed.

(** X4.  A loudness target that int rejects: the warning is shown, every
    attribute outside the loudnorm section keeps its stored value, the
    enabled flag of the section is the stored one, and its target and
    dual_mono flag stay at their defaults. *)
Theorem load_config_bad_loudness_target
    (d l : gmap string pyval) (n : Z) (x : float) :
  d <> ∅ ->
  Py.int (Py.get d "volume" (PInt 100)) = Some n ->
  Py.float (Py.get d "playback_speed" (PFloat 1)) = Some x ->
  Py.get d "loudnorm" (PDict ∅) = PDict l ->
  Py.int (Py.get l "i" (PInt (-24))) = None ->
  config.load_config_from repr (Some (PDict d)) =
  ({| volume := n;
      is_muted := Py.bool (Py.get d "is_muted" (PBool false));
      allow_volume_boost :=
        Py.bool (Py.get d "allow_volume_boost" (PBool false));
      mute_shortcut := shortcut_value repr d "mute_shortcut";
      settings_shortcut := shortcut_value repr d "settings_shortcut";
      volume_up_shortcut := shortcut_value repr d "volume_up_shortcut";
      volume_down_shortcut := shortcut_value repr d "volume_down_shortcut";
      loudnorm :=
        {| enabled := Py.bool (Py.get l "enabled" (PBool false));
           i := -24;
           dual_mono := false |};
      playback_speed := x;
      speed_up_shortcut := shortcut_value repr d "speed_up_shortcut";
      speed_down_shortcut := shortcut_value repr d "speed_down_shortcut" |},
   Some LoadError).
Proof.
  intros Hd Hn Hx Hl Hk.
  rewrite (load_config_from_paths d Hd), load_fields_paths.
  rewrite Hn, Hx. cbv zeta. rewrite Hl, Hk. reflexivity.
Qed.

(** X5.  For a stored dict, load_config shows either nothing or the load
    error warning, and it shows the warning exactly when the dict is not
    empty and one of the three conversions fails: int of the volume, float
    of the speed, or int of the target of a loudnorm section that is a
    dict. *)
Theorem load_config_warns_iff_conversion_fails (d : gmap string pyval) :
  let warning := snd (config.load_config_from repr (Some (PDict d))) in
  (warning = None \/ warning = Some LoadError) /\
  (warning = Some LoadError <->
   d <> ∅ /\
   (Py.int (Py.get d "volume" (PInt 100)) = None \/
    Py.float (Py.get d "playback_speed" (PFloat 1)) = None \/
    exists l, Py.get d "loudnorm" (PDict ∅) = PDict l /\
              Py.int (Py.get l "i" (PInt (-24))) = None)).
Proof.
  intros warning. subst warning.
  destruct (decide (d = ∅)) as [->|Hd].
  { split; [left; reflexivity|]. split; [discriminate|].
    intros [H _]. contradiction. }
  rewrite (load_config_from_paths d Hd), load_fields_paths.
  destruct (Py.int (Py.get d "volume" (PInt 100))) as [n|] eqn:Hn.
  2:{ split; [right; reflexivity|]. split; [|reflexivity].
      intros _. split; [assumption|]. left. reflexivity. }
  cbv zeta.
  destruct (Py.float (Py.get d "playback_speed" (PFloat 1))) as [x|] eqn:Hx.
  2:{ split; [right; reflexivity|]. split; [|reflexivity].
      intros _. split; [assumption|]. right. left. reflexivity. }
  destruct (Py.get d "loudnorm" (PDict ∅)) as [| | | | | |l] eqn:Hl;
    try (split; [left; reflexivity|]; split; [discriminate|];
         intros [_ [H|[H|(l & H & _)]]]; discriminate).
  destruct (Py.int (Py.get l "i" (PInt (-24)))) as [k|] eqn:Hk.
  - split; [left; reflexivity|]. split; [discriminate|].
    intros [_ [H|[H|(l' & H & H')]]]; try discriminate.
    injection H as <-. congruence.
  - split; [right; reflexivity|]. split; [|reflexivity].
    intros _. split; [assumption|]. right. right. exists l. split; reflexivity || assumption.
Qed.

(** ** hook.py *)

Lemma did_begin_playing_eq (p : MpvManager) (w : World) :
  hook.did_begin_playing repr (Some p) w =
  let w1 := exec (config.load_config repr) w in
  match hook.set_properties (config.persisted repr w) p with
  | (p', Some _) => (Some p', w1)
  | (p', None) =>
      (Some p', set_shown (shown w1 ++ [Print "Sound volume control error"]) w1)
  end.
Proof.
  unfold hook.did_begin_playing, mbind, UI_bind, exec, config.persisted,
    config.load_config.
  destruct (config.load_config_from repr (stored_config w)) as [c [x|]];
    cbn [fst snd];
    destruct (hook.set_properties c p) as [p' [u|]]; reflexivity.
Qed.

Lemma set_property_cases (name : string) (value : PropertyValue)
    (p : MpvManager) :
  hook.set_property name value p =
  if raises_on p name then (p, None)
  else ({| raises_on := raises_on p;
           properties := (properties p ++ [(name, value)])%list |}, Some tt).
Proof. reflexivity. Qed.

(** The calls planned for a config. *)
Lemma planned_eq (c : VolumeConfig) :
  planned c =
  if is_muted c || (volume c =? 0) then
    [("volume", IntValue 0); ("af", StrValue "")]
  else
    [("volume", IntValue (volume c));
     ("af", StrValue (if enabled (loudnorm c)
                      then loudnorm_filter (loudnorm c) else ""));
     ("speed", FloatValue (playback_speed c))].
Proof.
  unfold planned, hook.set_properties, loudnorm_filter, hook.lower_str_of_bool.
  destruct (is_muted c) eqn:Hm; cbv zeta; cbn [orb].
  - reflexivity.
  - destruct (volume c =? 0) eqn:Hv.
    + apply Z.eqb_eq in Hv. rewrite Hv. reflexivity.
    + destruct (enabled (loudnorm c)); reflexivity.
Qed.

(** What [set_properties] does on any player: the planned calls up to the
    first that raises. *)
Lemma set_properties_runs_prefix (c : VolumeConfig) (p : MpvManager) :
  let done := accepted_prefix (raises_on p) (planned c) in
  hook.set_properties c p =
  ({| raises_on := raises_on p;
      properties := (properties p ++ done)%list |},
   if (length done =? length (planned c))%nat then Some tt else None).
Proof.
  rewrite planned_eq.
  unfold hook.set_properties, loudnorm_filter, hook.lower_str_of_bool.
  try_unfold. rewrite !set_property_cases.
  destruct (is_muted c) eqn:Hm; cbn [orb].
  - destruct (raises_on p "volume") eqn:R1; cbn [accepted_prefix].
    + rewrite R1. rewrite app_nil_r. destruct p; reflexivity.
    + rewrite R1. rewrite set_property_cases. cbn [raises_on properties].
      destruct (raises_on p "af") eqn:R2; cbn; rewrite <- ?app_assoc;
        reflexivity.
  - destruct (volume c =? 0) eqn:Hv.
    + apply Z.eqb_eq in Hv. rewrite Hv.
      destruct (raises_on p "volume") eqn:R1; cbn [accepted_prefix].
      * rewrite R1. rewrite app_nil_r. destruct p; reflexivity.
      * rewrite R1. rewrite set_property_cases. cbn [raises_on properties].
        destruct (raises_on p "af") eqn:R2; cbn; rewrite <- ?app_assoc;
          reflexivity.
    + destruct (raises_on p "volume") eqn:R1; cbn [accepted_prefix].
      * rewrite R1. rewrite app_nil_r. destruct p; reflexivity.
      * rewrite R1.
        destruct (enabled (loudnorm c)); rewrite !set_property_cases;
          cbn [raises_on properties];
          (destruct (raises_on p "af") eqn:R2;
           [cbn; rewrite <- ?app_assoc; reflexivity|]);
          rewrite !set_property_cases; cbn [raises_on properties];
          destruct (raises_on p "speed") eqn:R3; cbn;
          rewrite <- ?app_assoc; reflexivity.
Qed.

Lemma accepted_prefix_length (raises : string -> bool)
    (calls : list (string * PropertyValue)) :
  (length (accepted_prefix raises calls) <= length calls)%nat.
Proof.
  induction calls as [|[name value] rest IH]; cbn; [lia|].
  destruct (raises name); cbn; lia.
Qed.

Lemma accepted_prefix_full (raises : string -> bool)
    (calls : list (string * PropertyValue)) :
  length (accepted_prefix raises calls) = length calls <->
  accepted_prefix raises calls = calls.
Proof.
  split; [|intros ->; reflexivity].
  induction calls as [|[name value] rest IH]; cbn; [reflexivity|].
  destruct (raises name); cbn; [discriminate|].
  intros H. f_equal. apply IH. lia.
Qed.

Lemma accepted_prefix_all (raises : string -> bool)
    (calls : list (string * PropertyValue)) :
  (forall name value, In (name, value) calls -> raises name = false) ->
  accepted_prefix raises calls = calls.
Proof.
  induction calls as [|[name value] rest IH]; cbn; [reflexivity|].
  intros H. rewrite (H name value) by (left; reflexivity).
  f_equal. apply IH. intros n v Hin. apply (H n v). right. exact Hin.
Qed.

(** X6.  The hook changes nothing of the host but what is shown: the
    stored config, the write switch, the hook registrations and the
    shortcut actions are as before, for any player; and without a player
    it returns at once. *)
Theorem did_begin_playing_leaves_host_state
    (player : option MpvManager) (w : World) :
  let w' := exec (hook.did_begin_playing repr player) w in
  stored_config w' = stored_config w /\
  writable w' = writable w /\
  begin_playing_hooks w' = begin_playing_hooks w /\
  volume_shortcuts w' = volume_shortcuts w /\
  hook.did_begin_playing repr None w = (None, w).
Proof.
  intros w'. subst w'. split; [|split; [|split; [|split]]];
    try reflexivity; destruct player as [p|]; try reflexivity;
    unfold exec; rewrite did_begin_playing_eq; cbv zeta;
    pose proof (exec_load_config repr w) as L; cbv zeta in L;
    destruct L as (L1 & L2 & L3 & L4);
    destruct (hook.set_properties (config.persisted repr w) p) as [p' [u|]];
    cbn [snd stored_config writable begin_playing_hooks volume_shortcuts
         set_shown];
    assumption.
Qed.

(** X7.  On any player the hook makes the calls planned for the stored
    config up to the first one the player raises on: the player keeps the
    properties set before the error, the hook returns, and an error is
    printed exactly when a call was left out. *)
Theorem did_begin_playing_stops_at_first_error (p : MpvManager) (w : World) :
  let r := hook.did_begin_playing repr (Some p) w in
  let calls := planned (config.persisted repr w) in
  let done := accepted_prefix (raises_on p) calls in
  let w1 := exec (config.load_config repr) w in
  fst r =
    Some {| raises_on := raises_on p;
            properties := (properties p ++ done)%list |} /\
  (done = calls -> snd r = w1) /\
  (done <> calls ->
   exists text, snd r = set_shown (shown w1 ++ [Print text]) w1).
Proof.
  intros r calls done w1. subst r. rewrite did_begin_playing_eq. cbv zeta.
  pose proof (set_properties_runs_prefix (config.persisted repr w) p) as E.
  cbv zeta in E. rewrite E. fold calls. fold done. fold w1.
  destruct (Nat.eqb_spec (length done) (length calls)) as [L|L].
  - apply accepted_prefix_full in L. fold done in L.
    split; [reflexivity|]. split; [reflexivity|]. intros N. contradiction.
  - split; [reflexivity|]. split; [|eexists; reflexivity].
    intros N. rewrite N in L. contradiction.
Qed.

(** X8.  What save_config of ui.py saved is what the next playback
    applies: on a player that accepts every property the hook sets volume
    0 and an empty filter for a muted or silent config, and otherwise the
    volume, the filter loudnorm=I=<i>:dual_mono=<true or false> when
    loudnorm is enabled (the empty filter when not), and the speed, in
    this order. *)
Theorem saved_config_is_applied_on_playback
    (c : VolumeConfig) (p : MpvManager) (w : World) :
  writable w = true ->
  (forall name, raises_on p name = false) ->
  let w' := exec (ui.save_config repr c) w in
  option_map properties (fst (hook.did_begin_playing repr (Some p) w')) =
  Some (properties p ++
        (if is_muted c || (volume c =? 0) then
           [("volume", IntValue 0); ("af", StrValue "")]
         else
           [("volume", IntValue (volume c));
            ("af", StrValue (if enabled (loudnorm c)
                             then loudnorm_filter (loudnorm c) else ""));
            ("speed", FloatValue (playback_speed c))]))%list.
Proof.
  intros Hw Hp w'.
  pose proof (save_config_exec repr c w Hw) as S. cbv zeta in S.
  destruct S as (_ & _ & S & _). fold w' in S.
  rewrite did_begin_playing_eq. cbv zeta. rewrite S.
  pose proof (set_properties_runs_prefix c p) as E. cbv zeta in E.
  rewrite E, accepted_prefix_all by (intros; apply Hp).
  rewrite Nat.eqb_refl, planned_eq. reflexivity.
Qed.

(** ** ui.py: [_get_nearest_speed] and [adjust_speed] *)

(** X9.  For every float, on the table or not: the result of
    _get_nearest_speed is an entry of the table; going up it is the
    smallest entry strictly greater than the current speed, and 2.0 when
    there is none (so also for NaN); going down it is the largest entry
    strictly less, and 0.25 when there is none. *)
Theorem nearest_speed_for_any_speed (current : float) :
  let up := ui._get_nearest_speed current true in
  let down := ui._get_nearest_speed current false in
  In up ui.SPEED_STEPS /\ In down ui.SPEED_STEPS /\
  (forall s, In s ui.SPEED_STEPS -> PrimFloat.ltb current s = true ->
             PrimFloat.ltb current up = true /\ PrimFloat.leb up s = true) /\
  ((forall s, In s ui.SPEED_STEPS -> PrimFloat.ltb current s = false) ->
   up = 2.0%float) /\
  (forall s, In s ui.SPEED_STEPS -> PrimFloat.ltb s current = true ->
             PrimFloat.ltb down current = true /\
             PrimFloat.leb s down = true) /\
  ((forall s, In s ui.SPEED_STEPS -> PrimFloat.ltb s current = false) ->
   down = 0.25%float).
Proof.
  clear repr toString format_speed. cbv zeta.
  assert (Up :
    In (ui._get_nearest_speed current true) ui.SPEED_STEPS /\
    (forall s, In s ui.SPEED_STEPS -> PrimFloat.ltb current s = true ->
               PrimFloat.ltb current (ui._get_nearest_speed current true)
                 = true /\
               PrimFloat.leb (ui._get_nearest_speed current true) s = true) /\
    ((forall s, In s ui.SPEED_STEPS -> PrimFloat.ltb current s = false) ->
     ui._get_nearest_speed current true = 2.0%float)).
  { unfold ui._get_nearest_speed, ui.SPEED_STEPS. cbn [find].
    repeat match goal with
    | |- context [if PrimFloat.ltb current ?b then _ else _] =>
        destruct (PrimFloat.ltb current b) eqn:?;
        [ split; [repeat (first [left; reflexivity | right])|]; split;
          [ intros s Hs;
            repeat (destruct Hs as [<- | Hs];
                    [ intros Hc; first [conflict Hc | split; [assumption|vm_compute; reflexivity]] | ]);
            contradiction
          | intros A;
            match goal with
            | H : PrimFloat.ltb current ?t = true |- _ =>
                first [ reflexivity
                      | rewrite (A t) in H by (repeat (first [left; reflexivity | right])); discriminate ]
            end ]
        | ]
    end.
    split; [repeat (first [left; reflexivity | right])|]. split; [|reflexivity].
    intros s Hs.
    repeat (destruct Hs as [<- | Hs]; [intros Hc; conflict Hc|]).
    contradiction. }
  assert (Down :
    In (ui._get_nearest_speed current false) ui.SPEED_STEPS /\
    (forall s, In s ui.SPEED_STEPS -> PrimFloat.ltb s current = true ->
               PrimFloat.ltb (ui._get_nearest_speed current false) current
                 = true /\
               PrimFloat.leb s (ui._get_nearest_speed current false) = true) /\
    ((forall s, In s ui.SPEED_STEPS -> PrimFloat.ltb s current = false) ->
     ui._get_nearest_speed current false = 0.25%float)).
  { unfold ui._get_nearest_speed, ui.SPEED_STEPS. cbn [find rev app].
    repeat match goal with
    | |- context [if PrimFloat.ltb ?b current then _ else _] =>
        destruct (PrimFloat.ltb b current) eqn:?;
        [ split; [repeat (first [left; reflexivity | right])|]; split;
          [ intros s Hs;
            repeat (destruct Hs as [<- | Hs];
                    [ intros Hc; first [conflict Hc | split; [assumption|vm_compute; reflexivity]] | ]);
            contradiction
          | intros A;
            match goal with
            | H : PrimFloat.ltb ?t current = true |- _ =>
                first [ reflexivity
                      | rewrite (A t) in H by (repeat (first [left; reflexivity | right])); discriminate ]
            end ]
        | ]
    end.
    split; [repeat (first [left; reflexivity | right])|]. split; [|reflexivity].
    intros s Hs.
    repeat (destruct Hs as [<- | Hs]; [intros Hc; conflict Hc|]).
    contradiction. }
  tauto.
Qed.

(** ** The host under [load_config], [setup_shortcuts] and [save_config] *)

Lemma same_settings_refl (w : World) : same_settings w w.
Proof. repeat split. Qed.

Lemma same_settings_trans (w1 w2 w3 : World) :
  same_settings w1 w2 -> same_settings w2 w3 -> same_settings w1 w3.
Proof.
  unfold same_settings. intros (A1 & A2 & A3 & A4) (B1 & B2 & B3 & B4).
  repeat split; congruence.
Qed.

Lemma same_settings_shown (l : list Event) (w : World) :
  same_settings w (set_shown l w).
Proof. repeat split. Qed.

Lemma same_settings_persisted (w w' : World) :
  same_settings w w' -> config.persisted repr w' = config.persisted repr w.
Proof. intros (H & _). unfold config.persisted. rewrite H. reflexivity. Qed.

Lemma load_config_world (w : World) :
  exec (config.load_config repr) w =
  set_shown (shown w ++ load_warning repr w) w.
Proof.
  unfold config.load_config, exec, load_warning.
  destruct (config.load_config_from repr (stored_config w)) as [c [x|]];
    cbn [snd]; [reflexivity|].
  rewrite app_nil_r. destruct w; reflexivity.
Qed.

Lemma load_config_same_settings (w : World) :
  same_settings w (exec (config.load_config repr) w).
Proof. rewrite load_config_world. apply same_settings_shown. Qed.

Lemma setup_shortcuts_world (w : World) :
  exec (ui.setup_shortcuts repr) w =
  set_volume_shortcuts (registered (config.persisted repr w))
    (set_shown (shown w ++ load_warning repr w) w).
Proof.
  unfold ui.setup_shortcuts.
  rewrite exec_bind, exec_bind, exec_modify, register_all_exec,
    load_config_value, load_config_world.
  reflexivity.
Qed.

(** [save_config] of ui.py on any host. *)
Lemma save_config_any (c : VolumeConfig) (w : World) :
  let w' := exec (ui.save_config repr c) w in
  stored_config w' =
    (if writable w then Some (PDict (config.config_dict c))
     else stored_config w) /\
  writable w' = writable w /\
  begin_playing_hooks w' = S (Nat.pred (begin_playing_hooks w)) /\
  config.persisted repr w' =
    (if writable w then c else config.persisted repr w) /\
  volume_shortcuts w' = registered (config.persisted repr w') /\
  shown w' =
    (shown w ++
     if writable w then []
     else ShowWarning SaveFailed :: load_warning repr w)%list.
Proof.
  unfold ui.save_config. cbv zeta.
  rewrite !exec_bind, !exec_modify, setup_shortcuts_world.
  unfold config.save_config, exec, config.persisted, load_warning.
  destruct (writable w) eqn:Hw;
    cbn [snd fst stored_config writable begin_playing_hooks volume_shortcuts
         shown set_stored_config set_begin_playing_hooks set_shown
         set_volume_shortcuts showWarning show_event modify].
  - rewrite load_saved. cbn [fst snd]. rewrite app_nil_r.
    repeat split; assumption.
  - rewrite <- app_assoc. repeat split; assumption.
Qed.

(** X10.  When the host refuses the write, save_config of ui.py leaves the
    stored config as it was, shows the save warning (followed by the load
    warning of setup_shortcuts, if the stored config has one), and
    registers the shortcuts of the config that is still stored, not of the
    one passed in. *)
Theorem save_config_failed_write (c : VolumeConfig) (w : World) :
  writable w = false ->
  let w' := exec (ui.save_config repr c) w in
  stored_config w' = stored_config w /\
  config.persisted repr w' = config.persisted repr w /\
  volume_shortcuts w' = registered (config.persisted repr w) /\
  shown w' = (shown w ++ ShowWarning SaveFailed :: load_warning repr w)%list.
Proof.
  intros Hw w'. subst w'.
  pose proof (save_config_any c w) as S. cbv zeta in S. rewrite Hw in S.
  destruct S as (S1 & _ & _ & S4 & S5 & S6). rewrite S4 in S5.
  repeat split; assumption.
Qed.

Lemma omap_length_le {A B : Type} (f : A -> option B) (l : list A) :
  (length (omap f l) <= length l)%nat.
Proof.
  induction l as [|x l IH]; cbn; [lia|]. destruct (f x); cbn; lia.
Qed.

(** X11.  setup_shortcuts replaces whatever actions were registered:
    afterwards the actions are exactly those of the stored shortcuts, at
    most six, one for each text of the shortcut list that is neither empty
    nor blank; running it again changes nothing but the repeated load
    warning. *)
Theorem setup_shortcuts_replaces_actions (w : World) :
  let w' := exec (ui.setup_shortcuts repr) w in
  volume_shortcuts w' = registered (config.persisted repr w) /\
  (length (volume_shortcuts w') <= 6)%nat /\
  (forall a, In a (volume_shortcuts w') <->
     exists key fn,
       In (key, fn) (ui.shortcuts (config.persisted repr w)) /\
       key <> "" /\ Py.isspace key = false /\
       a = {| shortcut := key; triggered := fn |}) /\
  exec (ui.setup_shortcuts repr) w' = set_shown (shown w' ++ load_warning repr w) w'.
Proof.
  intros w'. subst w'. rewrite !setup_shortcuts_world.
  cbn [volume_shortcuts set_volume_shortcuts].
  split; [reflexivity|]. split; [|split].
  - unfold registered. etransitivity; [apply omap_length_le|]. reflexivity.
  - intros a. unfold registered. rewrite <- list_elem_of_In, list_elem_of_omap.
    split.
    + intros ([key fn] & Hin & Hr). exists key, fn.
      apply list_elem_of_In in Hin. split; [exact Hin|].
      unfold ui.register_shortcut in Hr.
      destruct (String.eqb_spec key ""); [discriminate|].
      destruct (Py.isspace key); [discriminate|].
      cbn in Hr. injection Hr as <-. repeat split; assumption.
    + intros (key & fn & Hin & Hk & Hs & ->). exists (key, fn).
      split; [apply list_elem_of_In; exact Hin|].
      unfold ui.register_shortcut. rewrite Hs.
      destruct (String.eqb_spec key ""); [contradiction|]. reflexivity.
  - reflexivity.
Qed.

(** ** ui.py: the shortcut callbacks on any host *)

Lemma adjust_volume_world (delta : Z) (w : World) :
  let c' := ui.adjusted delta (config.persisted repr w) in
  let w2 := exec (ui.save_config repr c') (exec (config.load_config repr) w) in
  exec (ui.adjust_volume repr delta) w =
  set_shown
    (shown w2 ++
     [Tooltip (if is_muted c' then "Muted"
               else "Volume: " +:+ Py.str_of_int (volume c') +:+ "%")]) w2.
Proof.
  unfold ui.adjust_volume. cbv zeta.
  rewrite !exec_bind, exec_tooltip, load_config_value. reflexivity.
Qed.

Lemma toggle_mute_world (w : World) :
  let c := config.persisted repr w in
  let w1 := exec (config.load_config repr) w in
  exec (ui.toggle_mute repr) w =
  if volume c >? 0 then
    let w2 := exec (ui.save_config repr (set_is_muted (negb (is_muted c)) c))
                w1 in
    set_shown
      (shown w2 ++
       [Tooltip ("Sound " +:+ (if negb (is_muted c) then "Muted"
                               else "Unmuted"))]) w2
  else
    set_shown (shown w1 ++ [Tooltip "Cannot toggle mute when volume is 0"]) w1.
Proof.
  unfold ui.toggle_mute. cbv zeta.
  rewrite exec_bind, load_config_value.
  destruct (volume (config.persisted repr w) >? 0).
  - rewrite exec_bind, exec_tooltip. reflexivity.
  - rewrite exec_tooltip. reflexivity.
Qed.

Lemma adjust_speed_world (delta : float) (players : list ui.Player)
    (w : World) :
  let c := config.persisted repr w in
  let new_speed :=
    ui._get_nearest_speed (playback_speed c) (PrimFloat.ltb 0 delta) in
  let w2 := exec (ui.save_config repr (set_playback_speed new_speed c))
              (exec (config.load_config repr) w) in
  ui.adjust_speed repr format_speed delta players w =
  (map (ui.set_speed_on new_speed) players,
   set_shown
     (shown w2 ++ [Tooltip ("Speed: " +:+ format_speed new_speed +:+ "x")])
     w2).
Proof.
  cbv zeta. unfold ui.adjust_speed.
  rewrite (surjective_pairing (_ w)).
  f_equal.
  - rewrite !value_bind, load_config_value. reflexivity.
  - change (snd (?m w)) with (exec m w).
    rewrite !exec_bind, exec_ret, exec_tooltip, load_config_value.
    reflexivity.
Qed.

Lemma on_mute_changed_silent_world (state : Z) (w : World) :
  exec (ui.on_mute_changed_silent repr state) w =
  exec (ui.save_config repr
          (set_is_muted (negb (state =? 0)) (config.persisted repr w)))
    (exec (config.load_config repr) w).
Proof.
  unfold ui.on_mute_changed_silent. cbv zeta.
  rewrite exec_bind, load_config_value. reflexivity.
Qed.

Lemma persisted_after_load (w : World) :
  config.persisted repr (exec (config.load_config repr) w) =
  config.persisted repr w.
Proof. apply same_settings_persisted, load_config_same_settings. Qed.

Lemma writable_after_load (w : World) :
  writable (exec (config.load_config repr) w) = writable w.
Proof. apply load_config_same_settings. Qed.

Lemma load_warning_after_load (w : World) :
  load_warning repr (exec (config.load_config repr) w) = load_warning repr w.
Proof. rewrite load_config_world. reflexivity. Qed.

(** [load_config] followed by [save_config], the pattern of every
    callback. *)
Lemma save_after_load (c : VolumeConfig) (w : World) :
  let w' := exec (ui.save_config repr c) (exec (config.load_config repr) w) in
  writable w' = writable w /\
  begin_playing_hooks w' = S (Nat.pred (begin_playing_hooks w)) /\
  config.persisted repr w' =
    (if writable w then c else config.persisted repr w) /\
  volume_shortcuts w' = registered (config.persisted repr w') /\
  shown w' =
    (shown w ++ load_warning repr w ++
     if writable w then []
     else ShowWarning SaveFailed :: load_warning repr w)%list.
Proof.
  pose proof (save_config_any c (exec (config.load_config repr) w)) as S.
  cbv zeta in *. destruct S as (_ & S2 & S3 & S4 & S5 & S6).
  rewrite writable_after_load, ?persisted_after_load,
    ?load_warning_after_load in *.
  destruct (load_config_same_settings w) as (_ & _ & L3 & _).
  rewrite L3 in S3. rewrite load_config_world in S6 at 2.
  cbn [shown set_shown] in S6. rewrite <- app_assoc in S6.
  repeat split; assumption.
Qed.

Lemma nearest_speed_in_table (current : float) (increase : bool) :
  In (ui._get_nearest_speed current increase) ui.SPEED_STEPS.
Proof.
  unfold ui._get_nearest_speed. destruct increase.
  - destruct (find _ ui.SPEED_STEPS) as [s|] eqn:F.
    + apply find_some in F. apply F.
    + vm_compute. repeat (first [left; reflexivity | right]).
  - destruct (find _ (rev ui.SPEED_STEPS)) as [s|] eqn:F.
    + apply find_some in F. destruct F as [F _]. apply in_rev in F. exact F.
    + vm_compute. repeat (first [left; reflexivity | right]).
Qed.

(** X12.  On a host that takes the write, adjust_speed stores the loaded
    parameters with only the speed replaced by the next step in the
    direction delta > 0; the stored speed is on the table, the shortcuts
    registered are the stored ones, and the tooltip is the last thing
    shown. *)
Theorem adjust_speed_stores_next_step
    (delta : float) (players : list ui.Player) (w : World) :
  writable w = true ->
  let before := config.persisted repr w in
  let new_speed :=
    ui._get_nearest_speed (playback_speed before) (PrimFloat.ltb 0 delta) in
  let w' := exec (ui.adjust_speed repr format_speed delta players) w in
  config.persisted repr w' = set_playback_speed new_speed before /\
  In (playback_speed (config.persisted repr w')) ui.SPEED_STEPS /\
  volume_shortcuts w' = registered before /\
  shown w' =
    (shown w ++ load_warning repr w ++
     [Tooltip ("Speed: " +:+ format_speed new_speed +:+ "x")])%list.
Proof.
  intros Hw before new_speed w'. subst w'. unfold exec.
  rewrite adjust_speed_world. cbv zeta. cbn [snd]. fold before new_speed.
  pose proof (save_after_load (set_playback_speed new_speed before) w) as S.
  cbv zeta in S. rewrite Hw in S. destruct S as (_ & _ & S3 & S4 & S5).
  rewrite persisted_set_shown, S3.
  cbn [volume_shortcuts shown set_shown playback_speed set_playback_speed].
  rewrite S4, S3, S5, app_nil_r, <- app_assoc.
  repeat split. apply nearest_speed_in_table.
Qed.

(** X13.  adjust_speed gives the new speed to every mpv player that
    accepts it, in place; a player that raises and a player of another
    kind are left as they were and do not stop the loop; and this happens
    also when the host refused the write, in which case the stored
    parameters are unchanged. *)
Theorem adjust_speed_reaches_every_mpv_player
    (delta : float) (players : list ui.Player) (w : World) :
  let new_speed :=
    ui._get_nearest_speed (playback_speed (config.persisted repr w))
      (PrimFloat.ltb 0 delta) in
  let players' := fst (ui.adjust_speed repr format_speed delta players w) in
  length players' = length players /\
  (forall k m,
     players !! k = Some (ui.Mpv m) ->
     players' !! k =
       Some (ui.Mpv
               (if raises_on m "speed" then m
                else {| raises_on := raises_on m;
                        properties :=
                          (properties m ++
                           [("speed", FloatValue new_speed)])%list |}))) /\
  (forall k, players !! k = Some ui.OtherPlayer ->
             players' !! k = Some ui.OtherPlayer) /\
  (writable w = false ->
   config.persisted repr
     (exec (ui.adjust_speed repr format_speed delta players) w) =
   config.persisted repr w).
Proof.
  intros new_speed players'. subst players'. unfold exec.
  rewrite adjust_speed_world. cbv zeta. cbn [fst snd]. fold new_speed.
  split; [apply length_map|]. split; [|split].
  - intros k m H. rewrite list_lookup_fmap, H. cbn.
    unfold hook.set_property. destruct (raises_on m "speed"); reflexivity.
  - intros k H. rewrite list_lookup_fmap, H. reflexivity.
  - intros Hw. rewrite persisted_set_shown.
    pose proof (save_after_load
                  (set_playback_speed new_speed (config.persisted repr w)) w)
      as S.
    cbv zeta in S. rewrite Hw in S. apply S.
Qed.

Lemma set_playback_speed_back (c : VolumeConfig) (s : float) :
  set_playback_speed (playback_speed c) (set_playback_speed s c) = c.
Proof. destruct c; reflexivity. Qed.

Lemma nearest_speed_up_down (s : float) :
  In s ui.SPEED_STEPS ->
  (PrimFloat.ltb s 2.0 = true ->
   ui._get_nearest_speed (ui._get_nearest_speed s true) false = s) /\
  (PrimFloat.ltb 0.25 s = true ->
   ui._get_nearest_speed (ui._get_nearest_speed s false) true = s).
Proof.
  intros Hin.
  repeat (destruct Hin as [<- | Hin];
          [split; vm_compute; intros; first [reflexivity | discriminate]|]).
  contradiction.
Qed.

(** X14.  From a speed on the table, on a host that takes writes: going up
    and then down returns to the stored parameters unless the speed was
    2.0, and going down and then up returns to them unless the speed was
    0.25. *)
Theorem adjust_speed_up_then_down_returns
    (up down : float) (players1 players2 : list ui.Player) (w : World) :
  writable w = true ->
  In (playback_speed (config.persisted repr w)) ui.SPEED_STEPS ->
  PrimFloat.ltb 0 up = true ->
  PrimFloat.ltb 0 down = false ->
  let speed := playback_speed (config.persisted repr w) in
  (PrimFloat.ltb speed 2.0 = true ->
   config.persisted repr
     (exec (ui.adjust_speed repr format_speed down players2)
        (exec (ui.adjust_speed repr format_speed up players1) w)) =
   config.persisted repr w) /\
  (PrimFloat.ltb 0.25 speed = true ->
   config.persisted repr
     (exec (ui.adjust_speed repr format_speed up players2)
        (exec (ui.adjust_speed repr format_speed down players1) w)) =
   config.persisted repr w).
Proof.
  intros Hw Hin Hup Hdown speed.
  assert (Step : forall d ps w0,
    writable w0 = true ->
    let w1 := exec (ui.adjust_speed repr format_speed d ps) w0 in
    writable w1 = true /\
    config.persisted repr w1 =
    set_playback_speed
      (ui._get_nearest_speed (playback_speed (config.persisted repr w0))
         (PrimFloat.ltb 0 d)) (config.persisted repr w0)).
  { intros d ps w0 H0 w1. subst w1. unfold exec.
    rewrite adjust_speed_world. cbv zeta. cbn [snd].
    match goal with |- context [ui.save_config repr ?c] =>
      pose proof (save_after_load c w0) as S end.
    cbv zeta in S. rewrite H0 in S. destruct S as (S1 & _ & S3 & _).
    rewrite persisted_set_shown. split; [exact S1|exact S3]. }
  destruct (nearest_speed_up_down speed Hin) as [UD DU].
  split; intros Hs.
  - destruct (Step up players1 w Hw) as [W1 P1].
    destruct (Step down players2 _ W1) as [_ P2].
    rewrite P2, P1, Hup, Hdown.
    cbn [playback_speed set_playback_speed]. fold speed.
    rewrite (UD Hs). destruct (config.persisted repr w); reflexivity.
  - destruct (Step down players1 w Hw) as [W1 P1].
    destruct (Step up players2 _ W1) as [_ P2].
    rewrite P2, P1, Hup, Hdown.
    cbn [playback_speed set_playback_speed]. fold speed.
    rewrite (DU Hs). destruct (config.persisted repr w); reflexivity.
Qed.

(** X15.  on_mute_changed_silent stores the state of the box as the mute
    flag and nothing else, at any volume, volume 0 included, and shows no
    tooltip. *)
Theorem on_mute_changed_silent_stores_the_box (state : Z) (w : World) :
  writable w = true ->
  let w' := exec (ui.on_mute_changed_silent repr state) w in
  config.persisted repr w' =
    set_is_muted (negb (state =? 0)) (config.persisted repr w) /\
  volume_shortcuts w' = registered (config.persisted repr w) /\
  shown w' = (shown w ++ load_warning repr w)%list.
Proof.
  intros Hw w'. subst w'. rewrite on_mute_changed_silent_world.
  match goal with |- context [ui.save_config repr ?c] =>
    pose proof (save_after_load c w) as S end.
  cbv zeta in S. rewrite Hw in S. destruct S as (_ & _ & S3 & S4 & S5).
  rewrite S4, S3, S5, !app_nil_r. repeat split.
Qed.

(** X16.  With a positive volume on a host that takes writes, toggle_mute
    flips the stored mute flag, and a second toggle_mute restores the
    stored parameters. *)
Theorem toggle_mute_twice_restores (w : World) :
  writable w = true ->
  0 < volume (config.persisted repr w) ->
  let w1 := exec (ui.toggle_mute repr) w in
  let w2 := exec (ui.toggle_mute repr) w1 in
  is_muted (config.persisted repr w1) =
    negb (is_muted (config.persisted repr w)) /\
  config.persisted repr w2 = config.persisted repr w.
Proof.
  intros Hw Hv.
  assert (Step : forall w0,
    writable w0 = true -> 0 < volume (config.persisted repr w0) ->
    let w1 := exec (ui.toggle_mute repr) w0 in
    writable w1 = true /\
    config.persisted repr w1 =
    set_is_muted (negb (is_muted (config.persisted repr w0)))
      (config.persisted repr w0)).
  { intros w0 H0 V0 w1. subst w1. rewrite toggle_mute_world. cbv zeta.
    assert (G : (volume (config.persisted repr w0) >? 0) = true)
      by (apply Z.gtb_lt; lia).
    rewrite G.
    match goal with |- context [ui.save_config repr ?c] =>
      pose proof (save_after_load c w0) as S end.
    cbv zeta in S. rewrite H0 in S. destruct S as (S1 & _ & S3 & _).
    rewrite persisted_set_shown. split; [exact S1|exact S3]. }
  cbv zeta. destruct (Step w Hw Hv) as [W1 P1].
  assert (V1 : 0 < volume (config.persisted repr (exec (ui.toggle_mute repr) w)))
    by (rewrite P1; exact Hv).
  destruct (Step _ W1 V1) as [_ P2].
  split.
  - rewrite P1. reflexivity.
  - rewrite P2, P1. cbn [is_muted set_is_muted]. rewrite negb_involutive.
    destruct (config.persisted repr w); reflexivity.
Qed.

(** X17.  When the host refuses the write, adjust_volume leaves the stored
    config as it was, and still shows, after the save warning, the tooltip
    of the volume it computed. *)
Theorem adjust_volume_failed_write_still_reports (delta : Z) (w : World) :
  writable w = false ->
  let after := ui.adjusted delta (config.persisted repr w) in
  let w' := exec (ui.adjust_volume repr delta) w in
  stored_config w' = stored_config w /\
  config.persisted repr w' = config.persisted repr w /\
  shown w' =
    (shown w ++ load_warning repr w ++
     ShowWarning SaveFailed :: load_warning repr w ++
     [Tooltip (if is_muted after then "Muted"
               else "Volume: " +:+ Py.str_of_int (volume after) +:+ "%")])
    %list.
Proof.
  intros Hw after w'. subst w'. rewrite adjust_volume_world. cbv zeta.
  fold after.
  pose proof (save_config_any after (exec (config.load_config repr) w)) as A.
  cbv zeta in A. rewrite writable_after_load, Hw in A.
  destruct A as (A1 & _).
  pose proof (save_after_load after w) as S.
  cbv zeta in S. rewrite Hw in S. destruct S as (_ & _ & S3 & _ & S5).
  rewrite persisted_set_shown, S3. cbn [stored_config shown set_shown].
  rewrite A1, S5.
  destruct (load_config_same_settings w) as (L1 & _).
  rewrite L1, <- ?app_assoc. cbn [app]. rewrite <- ?app_assoc.
  repeat split.
Qed.

(** ** Sequences of operations *)

Lemma accept_world (self : VolumeDialog) (w : World) :
  exec (ui.accept repr toString self) w =
  if ui.missing_modifier (ui.shortcut_editors self) then
    set_shown
      (shown w ++
       [Tooltip ("Invalid shortcut settings. "
                 +:+ "Please ensure all shortcuts include modifier keys")]) w
  else
    match ui.duplicate_shortcut toString (ui.shortcut_editors self) ∅ with
    | Some key_string =>
        set_shown
          (shown w ++
           [Tooltip ("Shortcut '" +:+ key_string
                     +:+ "' is used multiple times")]) w
    | None =>
        exec (ui.setup_shortcuts repr)
          (exec (ui.save_config repr
                   (ui.read_widgets toString self (config.persisted repr w)))
             (exec (config.load_config repr) w))
    end.
Proof.
  unfold ui.accept.
  destruct (ui.missing_modifier (ui.shortcut_editors self)).
  - rewrite exec_bind, exec_ret, exec_tooltip. reflexivity.
  - destruct (ui.duplicate_shortcut toString (ui.shortcut_editors self) ∅).
    + rewrite exec_bind, exec_ret, exec_tooltip. reflexivity.
    + cbv zeta. rewrite !exec_bind, exec_ret, load_config_value. reflexivity.
Qed.

Lemma step_effect_saved (c : VolumeConfig) (w : World) :
  step_effect repr w
    (exec (ui.save_config repr c) (exec (config.load_config repr) w)).
Proof.
  pose proof (save_after_load c w) as S. cbv zeta in S.
  destruct S as (S1 & S2 & _ & S4 & _).
  split; [exact S1|]. split; [right; exact S2|left; exact S4].
Qed.

Lemma step_effect_shown (l : list Event) (w w' : World) :
  step_effect repr w w' -> step_effect repr w (set_shown l w').
Proof.
  intros (A & B & C). split; [exact A|]. split; [exact B|].
  destruct C as [C|C]; [left; exact C|right].
  eapply same_settings_trans; [exact C|apply same_settings_shown].
Qed.

Lemma step_effect_same (w w' : World) :
  same_settings w w' -> step_effect repr w w'.
Proof.
  intros H. pose proof H as (_ & H2 & H3 & _).
  split; [exact H2|]. split; [left; exact H3|right; exact H].
Qed.

Lemma did_begin_playing_same_settings (player : option MpvManager)
    (w : World) :
  same_settings w (exec (hook.did_begin_playing repr player) w).
Proof.
  destruct player as [p|]; [|apply same_settings_refl].
  unfold exec. rewrite did_begin_playing_eq. cbv zeta.
  destruct (hook.set_properties (config.persisted repr w) p) as [p' [u|]];
    cbn [snd].
  - apply load_config_same_settings.
  - eapply same_settings_trans;
      [apply load_config_same_settings|apply same_settings_shown].
Qed.

Lemma perform_step (op : Operation) (w : World) :
  step_effect repr w (exec (perform repr toString format_speed op) w).
Proof.
  destruct op as [delta| |delta players|state|self|player];
    cbn [perform]; rewrite ?exec_bind, ?exec_ret.
  - rewrite adjust_volume_world. cbv zeta.
    apply step_effect_shown, step_effect_saved.
  - rewrite toggle_mute_world. cbv zeta.
    destruct (volume (config.persisted repr w) >? 0).
    + apply step_effect_shown, step_effect_saved.
    + apply step_effect_same.
      eapply same_settings_trans;
        [apply load_config_same_settings|apply same_settings_shown].
  - unfold exec. rewrite adjust_speed_world. cbv zeta. cbn [snd].
    apply step_effect_shown, step_effect_saved.
  - rewrite on_mute_changed_silent_world. apply step_effect_saved.
  - rewrite accept_world.
    destruct (ui.missing_modifier (ui.shortcut_editors self));
      [apply step_effect_same, same_settings_shown|].
    destruct (ui.duplicate_shortcut toString (ui.shortcut_editors self) ∅);
      [apply step_effect_same, same_settings_shown|].
    match goal with |- context [ui.save_config repr ?c] =>
      pose proof (step_effect_saved c w) as (A & B & _) end.
    rewrite setup_shortcuts_world.
    split; [exact A|]. split; [exact B|]. left. reflexivity.
  - apply step_effect_same, did_begin_playing_same_settings.
Qed.

Lemma exec_run_cons (op : Operation) (ops : list Operation) (w : World) :
  exec (run repr toString format_speed (op :: ops)) w =
  exec (run repr toString format_speed ops)
    (exec (perform repr toString format_speed op) w).
Proof. cbn [run]. rewrite exec_bind. reflexivity. Qed.

(** X18.  If the registered actions are those of the stored config, they
    are so again after any sequence of shortcut presses, calls of
    on_mute_changed_silent, accepted or rejected dialogs and playbacks,
    whether or not the host takes the writes. *)
Theorem shortcuts_stay_those_of_the_stored_config
    (ops : list Operation) (w : World) :
  volume_shortcuts w = registered (config.persisted repr w) ->
  let w' := exec (run repr toString format_speed ops) w in
  volume_shortcuts w' = registered (config.persisted repr w').
Proof.
  revert w. induction ops as [|op ops IH]; intros w H; [exact H|].
  cbv zeta. rewrite exec_run_cons. apply IH.
  destruct (perform_step op w) as (_ & _ & [S|S]); [exact S|].
  rewrite (same_settings_persisted _ _ S).
  destruct S as (_ & _ & _ & S). rewrite S. exact H.
Qed.

(** X19.  Over any such sequence the number of registrations of the
    playback hook never decreases and never exceeds the larger of 1 and
    the number at the start; the write switch of the host is untouched. *)
Theorem hook_is_registered_at_most_once (ops : list Operation) (w : World) :
  let w' := exec (run repr toString format_speed ops) w in
  (begin_playing_hooks w <= begin_playing_hooks w')%nat /\
  (begin_playing_hooks w' <= Nat.max 1 (begin_playing_hooks w))%nat /\
  writable w' = writable w.
Proof.
  revert w. induction ops as [|op ops IH]; intros w.
  - cbn. repeat split; lia.
  - cbv zeta. rewrite exec_run_cons.
    specialize (IH (exec (perform repr toString format_speed op) w)).
    cbv zeta in IH. destruct IH as (I1 & I2 & I3).
    destruct (perform_step op w) as (S1 & S2 & _).
    rewrite I3, S1. split; [|split; [|reflexivity]]; lia.
Qed.

Lemma adjusted_well_formed (delta : Z) (c : VolumeConfig) :
  In (playback_speed c) ui.SPEED_STEPS ->
  well_formed (ui.adjusted delta c).
Proof.
  intros Hs. unfold well_formed.
  destruct (adjusted_shape delta c) as (m & v & E).
  assert (B : allow_volume_boost (ui.adjusted delta c) = allow_volume_boost c)
    by (rewrite E; reflexivity).
  assert (P : playback_speed (ui.adjusted delta c) = playback_speed c)
    by (rewrite E; reflexivity).
  rewrite B, P. clear E m v B P.
  split; [|split; [|exact Hs]].
  - unfold ui.adjusted. cbv zeta. cbn [volume set_volume].
    destruct (allow_volume_boost c); lia.
  - unfold ui.adjusted. cbv zeta. cbn [volume set_volume is_muted].
    intros Hz. rewrite Hz. reflexivity.
Qed.

Lemma keyboard_step (op : Operation) (w : World) :
  keyboard op = true ->
  well_formed (config.persisted repr w) ->
  well_formed
    (config.persisted repr
       (exec (perform repr toString format_speed op) w)).
Proof.
  intros K WF.
  destruct op as [delta| |delta players|state|self|player];
    try discriminate K; cbn [perform]; rewrite ?exec_bind, ?exec_ret.
  - rewrite adjust_volume_world. cbv zeta. rewrite persisted_set_shown.
    match goal with |- context [ui.save_config repr ?c] =>
      pose proof (save_after_load c w) as (_ & _ & S & _) end.
    rewrite S. destruct (writable w); [|exact WF].
    apply adjusted_well_formed, WF.
  - rewrite toggle_mute_world. cbv zeta.
    destruct (volume (config.persisted repr w) >? 0) eqn:G.
    + rewrite persisted_set_shown.
      match goal with |- context [ui.save_config repr ?c] =>
        pose proof (save_after_load c w) as (_ & _ & S & _) end.
      rewrite S. destruct (writable w); [|exact WF].
      destruct WF as (W1 & W2 & W3). apply Z.gtb_lt in G.
      split; [exact W1|]. split; [|exact W3].
      cbn [volume set_is_muted]. intros Hz. lia.
    + rewrite persisted_set_shown, persisted_after_load. exact WF.
  - unfold exec. rewrite adjust_speed_world. cbv zeta. cbn [snd].
    rewrite persisted_set_shown.
    match goal with |- context [ui.save_config repr ?c] =>
      pose proof (save_after_load c w) as (_ & _ & S & _) end.
    rewrite S. destruct (writable w); [|exact WF].
    destruct WF as (W1 & W2 & W3).
    split; [exact W1|]. split; [exact W2|].
    apply nearest_speed_in_table.
Qed.

(** X20.  Shortcut presses keep the stored parameters well formed: if the
    volume lies in the range its boost flag allows, a volume of 0 is muted
    and the speed is on the table, the same holds after any sequence of
    adjust_volume, toggle_mute and adjust_speed. *)
Theorem shortcut_presses_keep_the_config_well_formed
    (ops : list Operation) (w : World) :
  forallb keyboard ops = true ->
  well_formed (config.persisted repr w) ->
  well_formed
    (config.persisted repr
       (exec (run repr toString format_speed ops) w)).
Proof.
  revert w. induction ops as [|op ops IH]; intros w K WF; [exact WF|].
  cbn [forallb] in K. apply andb_prop in K. destruct K as [K1 K2].
  rewrite exec_run_cons. apply IH; [exact K2|].
  apply keyboard_step; assumption.
Qed.

(** ** ui.py: the dialog's volume widgets *)

Lemma setMaximum_above (hi : Z) (w : Qt.QRange) :
  in_range w -> Qt.value w <= hi ->
  Qt.setMaximum hi w = 
  {| Qt.minimum := Qt.minimum w; Qt.maximum := hi; Qt.value := Qt.value w |}.
Proof.
  intros H Hv. rewrite (setMaximum_in_range hi w H).
  unfold in_range in H. f_equal; lia.
Qed.

(** X21.  Checking the boost box on a linked dialog whose volume is at
    most 200: both widgets keep their value and minimum and get the
    maximum 200, the session flag is set, the widgets stay linked, and the
    warning box is shown exactly when the session flag was not set before. *)
Theorem enabling_boost_keeps_volume
    (state : Z) (self : VolumeDialog) (w : World) :
  state <> 0 ->
  linked self ->
  Qt.value (volume_slider self) <= 200 ->
  let self' := fst (ui.on_volume_boost_changed state self w) in
  let w' := exec (ui.on_volume_boost_changed state self) w in
  volume_slider self' =
    {| Qt.minimum := Qt.minimum (volume_slider self);
       Qt.maximum := 200;
       Qt.value := Qt.value (volume_slider self) |} /\
  volume_spin_box self' =
    {| Qt.minimum := Qt.minimum (volume_spin_box self);
       Qt.maximum := 200;
       Qt.value := Qt.value (volume_slider self) |} /\
  _current_session_boost_enabled self' = true /\
  linked self' /\
  w' =
    (if _current_session_boost_enabled self then w
     else set_shown (shown w ++ [MessageBox "Volume Boost Warning"]) w).
Proof.
  intros Hst (Hs & Hp & Hv) Hle. cbv zeta.
  assert (Hb : negb (state =? 0) = true)
    by (destruct (Z.eqb_spec state 0); [contradiction|reflexivity]).
  unfold exec, ui.on_volume_boost_changed. rewrite Hb.
  cbn [negb andb]. unfold mbind, UI_bind, mret, UI_ret.
  set (self0 := set__current_session_boost_enabled true self).
  assert (E1 : Qt.emit (volume_slider self0)
                 (Qt.setMaximum 200 (volume_slider self0))
                 (volume_spin_box self0) =
               (Qt.setMaximum 200 (volume_slider self),
                volume_spin_box self)).
  { apply emit_same. cbn [self0 volume_slider
      set__current_session_boost_enabled].
    rewrite setMaximum_above by assumption. reflexivity. }
  rewrite (on_slider_eq _ self0 _ _ E1).
  assert (E2 : forall d,
             Qt.emit (volume_spin_box (set_volume_widgets
                        (Qt.setMaximum 200 (volume_slider self))
                        (volume_spin_box self) d))
               (Qt.setMaximum 200 (volume_spin_box (set_volume_widgets
                        (Qt.setMaximum 200 (volume_slider self))
                        (volume_spin_box self) d)))
               (volume_slider (set_volume_widgets
                        (Qt.setMaximum 200 (volume_slider self))
                        (volume_spin_box self) d)) =
             (Qt.setMaximum 200 (volume_spin_box self),
              Qt.setMaximum 200 (volume_slider self))).
  { intros d. apply emit_same. cbn [volume_spin_box set_volume_widgets].
    rewrite setMaximum_above by (try assumption; lia). reflexivity. }
  rewrite (on_spin_box_eq _ _ _ _ (E2 self0)).
  unfold show_event, modify.
  destruct (_current_session_boost_enabled self) eqn:Hsess;
    cbn [negb fst snd volume_slider volume_spin_box set_volume_widgets
         _current_session_boost_enabled set__current_session_boost_enabled
         self0];
    rewrite !setMaximum_above by (try assumption; lia);
    (split; [reflexivity|]); (split; [rewrite Hv; reflexivity|]);
    (split; [reflexivity|]);
    (split; [|reflexivity]);
    unfold linked, in_range in *; project;
    cbn [volume_slider volume_spin_box set_volume_widgets];
    project; lia.
Qed.

(** X22.  _create_config_widgets returns two equal widgets with the
    maximum asked for, the minimum asked for when it does not exceed the
    maximum (the maximum otherwise), and the value 0 bounded into that
    range. *)
Theorem create_config_widgets_range (lo hi : Z) :
  let widget :=
    {| Qt.minimum := Z.min lo hi;
       Qt.maximum := hi;
       Qt.value := Qt.qBound (Z.min lo hi) 0 hi |} in
  ui._create_config_widgets (lo, hi) = (widget, widget) /\
  paired widget widget /\
  (lo <= hi -> Qt.minimum widget = lo) /\
  (hi < lo -> Qt.minimum widget = hi /\ Qt.value widget = hi).
Proof.
  cbv zeta. unfold ui._create_config_widgets, Qt.setMaximum, Qt.setMinimum,
    Qt.setRange, Qt.new_widget, Qt.qBound, paired, in_range.
  cbn [fst snd Qt.minimum Qt.maximum Qt.value].
  split; [|split; [|split]].
  - f_equal; f_equal; lia.
  - lia.
  - lia.
  - lia.
Qed.





(** ** ui.py: [VolumeDialog.accept] *)

Lemma key_text_eq (sequence : Qt.QKeySequence) :
  ui.key_text toString sequence = toString sequence.
Proof.
  unfold ui.key_text. destruct (String.eqb_spec (toString sequence) "");
    congruence.
Qed.

Lemma read_widgets_eq (self : VolumeDialog) (c : VolumeConfig) :
  ui.read_widgets toString self c =
  {| volume := Qt.value (volume_slider self);
     is_muted := mute_check_box self;
     allow_volume_boost := volume_boost_check_box self;
     mute_shortcut := toString (mute_shortcut_edit self);
     settings_shortcut := toString (settings_shortcut_edit self);
     volume_up_shortcut := toString (volume_up_shortcut_edit self);
     volume_down_shortcut := toString (volume_down_shortcut_edit self);
     loudnorm :=
       {| enabled := loudnorm_group_box self;
          i := Qt.value (i_spin_box self);
          dual_mono := dual_mono_check_box self |};
     playback_speed :=
       PrimFloat.div
         (FloatOps.SF2Prim (Py.round_Z (Qt.value (speed_slider self))))
         100%float;
     speed_up_shortcut := toString (speed_up_shortcut_edit self);
     speed_down_shortcut := toString (speed_down_shortcut_edit self) |}.
Proof.
  unfold ui.read_widgets. cbv zeta. rewrite !key_text_eq. reflexivity.
Qed.

Lemma accept_valid_world (self : VolumeDialog) (w : World) :
  ~ unmodified (ui.shortcut_editors self) ->
  ~ clash toString (ui.shortcut_editors self) ->
  ui.accept repr toString self w =
  (true,
   exec (ui.setup_shortcuts repr)
     (exec (ui.save_config repr
              (ui.read_widgets toString self (config.persisted repr w)))
        (exec (config.load_config repr) w))).
Proof.
  intros Hu Hc.
  assert (M : ui.missing_modifier (ui.shortcut_editors self) = false).
  { destruct (ui.missing_modifier (ui.shortcut_editors self)) eqn:E;
      [|reflexivity].
    apply missing_modifier_iff in E. contradiction. }
  assert (D : ui.duplicate_shortcut toString (ui.shortcut_editors self) ∅
              = None)
    by (apply duplicate_shortcut_none; exact Hc).
  rewrite (surjective_pairing (ui.accept repr toString self w)).
  f_equal.
  - unfold ui.accept. rewrite M, D. cbv zeta. rewrite !value_bind.
    reflexivity.
  - change (snd (?m w)) with (exec m w). rewrite accept_world, M, D.
    reflexivity.
Qed.

(** X24.  An accepted dialog stores what the widgets show, whatever was
    stored before: each of the eleven attributes and the three loudnorm
    fields is overwritten. *)
Theorem accept_saves_what_the_widgets_show (self : VolumeDialog) (w : World) :
  ~ unmodified (ui.shortcut_editors self) ->
  ~ clash toString (ui.shortcut_editors self) ->
  writable w = true ->
  config.persisted repr (exec (ui.accept repr toString self) w) =
  {| volume := Qt.value (volume_slider self);
     is_muted := mute_check_box self;
     allow_volume_boost := volume_boost_check_box self;
     mute_shortcut := toString (mute_shortcut_edit self);
     settings_shortcut := toString (settings_shortcut_edit self);
     volume_up_shortcut := toString (volume_up_shortcut_edit self);
     volume_down_shortcut := toString (volume_down_shortcut_edit self);
     loudnorm :=
       {| enabled := loudnorm_group_box self;
          i := Qt.value (i_spin_box self);
          dual_mono := dual_mono_check_box self |};
     playback_speed :=
       PrimFloat.div
         (FloatOps.SF2Prim (Py.round_Z (Qt.value (speed_slider self))))
         100%float;
     speed_up_shortcut := toString (speed_up_shortcut_edit self);
     speed_down_shortcut := toString (speed_down_shortcut_edit self) |}.
Proof.
  intros Hu Hc Hw. unfold exec. rewrite (accept_valid_world self w Hu Hc).
  cbn [snd]. rewrite setup_shortcuts_world.
  change (config.persisted repr (set_volume_shortcuts ?l (set_shown ?e ?w0)))
    with (config.persisted repr w0).
  match goal with |- context [ui.save_config repr ?c] =>
    pose proof (save_after_load c w) as (_ & _ & S & _) end.
  rewrite S, Hw. apply read_widgets_eq.
Qed.

Lemma registered_texts (self : VolumeDialog) (c : VolumeConfig) :
  map shortcut (registered (ui.read_widgets toString self c)) =
  omap (fun e : string * Qt.QKeySequence =>
          let key := toString (snd e) in
          if String.eqb key "" || Py.isspace key then None else Some key)
    (ui.shortcut_editors self).
Proof.
  rewrite read_widgets_eq. unfold registered, ui.shortcuts,
    ui.shortcut_editors, ui.register_shortcut.
  cbn [omap list_omap snd volume_up_shortcut volume_down_shortcut
       mute_shortcut settings_shortcut speed_up_shortcut speed_down_shortcut].
  repeat match goal with
  | |- context [if ?b then None else Some _] => destruct b
  end; reflexivity.
Qed.

Lemma texts_distinct (editors : list (string * Qt.QKeySequence)) :
  toString [] = "" ->
  NoDup (map fst editors) ->
  ~ clash toString editors ->
  NoDup
    (omap (fun e : string * Qt.QKeySequence =>
             let key := toString (snd e) in
             if String.eqb key "" || Py.isspace key then None else Some key)
       editors).
Proof.
  intros He. induction editors as [|[name sequence] rest IH];
    intros Hn Hc; [apply NoDup_nil_2|].
  cbn [map fst] in Hn. apply NoDup_cons in Hn. destruct Hn as [Hfresh Hn].
  assert (Hc' : ~ clash toString rest).
  { intros (n1 & s1 & n2 & s2 & I1 & I2 & R). apply Hc.
    exists n1, s1, n2, s2. split; [right; exact I1|].
    split; [right; exact I2|exact R]. }
  specialize (IH Hn Hc'). cbn [omap list_omap snd]. cbv zeta.
  destruct (String.eqb_spec (toString sequence) "") as [E|E];
    cbn [orb]; [exact IH|].
  destruct (Py.isspace (toString sequence)); [exact IH|].
  apply NoDup_cons_2; [|exact IH].
  intros Hin. apply list_elem_of_omap in Hin.
  destruct Hin as ([name' sequence'] & Hin & Hk). cbn [snd] in Hk.
  cbv zeta in Hk.
  destruct (String.eqb (toString sequence') "" || Py.isspace (toString sequence'));
    [discriminate|].
  injection Hk as Hk. apply Hc.
  exists name, sequence, name', sequence'.
  split; [left; reflexivity|]. split; [right; apply list_elem_of_In; exact Hin|].
  split.
  { intros <-. apply Hfresh. apply list_elem_of_fmap.
    exists (name, sequence'). split; [reflexivity|exact Hin]. }
  split; [intros ->; contradiction|].
  split; [intros ->; rewrite He in Hk; symmetry in Hk; contradiction|].
  symmetry. exact Hk.
Qed.

(** X25.  After a dialog was accepted on a host that takes the write, no
    two registered actions have the same key text (Qt gives the empty
    sequence the empty text). *)
Theorem accepted_shortcuts_are_distinct (self : VolumeDialog) (w : World) :
  toString [] = "" ->
  writable w = true ->
  fst (ui.accept repr toString self w) = true ->
  NoDup (map shortcut
           (volume_shortcuts (exec (ui.accept repr toString self) w))).
Proof.
  intros He Hw Ha.
  assert (Hu : ~ unmodified (ui.shortcut_editors self)).
  { intros U. apply missing_modifier_iff in U.
    unfold ui.accept in Ha. rewrite U in Ha. rewrite value_bind in Ha.
    discriminate Ha. }
  assert (Hc : ~ clash toString (ui.shortcut_editors self)).
  { intros C. unfold ui.accept in Ha.
    destruct (ui.missing_modifier (ui.shortcut_editors self));
      [rewrite value_bind in Ha; discriminate Ha|].
    destruct (ui.duplicate_shortcut toString (ui.shortcut_editors self) ∅)
      eqn:D; [rewrite value_bind in Ha; discriminate Ha|].
    apply duplicate_shortcut_none in D. contradiction. }
  unfold exec. rewrite (accept_valid_world self w Hu Hc). cbn [snd].
  rewrite setup_shortcuts_world. cbn [volume_shortcuts set_volume_shortcuts].
  match goal with |- context [ui.save_config repr ?c] =>
    pose proof (save_after_load c w) as (_ & _ & S & _) end.
  rewrite S, Hw, registered_texts.
  apply texts_distinct; [exact He|apply shortcut_editors_names|exact Hc].
Qed.

(** ** ui.py: [VolumeDialog.validate_shortcut] *)

Lemma current_shortcuts_lookup (sender : string)
    (editors : list (string * Qt.QKeySequence)) (acc : gmap string string)
    (key : string) :
  is_Some (ui.current_shortcuts toString sender editors acc !! key) <->
  is_Some (acc !! key) \/
  exists name sequence,
    In (name, sequence) editors /\ name <> sender /\ sequence <> [] /\
    toString sequence = key.
Proof.
  revert acc. induction editors as [|[name sequence] rest IH]; intros acc.
  - cbn. split; [intros H; left; exact H|].
    intros [H|(n & s & [] & _)]. exact H.
  - cbn [ui.current_shortcuts].
    destruct (String.eqb_spec name sender) as [E|E].
    { rewrite IH. split.
      - intros [H|(n & s & I & R)]; [left; exact H|right].
        exists n, s. split; [right; exact I|exact R].
      - intros [H|(n & s & [I|I] & N & R)]; [left; exact H| |].
        + injection I as <- <-. contradiction.
        + right. exists n, s. split; [exact I|]. split; assumption. }
    destruct sequence as [|k ks]; cbn [Qt.isEmpty negb].
    { rewrite IH. split.
      - intros [H|(n & s & I & R)]; [left; exact H|right].
        exists n, s. split; [right; exact I|exact R].
      - intros [H|(n & s & [I|I] & N & S & R)]; [left; exact H| |].
        + injection I as <- <-. contradiction.
        + right. exists n, s. split; [exact I|]. repeat split; assumption. }
    rewrite IH. split.
    + intros [H|(n & s & I & R)].
      * destruct (decide (toString (k :: ks) = key)) as [K|K].
        -- right. exists name, (k :: ks). split; [left; reflexivity|].
           split; [exact E|]. split; [discriminate|exact K].
        -- rewrite lookup_insert_ne in H by exact K. left. exact H.
      * right. exists n, s. split; [right; exact I|exact R].
    + intros [H|(n & s & [I|I] & N & S & R)].
      * left. destruct (decide (toString (k :: ks) = key)) as [K|K].
        -- rewrite K, lookup_insert_eq. eexists. reflexivity.
        -- rewrite lookup_insert_ne by exact K. exact H.
      * injection I as <- <-. left. rewrite R, lookup_insert_eq.
        eexists. reflexivity.
      * right. exists n, s. split; [exact I|]. repeat split; assumption.
Qed.

Lemma sequence_named_In (name : string)
    (editors : list (string * Qt.QKeySequence)) (sequence : Qt.QKeySequence) :
  ui.sequence_named name editors = Some sequence -> In (name, sequence) editors.
Proof.
  induction editors as [|[n s] rest IH]; cbn; [discriminate|].
  destruct (String.eqb_spec n name) as [->|_].
  - intros H. injection H as <-. left. reflexivity.
  - intros H. right. apply IH, H.
Qed.

Lemma sequence_named_None (name : string)
    (editors : list (string * Qt.QKeySequence)) :
  ui.sequence_named name editors = None ->
  other_editors name editors = editors.
Proof.
  unfold other_editors.
  induction editors as [|[n s] rest IH]; cbn [ui.sequence_named List.filter fst];
    [reflexivity|].
  destruct (String.eqb_spec n name) as [->|N]; [discriminate|].
  intros H. cbn [negb]. f_equal. apply IH, H.
Qed.

Lemma other_editors_In (name n : string) (s : Qt.QKeySequence)
    (editors : list (string * Qt.QKeySequence)) :
  In (n, s) (other_editors name editors) <-> In (n, s) editors /\ n <> name.
Proof.
  clear repr toString format_speed.
  unfold other_editors. rewrite filter_In. cbn [fst].
  destruct (String.eqb_spec n name); cbn [negb]; intuition congruence.
Qed.

Lemma names_determine (editors : list (string * Qt.QKeySequence))
    (n : string) (s1 s2 : Qt.QKeySequence) :
  NoDup (map fst editors) ->
  In (n, s1) editors -> In (n, s2) editors -> s1 = s2.
Proof.
  induction editors as [|[n0 s0] rest IH]; [intros _ []|].
  cbn [map fst]. intros Hn. apply NoDup_cons in Hn. destruct Hn as [F Hn].
  assert (A : forall s, In (n0, s) rest -> False).
  { intros s Hs. apply F. apply list_elem_of_fmap. exists (n0, s).
    split; [reflexivity|apply list_elem_of_In; exact Hs]. }
  intros [E1|I1] [E2|I2].
  - congruence.
  - injection E1 as <- <-. destruct (A _ I2).
  - injection E2 as <- <-. destruct (A _ I1).
  - apply IH; assumption.
Qed.

(** The editors are fit for [accept] when the others are and the one
    called [name] is empty, or has a modifier and a text no other has. *)
Lemma valid_from_others (name : string) (sequence : Qt.QKeySequence)
    (editors : list (string * Qt.QKeySequence)) :
  NoDup (map fst editors) ->
  In (name, sequence) editors ->
  sequence = [] \/
    (ui.has_modifier sequence = true /\
     ~ taken toString name sequence editors) ->
  ~ unmodified (other_editors name editors) ->
  ~ clash toString (other_editors name editors) ->
  ~ unmodified editors /\ ~ clash toString editors.
Proof.
  intros Hn Hin Hok Hu Hc. split.
  - intros (n & s & I & S & M).
    destruct (String.eqb_spec n name) as [->|N].
    + rewrite (names_determine _ _ _ _ Hn I Hin) in *.
      destruct Hok as [->|[Hm _]]; [contradiction|congruence].
    + apply Hu. exists n, s. split; [|split; assumption].
      apply other_editors_In. split; assumption.
  - intros (n1 & s1 & n2 & s2 & I1 & I2 & D & S1 & S2 & T).
    destruct (String.eqb_spec n1 name) as [->|N1].
    { rewrite (names_determine _ _ _ _ Hn I1 Hin) in *.
      destruct Hok as [->|[_ Ht]]; [contradiction|]. apply Ht.
      exists n2, s2. split; [exact I2|]. split; [congruence|].
      split; [exact S2|]. symmetry. exact T. }
    destruct (String.eqb_spec n2 name) as [->|N2].
    { rewrite (names_determine _ _ _ _ Hn I2 Hin) in *.
      destruct Hok as [->|[_ Ht]]; [contradiction|]. apply Ht.
      exists n1, s1. split; [exact I1|]. split; [exact N1|].
      split; [exact S1|exact T]. }
    apply Hc. exists n1, s1, n2, s2.
    split; [apply other_editors_In; split; assumption|].
    split; [apply other_editors_In; split; assumption|].
    repeat split; assumption.
Qed.

Lemma editor_sequence_names (name : string) (self : VolumeDialog)
    (sequence : Qt.QKeySequence) :
  ui.editor_sequence name self = Some sequence ->
  In name ["volume_up_shortcut_edit"; "volume_down_shortcut_edit";
           "mute_shortcut_edit"; "settings_shortcut_edit";
           "speed_up_shortcut_edit"; "speed_down_shortcut_edit"].
Proof.
  intros H. apply sequence_named_In in H. unfold ui.shortcut_editors in H.
  cbn [In] in *.
  repeat (destruct H as [H|H];
    [injection H as <- _; repeat (first [left; reflexivity | right])|]).
  contradiction.
Qed.

(** What [setKeySequence] on the editor called [name] leaves: that editor
    holds the sequence, the other editors and the other widgets are as
    they were. *)
Lemma set_editor_effect (name : string) (sequence old : Qt.QKeySequence)
    (self : VolumeDialog) :
  ui.editor_sequence name self = Some old ->
  let self' := ui.set_editor name sequence self in
  In (name, sequence) (ui.shortcut_editors self') /\
  other_editors name (ui.shortcut_editors self') =
    other_editors name (ui.shortcut_editors self) /\
  ui.editor_sequence name self' = Some sequence /\
  (forall other, other <> name ->
     ui.editor_sequence other self' = ui.editor_sequence other self) /\
  volume_slider self' = volume_slider self /\
  volume_spin_box self' = volume_spin_box self /\
  _current_session_boost_enabled self' = _current_session_boost_enabled self.
Proof.
  intros H. apply editor_sequence_names in H. cbn [In] in H.
  repeat (destruct H as [<-|H];
    [ cbv zeta; split; [cbn; repeat (first [left; reflexivity | right])|];
      split; [reflexivity|];
      split; [reflexivity|]; split; [|repeat split];
      intros other N;
      cbn [ui.set_editor String.eqb Ascii.eqb Bool.eqb];
      unfold ui.editor_sequence, ui.shortcut_editors;
      cbn [ui.sequence_named
           volume_up_shortcut_edit volume_down_shortcut_edit
           mute_shortcut_edit settings_shortcut_edit speed_up_shortcut_edit
           speed_down_shortcut_edit];
      repeat match goal with
      | |- context [String.eqb ?a other] =>
          destruct (String.eqb_spec a other);
          [first [congruence | reflexivity]|]
      end; reflexivity
    | ]).
  contradiction.
Qed.

Lemma validate_shortcut_cases (name : string) (sequence : Qt.QKeySequence)
    (self : VolumeDialog) (w : World) :
  ui.editor_sequence name self = Some sequence ->
  ui.validate_shortcut toString (Some name) self w =
  if Qt.isEmpty sequence then (self, w)
  else if negb (ui.has_modifier sequence) then
    (ui.set_editor name [] self,
     set_shown
       (shown w ++
        [Tooltip ("Shortcut must include at least one modifier key "
                  +:+ "(Ctrl, Alt, Shift)")]) w)
  else
    match
      ui.current_shortcuts toString name (ui.shortcut_editors self) ∅
        !! toString sequence
    with
    | Some _ =>
        (ui.set_editor name [] self,
         set_shown
           (shown w ++
            [Tooltip ("Shortcut '" +:+ toString sequence
                      +:+ "' is already used")]) w)
    | None => (self, w)
    end.
Proof.
  intros H. unfold ui.validate_shortcut. rewrite H.
  destruct (Qt.isEmpty sequence); [reflexivity|].
  destruct (negb (ui.has_modifier sequence)); [reflexivity|].
  cbv zeta.
  destruct (ui.current_shortcuts toString name (ui.shortcut_editors self) ∅
              !! toString sequence); reflexivity.
Qed.

Lemma taken_iff (name : string) (sequence : Qt.QKeySequence)
    (self : VolumeDialog) :
  is_Some (ui.current_shortcuts toString name (ui.shortcut_editors self) ∅
             !! toString sequence) <->
  taken toString name sequence (ui.shortcut_editors self).
Proof.
  rewrite current_shortcuts_lookup. unfold taken. split.
  - intros [H|H]; [|exact H]. rewrite lookup_empty in H.
    destruct H as [x H]. discriminate H.
  - intros H. right. exact H.
Qed.

(** X26.  validate_shortcut clears the editor that sent the signal, with
    one tooltip, exactly when its sequence is not empty and either has no
    modifier or has the text of the sequence of another editor; otherwise
    nothing changes. The other editors and the volume widgets are never
    touched. *)
Theorem validate_shortcut_clears_only_bad_input
    (name : string) (sequence : Qt.QKeySequence) (self : VolumeDialog)
    (w : World) :
  ui.editor_sequence name self = Some sequence ->
  let bad :=
    sequence <> [] /\
    (ui.has_modifier sequence = false \/
     taken toString name sequence (ui.shortcut_editors self)) in
  let self' := fst (ui.validate_shortcut toString (Some name) self w) in
  let w' := exec (ui.validate_shortcut toString (Some name) self) w in
  (bad ->
   ui.editor_sequence name self' = Some [] /\
   exists text, w' = set_shown (shown w ++ [Tooltip text]) w) /\
  (~ bad -> self' = self /\ w' = w) /\
  (forall other, other <> name ->
     ui.editor_sequence other self' = ui.editor_sequence other self) /\
  volume_slider self' = volume_slider self /\
  volume_spin_box self' = volume_spin_box self.
Proof.
  intros H. cbv zeta. unfold exec.
  rewrite (validate_shortcut_cases name sequence self w H).
  pose proof (set_editor_effect name [] sequence self H) as E.
  cbv zeta in E. destruct E as (_ & _ & E1 & E2 & E3 & E4 & _).
  destruct sequence as [|k ks]; cbn [Qt.isEmpty].
  { cbn [fst snd]. split; [intros [N _]; contradiction|].
    repeat split. }
  destruct (ui.has_modifier (k :: ks)) eqn:M; cbn [negb].
  2:{ cbn [fst snd]. split; [intros _; split; [exact E1|eexists; reflexivity]|].
      split; [intros N; exfalso; apply N; split; [discriminate|left; reflexivity]|].
      split; [exact E2|]. split; assumption. }
  destruct (ui.current_shortcuts toString name (ui.shortcut_editors self) ∅
              !! toString (k :: ks)) as [owner|] eqn:L.
  - cbn [fst snd]. split; [intros _; split; [exact E1|eexists; reflexivity]|].
    split.
    { intros N. exfalso. apply N. split; [discriminate|right].
      apply taken_iff. rewrite L. eexists. reflexivity. }
    split; [exact E2|]. split; assumption.
  - cbn [fst snd]. split.
    { intros [_ [B|B]]; [discriminate|]. apply taken_iff in B.
      rewrite L in B. destruct B as [x B]. discriminate B. }
    repeat split.
Qed.

(** X27.  If the editors other than the sender are fit for accept (each
    one empty or with a modifier, no two with the same text), then after
    validate_shortcut all six are, and accept does not reject the dialog. *)
Theorem validate_shortcut_keeps_editors_acceptable
    (name : string) (self : VolumeDialog) (w : World) :
  ~ unmodified (other_editors name (ui.shortcut_editors self)) ->
  ~ clash toString (other_editors name (ui.shortcut_editors self)) ->
  let self' := fst (ui.validate_shortcut toString (Some name) self w) in
  let w' := exec (ui.validate_shortcut toString (Some name) self) w in
  ~ unmodified (ui.shortcut_editors self') /\
  ~ clash toString (ui.shortcut_editors self') /\
  fst (ui.accept repr toString self' w') = true.
Proof.
  intros Hu Hc. cbv zeta.
  assert (V : ~ unmodified
                (ui.shortcut_editors
                   (fst (ui.validate_shortcut toString (Some name) self w))) /\
              ~ clash toString
                (ui.shortcut_editors
                   (fst (ui.validate_shortcut toString (Some name) self w)))).
  { destruct (ui.editor_sequence name self) as [sequence|] eqn:H.
    2:{ unfold ui.validate_shortcut. rewrite H. cbn [fst].
        unfold ui.editor_sequence in H. apply sequence_named_None in H.
        rewrite H in Hu, Hc. split; assumption. }
    rewrite (validate_shortcut_cases name sequence self w H).
    pose proof (set_editor_effect name [] sequence self H) as E.
    cbv zeta in E. destruct E as (E1 & E2 & _).
    assert (Cleared :
      ~ unmodified (ui.shortcut_editors (ui.set_editor name [] self)) /\
      ~ clash toString (ui.shortcut_editors (ui.set_editor name [] self))).
    { apply (valid_from_others name []);
        [apply shortcut_editors_names|exact E1|left; reflexivity| |];
        rewrite E2; assumption. }
    assert (Hin : In (name, sequence) (ui.shortcut_editors self))
      by (apply sequence_named_In; exact H).
    destruct sequence as [|k ks]; cbn [Qt.isEmpty].
    { cbn [fst]. apply (valid_from_others name []);
        [apply shortcut_editors_names|exact Hin|left; reflexivity
        |assumption|assumption]. }
    destruct (ui.has_modifier (k :: ks)) eqn:M; cbn [negb fst];
      [|exact Cleared].
    destruct (ui.current_shortcuts toString name (ui.shortcut_editors self) ∅
                !! toString (k :: ks)) as [owner|] eqn:L; cbn [fst];
      [exact Cleared|].
    apply (valid_from_others name (k :: ks));
      [apply shortcut_editors_names|exact Hin| |assumption|assumption].
    right. split; [exact M|]. intros T. apply taken_iff in T.
    rewrite L in T. destruct T as [x T]. discriminate T. }
  destruct V as [V1 V2]. split; [exact V1|]. split; [exact V2|].
  rewrite (accept_valid_world _ _ V1 V2). reflexivity.
Qed.

(** ** ui.py: [_round_to_nearest_step] *)

(** X28.  For every slider position from 25 to 200, rounding position /
    100 to the step 0.05 takes the multiple of 0.05 whose index is the
    position divided by 5 and rounded to the nearest integer, in spite of
    the inexact float division, and rounding that result again returns it. *)
Theorem round_to_nearest_step_on_slider_positions (position : Z) :
  25 <= position <= 200 ->
  let k := (position + 2) / 5 in
  let multiple :=
    PrimFloat.mul (FloatOps.SF2Prim (Py.round_Z k)) 0.05%float in
  Py.round (PrimFloat.div (hundredths position) 0.05%float) = Some k /\
  ui._round_to_nearest_step (hundredths position) 0.05%float =
    Some multiple /\
  ui._round_to_nearest_step multiple 0.05%float = Some multiple.
Proof.
  intros H.
  assert (A : forall n : nat,
    (n < 176)%nat ->
    let position := 25 + Z.of_nat n in
    let k := (position + 2) / 5 in
    let multiple :=
      PrimFloat.mul (FloatOps.SF2Prim (Py.round_Z k)) 0.05%float in
    Py.round (PrimFloat.div (hundredths position) 0.05%float) = Some k /\
    ui._round_to_nearest_step (hundredths position) 0.05%float =
      Some multiple /\
    ui._round_to_nearest_step multiple 0.05%float = Some multiple).
  { intros n Hn.
    do 176 (destruct n as [|n];
            [vm_compute; repeat split; reflexivity|]).
    lia. }
  replace position with (25 + Z.of_nat (Z.to_nat (position - 25))) by lia.
  apply A. lia.
Qed.

(** ** ui.py: [VolumeDialog.update_volume_controls] *)

Lemma on_mute_changed_silent_saved (state : Z) (w : World) :
  writable w = true ->
  let w' := exec (ui.on_mute_changed_silent repr state) w in
  writable w' = true /\
  config.persisted repr w' =
    set_is_muted (negb (state =? 0)) (config.persisted repr w).
Proof.
  intros Hw. cbv zeta. rewrite on_mute_changed_silent_world.
  match goal with |- context [ui.save_config repr ?c] =>
    pose proof (save_after_load c w) as (S1 & _ & S3 & _) end.
  rewrite Hw in *. split; assumption.
Qed.

(** The box is set to checked while the slider shows 0: nothing more
    happens when it was checked; when it was not, the flag is stored and
    the nested call sets the box to the state it has. *)
Lemma mute_setChecked_true_at_zero (n : nat) (self : VolumeDialog)
    (enabled : Enabled) (w : World) :
  Qt.value (volume_slider self) = 0 ->
  ui.mute_setChecked repr (S n) true self enabled w =
  if mute_check_box self then (self, enabled, w)
  else
    (set_mute_check_box true self,
     {| slider_enabled := true; spin_box_enabled := true;
        mute_enabled := false |},
     exec (ui.on_mute_changed_silent repr 2) w).
Proof.
  intros Hv. cbn [ui.mute_setChecked].
  destruct (mute_check_box self) eqn:Hc; cbn [Bool.eqb]; [reflexivity|].
  unfold mbind, UI_bind, exec.
  destruct (ui.on_mute_changed_silent repr 2 w) as [u w1]. cbn [snd].
  unfold ui.update_volume_controls.
  cbn [volume_slider set_mute_check_box]. rewrite Hv. cbn [Z.eqb orb negb].
  destruct n; cbn [ui.mute_setChecked mute_check_box set_mute_check_box
                   Bool.eqb]; reflexivity.
Qed.

(** [update_volume_controls] while the slider shows 0: the box is set to
    checked, with the flags of a silent dialog. *)
Lemma update_volume_controls_zero_eq
    (n : nat) (state : Z) (self : VolumeDialog) (enabled : Enabled)
    (w : World) :
  Qt.value (volume_slider self) = 0 ->
  ui.update_volume_controls (ui.mute_setChecked repr (S n)) state self
    enabled w =
  if mute_check_box self then
    (self,
     {| slider_enabled := true; spin_box_enabled := true;
        mute_enabled := false |}, w)
  else
    (set_mute_check_box true self,
     {| slider_enabled := true; spin_box_enabled := true;
        mute_enabled := false |},
     exec (ui.on_mute_changed_silent repr 2) w).
Proof.
  intros Hv. unfold ui.update_volume_controls.
  rewrite Hv. cbn [Z.eqb]. rewrite orb_true_r.
  cbn [slider_enabled spin_box_enabled mute_enabled].
  rewrite (mute_setChecked_true_at_zero n self _ w Hv).
  destruct (mute_check_box self); reflexivity.
Qed.

(** X29.  update_volume_controls on a dialog whose volume slider shows 0,
    whatever state it is called with: the mute box ends checked and
    disabled and the slider and spin box enabled; a box already checked
    leaves the host untouched, and checking an unchecked box runs
    on_mute_changed_silent, so that on a host that takes the write the
    stored parameters become the muted ones. One nested signal is enough
    for this. *)
Theorem update_volume_controls_at_volume_zero
    (n : nat) (state : Z) (self : VolumeDialog) (enabled : Enabled)
    (w : World) :
  Qt.value (volume_slider self) = 0 ->
  let r :=
    ui.update_volume_controls (ui.mute_setChecked repr (S n)) state self
      enabled w in
  fst (fst r) = set_mute_check_box true self /\
  snd (fst r) =
    {| slider_enabled := true; spin_box_enabled := true;
       mute_enabled := false |} /\
  (mute_check_box self = true -> snd r = w) /\
  (mute_check_box self = false -> writable w = true ->
   config.persisted repr (snd r) =
   set_is_muted true (config.persisted repr w)).
Proof.
  intros Hv. cbv zeta.
  rewrite (update_volume_controls_zero_eq n state self enabled w Hv).
  destruct (mute_check_box self) eqn:Hc; cbn [fst snd].
  - split; [destruct self; cbn in Hc; subst; reflexivity|].
    split; [reflexivity|]. split; [reflexivity|discriminate].
  - split; [reflexivity|]. split; [reflexivity|]. split; [discriminate|].
    intros _ Hw. apply (on_mute_changed_silent_saved 2 w Hw).
Qed.

(** X30.  The mute box changing to a new state on a host that takes the
    write, with its two slots run in the order they are connected. At a
    volume other than 0 the new state is stored as the mute flag and the
    volume widgets are enabled exactly when the box is unchecked. At
    volume 0 the box ends checked, whatever it was set to, the stored flag
    ends true, and the box is disabled with the volume widgets enabled.
    Two nested signals are enough for this. *)
Theorem mute_box_change_is_stored
    (n : nat) (checked : bool) (self : VolumeDialog) (enabled : Enabled)
    (w : World) :
  mute_check_box self = negb checked ->
  writable w = true ->
  let r := ui.mute_setChecked repr (S (S n)) checked self enabled w in
  (Qt.value (volume_slider self) <> 0 ->
   fst (fst r) = set_mute_check_box checked self /\
   snd (fst r) =
     {| slider_enabled := negb checked; spin_box_enabled := negb checked;
        mute_enabled := true |} /\
   config.persisted repr (snd r) =
     set_is_muted checked (config.persisted repr w)) /\
  (Qt.value (volume_slider self) = 0 ->
   fst (fst r) = set_mute_check_box true self /\
   snd (fst r) =
     {| slider_enabled := true; spin_box_enabled := true;
        mute_enabled := false |} /\
   is_muted (config.persisted repr (snd r)) = true).
Proof.
  intros Hc Hw. cbv zeta.
  assert (E : ui.mute_setChecked repr (S (S n)) checked self enabled w =
              ui.update_volume_controls (ui.mute_setChecked repr (S n))
                (if checked then 2 else 0) (set_mute_check_box checked self)
                enabled
                (exec (ui.on_mute_changed_silent repr
                         (if checked then 2 else 0)) w)).
  { cbn [ui.mute_setChecked]. rewrite Hc.
    replace (Bool.eqb (negb checked) checked) with false
      by (destruct checked; reflexivity).
    unfold mbind, UI_bind, exec.
    destruct (ui.on_mute_changed_silent repr (if checked then 2 else 0) w)
      as [u w1]. reflexivity. }
  rewrite E. clear E.
  pose proof (on_mute_changed_silent_saved (if checked then 2 else 0) w Hw)
    as S. cbv zeta in S. destruct S as [W1 P1].
  assert (B : negb ((if checked then 2 else 0) =? 0) = checked)
    by (destruct checked; reflexivity).
  rewrite B in P1.
  split.
  - intros Hv. unfold ui.update_volume_controls.
    cbn [volume_slider set_mute_check_box].
    destruct (Z.eqb_spec (Qt.value (volume_slider self)) 0) as [|_];
      [contradiction|].
    cbn [fst snd slider_enabled spin_box_enabled mute_enabled mret UI_ret].
    unfold mret, UI_ret. cbn [fst snd]. rewrite B, orb_false_r.
    split; [reflexivity|]. split; [reflexivity|exact P1].
  - intros Hv.
    assert (Hv' : Qt.value (volume_slider (set_mute_check_box checked self))
                  = 0) by exact Hv.
    rewrite (update_volume_controls_zero_eq n _ _ enabled _ Hv').
    cbn [mute_check_box set_mute_check_box].
    destruct checked; cbn [fst snd].
    + split; [reflexivity|]. split; [reflexivity|].
      rewrite P1. reflexivity.
    + split; [reflexivity|]. split; [reflexivity|].
      destruct (on_mute_changed_silent_saved 2 _ W1) as [_ P2].
      rewrite P2. reflexivity.
Qed.

End MoreProperties.

(** ** The further theorems at sample inputs *)

Lemma save_config_load_config_round_trip_witness :
  writable loud_world = true /\
  fst (config.load_config sample_repr
         (exec (config.save_config default_config) loud_world)) =
  default_config.
Proof.
  assert (H : writable loud_world = true) by reflexivity.
  pose proof (save_config_load_config_round_trip sample_repr default_config
                loud_world H) as T.
  cbv zeta in T. destruct T as [_ T].
  split; [exact H|]. rewrite T. reflexivity.
Defined.

Lemma load_config_converts_each_field_witness :
  typed_config <> ∅ /\
  volume (fst (config.load_config_from sample_repr
                 (Some (PDict typed_config)))) = 70 /\
  i (loudnorm (fst (config.load_config_from sample_repr
                      (Some (PDict typed_config))))) = -16.
Proof.
  assert (H0 : typed_config <> ∅).
  { intros E. assert (L : typed_config !! "volume" = None)
      by (rewrite E; apply lookup_empty).
    vm_compute in L. discriminate L. }
  assert (H1 : Py.int (Py.get typed_config "volume" (PInt 100)) = Some 70)
    by (vm_compute; reflexivity).
  assert (H2 : Py.float (Py.get typed_config "playback_speed" (PFloat 1))
               = Some 2%float) by (vm_compute; reflexivity).
  assert (H3 : Py.get typed_config "loudnorm" (PDict ∅) =
               PDict (list_to_map [("i", PFloat (-16.5)%float)]))
    by (vm_compute; reflexivity).
  assert (H4 : Py.int (Py.get (list_to_map [("i", PFloat (-16.5)%float)])
                         "i" (PInt (-24))) = Some (-16))
    by (vm_compute; reflexivity).
  pose proof (load_config_converts_each_field sample_repr typed_config _ _ _ _
                H0 H1 H2 H3 H4) as T.
  split; [exact H0|]. rewrite T. split; reflexivity.
Defined.

Lemma load_config_bad_loudness_target_witness :
  bad_target_config <> ∅ /\
  snd (config.load_config_from sample_repr (Some (PDict bad_target_config)))
    = Some LoadError /\
  loudnorm (fst (config.load_config_from sample_repr
                   (Some (PDict bad_target_config)))) =
    {| enabled := true; i := -24; dual_mono := false |}.
Proof.
  assert (H0 : bad_target_config <> ∅).
  { intros E. assert (L : bad_target_config !! "volume" = None)
      by (rewrite E; apply lookup_empty).
    vm_compute in L. discriminate L. }
  assert (H1 : Py.int (Py.get bad_target_config "volume" (PInt 100))
               = Some 60) by (vm_compute; reflexivity).
  assert (H2 : Py.float (Py.get bad_target_config "playback_speed" (PFloat 1))
               = Some 1%float) by (vm_compute; reflexivity).
  assert (H3 : Py.get bad_target_config "loudnorm" (PDict ∅) =
               PDict (list_to_map [("enabled", PBool true);
                                   ("i", PStr "loud");
                                   ("dual_mono", PBool true)]))
    by (vm_compute; reflexivity).
  assert (H4 : Py.int (Py.get (list_to_map [("enabled", PBool true);
                                            ("i", PStr "loud");
                                            ("dual_mono", PBool true)])
                         "i" (PInt (-24))) = None)
    by (vm_compute; reflexivity).
  pose proof (load_config_bad_loudness_target sample_repr bad_target_config
                _ _ _ H0 H1 H2 H3 H4) as T.
  split; [exact H0|]. rewrite T. split; vm_compute; reflexivity.
Defined.

Lemma did_begin_playing_stops_at_first_error_witness :
  option_map properties
    (fst (hook.did_begin_playing sample_repr (Some deaf_player) loud_world)) =
  Some [("volume", IntValue 95)] /\
  exists text,
    shown (snd (hook.did_begin_playing sample_repr (Some deaf_player)
                  loud_world)) = [Print text].
Proof.
  pose proof (did_begin_playing_stops_at_first_error sample_repr deaf_player
                loud_world) as T.
  cbv zeta in T. destruct T as (T1 & _ & T3).
  split.
  - rewrite T1. vm_compute. reflexivity.
  - destruct T3 as [text T3]; [vm_compute; discriminate|].
    exists text. rewrite T3. reflexivity.
Defined.

Lemma saved_config_is_applied_on_playback_witness :
  writable loud_world = true /\
  (forall name, raises_on fresh_player name = false) /\
  option_map properties
    (fst (hook.did_begin_playing sample_repr (Some fresh_player)
            (exec (ui.save_config sample_repr
                     (set_loudnorm_enabled true default_config))
               loud_world))) =
  Some [("volume", IntValue 100);
        ("af", StrValue "loudnorm=I=-24:dual_mono=false");
        ("speed", FloatValue 1%float)].
Proof.
  assert (H : writable loud_world = true) by reflexivity.
  assert (R : forall name, raises_on fresh_player name = false)
    by (intros name; reflexivity).
  pose proof (saved_config_is_applied_on_playback sample_repr
                (set_loudnorm_enabled true default_config) fresh_player
                loud_world H R) as T.
  cbv zeta in T. split; [exact H|]. split; [exact R|].
  rewrite T. vm_compute. reflexivity.
Defined.

Lemma save_config_failed_write_witness :
  writable offline_world = false /\
  volume (config.persisted sample_repr
            (exec (ui.save_config sample_repr default_config) offline_world))
    = 50 /\
  shown (exec (ui.save_config sample_repr default_config) offline_world) =
    [ShowWarning SaveFailed].
Proof.
  assert (H : writable offline_world = false) by reflexivity.
  pose proof (save_config_failed_write sample_repr default_config
                offline_world H) as T.
  cbv zeta in T. destruct T as (_ & T2 & _ & T4).
  split; [exact H|]. split.
  - rewrite T2. vm_compute. reflexivity.
  - rewrite T4. vm_compute. reflexivity.
Defined.

Lemma adjust_speed_stores_next_step_witness :
  writable muted_world = true /\
  playback_speed
    (config.persisted sample_repr
       (exec (ui.adjust_speed sample_repr sample_format_speed 0.1%float [])
          muted_world)) = 1.75%float.
Proof.
  assert (H : writable muted_world = true) by reflexivity.
  pose proof (adjust_speed_stores_next_step sample_repr sample_format_speed
                0.1%float [] muted_world H) as T.
  cbv zeta in T. destruct T as (T1 & _).
  split; [exact H|]. rewrite T1. vm_compute. reflexivity.
Defined.

Lemma adjust_speed_reaches_every_mpv_player_witness :
  fst (ui.adjust_speed sample_repr sample_format_speed 0.1%float
         [ui.Mpv deaf_player; ui.OtherPlayer] offline_world) !! 0%nat =
  Some (ui.Mpv {| raises_on := raises_on deaf_player;
                  properties := [("speed", FloatValue 1.1%float)] |}) /\
  config.persisted sample_repr
    (exec (ui.adjust_speed sample_repr sample_format_speed 0.1%float
             [ui.Mpv deaf_player; ui.OtherPlayer]) offline_world) =
  config.persisted sample_repr offline_world.
Proof.
  pose proof (adjust_speed_reaches_every_mpv_player sample_repr
                sample_format_speed 0.1%float
                [ui.Mpv deaf_player; ui.OtherPlayer] offline_world) as T.
  cbv zeta in T. destruct T as (_ & T2 & _ & T4).
  split.
  - rewrite (T2 0%nat deaf_player) by reflexivity. vm_compute. reflexivity.
  - apply T4. reflexivity.
Defined.

Lemma adjust_speed_up_then_down_returns_witness :
  writable muted_world = true /\
  In (playback_speed (config.persisted sample_repr muted_world))
    ui.SPEED_STEPS /\
  config.persisted sample_repr
    (exec (ui.adjust_speed sample_repr sample_format_speed (-0.1)%float [])
       (exec (ui.adjust_speed sample_repr sample_format_speed 0.1%float [])
          muted_world)) =
  config.persisted sample_repr muted_world.
Proof.
  assert (H : writable muted_world = true) by reflexivity.
  assert (I : In (playback_speed (config.persisted sample_repr muted_world))
                ui.SPEED_STEPS)
    by (vm_compute; repeat (first [left; reflexivity | right])).
  assert (U : PrimFloat.ltb 0 0.1 = true) by reflexivity.
  assert (D : PrimFloat.ltb 0 (-0.1) = false) by reflexivity.
  pose proof (adjust_speed_up_then_down_returns sample_repr
                sample_format_speed 0.1%float (-0.1)%float [] [] muted_world
                H I U D) as T.
  cbv zeta in T. destruct T as (T1 & _).
  split; [exact H|]. split; [exact I|]. apply T1. vm_compute. reflexivity.
Defined.

Lemma on_mute_changed_silent_stores_the_box_witness :
  writable silent_world = true /\
  volume (config.persisted sample_repr silent_world) = 0 /\
  is_muted
    (config.persisted sample_repr
       (exec (ui.on_mute_changed_silent sample_repr 0) silent_world)) = false.
Proof.
  assert (H : writable silent_world = true) by reflexivity.
  pose proof (on_mute_changed_silent_stores_the_box sample_repr 0
                silent_world H) as T.
  cbv zeta in T. destruct T as (T1 & _).
  split; [exact H|]. split; [vm_compute; reflexivity|].
  rewrite T1. reflexivity.
Defined.

Lemma toggle_mute_twice_restores_witness :
  writable muted_world = true /\
  0 < volume (config.persisted sample_repr muted_world) /\
  config.persisted sample_repr
    (exec (ui.toggle_mute sample_repr)
       (exec (ui.toggle_mute sample_repr) muted_world)) =
  config.persisted sample_repr muted_world.
Proof.
  assert (H : writable muted_world = true) by reflexivity.
  assert (V : 0 < volume (config.persisted sample_repr muted_world))
    by (vm_compute; reflexivity).
  pose proof (toggle_mute_twice_restores sample_repr muted_world H V) as T.
  cbv zeta in T. destruct T as (_ & T2).
  split; [exact H|]. split; [exact V|exact T2].
Defined.

Lemma adjust_volume_failed_write_still_reports_witness :
  writable offline_world = false /\
  volume (config.persisted sample_repr
            (exec (ui.adjust_volume sample_repr 10) offline_world)) = 50 /\
  List.last (shown (exec (ui.adjust_volume sample_repr 10) offline_world))
    (Tooltip "none") = Tooltip "Volume: 60%".
Proof.
  assert (H : writable offline_world = false) by reflexivity.
  pose proof (adjust_volume_failed_write_still_reports sample_repr 10
                offline_world H) as T.
  cbv zeta in T. destruct T as (_ & T2 & T3).
  split; [exact H|]. split.
  - rewrite T2. vm_compute. reflexivity.
  - rewrite T3. vm_compute. reflexivity.
Defined.

Lemma shortcuts_stay_those_of_the_stored_config_witness :
  volume_shortcuts loud_world =
    registered (config.persisted sample_repr loud_world) /\
  volume_shortcuts
    (exec (run sample_repr sample_toString sample_format_speed
             sample_presses) loud_world) = [].
Proof.
  assert (H : volume_shortcuts loud_world =
              registered (config.persisted sample_repr loud_world))
    by (vm_compute; reflexivity).
  pose proof (shortcuts_stay_those_of_the_stored_config sample_repr
                sample_toString sample_format_speed sample_presses
                loud_world H) as T.
  cbv zeta in T. split; [exact H|]. rewrite T. vm_compute. reflexivity.
Defined.

Lemma shortcut_presses_keep_the_config_well_formed_witness :
  forallb keyboard sample_presses = true /\
  well_formed (config.persisted sample_repr loud_world) /\
  well_formed
    (config.persisted sample_repr
       (exec (run sample_repr sample_toString sample_format_speed
                sample_presses) loud_world)).
Proof.
  assert (K : forallb keyboard sample_presses = true) by reflexivity.
  assert (W : well_formed (config.persisted sample_repr loud_world)).
  { unfold well_formed. vm_compute. split; [split; discriminate|].
    split; [discriminate|].
    repeat (first [left; reflexivity | right]). }
  pose proof (shortcut_presses_keep_the_config_well_formed sample_repr
                sample_toString sample_format_speed sample_presses
                loud_world K W) as T.
  split; [exact K|]. split; [exact W|exact T].
Defined.


Lemma load_config_missing_key_is_default_witness :
  volume (fst (config.load_config_from sample_repr
                 (Some (PDict (list_to_map
                    [("playback_speed", PStr "fast")]))))) = 100.
Proof.
  pose proof (load_config_missing_key_is_default sample_repr
                (list_to_map [("playback_speed", PStr "fast")])) as T.
  cbv zeta in T. destruct T as (T1 & _). apply T1. reflexivity.
Defined.

Lemma nearest_speed_for_any_speed_witness :
  ui._get_nearest_speed nan true = 2.0%float.
Proof.
  pose proof (nearest_speed_for_any_speed nan) as T.
  cbv zeta in T. destruct T as (_ & _ & _ & T4 & _). apply T4.
  intros s Hs.
  repeat (destruct Hs as [<- | Hs]; [reflexivity|]). contradiction.
Defined.

Lemma create_config_widgets_range_witness :
  ui._create_config_widgets (-50, -14) =
  ({| Qt.minimum := -50; Qt.maximum := -14; Qt.value := -14 |},
   {| Qt.minimum := -50; Qt.maximum := -14; Qt.value := -14 |}).
Proof.
  pose proof (create_config_widgets_range (-50) (-14)) as T.
  cbv zeta in T. destruct T as (T1 & _). rewrite T1. reflexivity.
Defined.
Lemma enabling_boost_keeps_volume_witness :
  linked plain_dialog /\
  Qt.value (volume_slider plain_dialog) <= 200 /\
  volume_slider (fst (ui.on_volume_boost_changed 2 plain_dialog loud_world)) =
    {| Qt.minimum := 0; Qt.maximum := 200; Qt.value := 80 |} /\
  shown (exec (ui.on_volume_boost_changed 2 plain_dialog) loud_world) =
    [MessageBox "Volume Boost Warning"].
Proof.
  assert (N : 2 <> 0) by discriminate.
  assert (L : linked plain_dialog).
  { unfold linked, in_range. cbn. repeat split; discriminate. }
  assert (V : Qt.value (volume_slider plain_dialog) <= 200)
    by (cbn; discriminate).
  pose proof (enabling_boost_keeps_volume 2 plain_dialog loud_world N L V)
    as T.
  cbv zeta in T. destruct T as (T1 & _ & _ & _ & T5).
  split; [exact L|]. split; [exact V|]. split.
  - rewrite T1. reflexivity.
  - rewrite T5. reflexivity.
Defined.


Lemma accept_saves_what_the_widgets_show_witness :
  ~ unmodified (ui.shortcut_editors (sample_dialog ctrl_alt_up [] ctrl_m)) /\
  ~ clash sample_toString
      (ui.shortcut_editors (sample_dialog ctrl_alt_up [] ctrl_m)) /\
  writable muted_world = true /\
  volume
    (config.persisted sample_repr
       (exec (ui.accept sample_repr sample_toString
                (sample_dialog ctrl_alt_up [] ctrl_m)) muted_world)) = 150 /\
  playback_speed
    (config.persisted sample_repr
       (exec (ui.accept sample_repr sample_toString
                (sample_dialog ctrl_alt_up [] ctrl_m)) muted_world)) =
  1.1%float.
Proof.
  assert (U : ~ unmodified
                (ui.shortcut_editors (sample_dialog ctrl_alt_up [] ctrl_m))).
  { intros U. apply missing_modifier_iff in U. vm_compute in U.
    discriminate U. }
  assert (C : ~ clash sample_toString
                (ui.shortcut_editors (sample_dialog ctrl_alt_up [] ctrl_m))).
  { apply duplicate_shortcut_none. vm_compute. reflexivity. }
  assert (H : writable muted_world = true) by reflexivity.
  pose proof (accept_saves_what_the_widgets_show sample_repr sample_toString
                (sample_dialog ctrl_alt_up [] ctrl_m) muted_world U C H) as T.
  split; [exact U|]. split; [exact C|]. split; [exact H|].
  rewrite T. split; vm_compute; reflexivity.
Defined.

Lemma accepted_shortcuts_are_distinct_witness :
  sample_toString [] = "" /\
  writable muted_world = true /\
  fst (ui.accept sample_repr sample_toString
         (sample_dialog ctrl_alt_up [] ctrl_m) muted_world) = true /\
  NoDup (map shortcut
           (volume_shortcuts
              (exec (ui.accept sample_repr sample_toString
                       (sample_dialog ctrl_alt_up [] ctrl_m)) muted_world))).
Proof.
  assert (E : sample_toString [] = "") by reflexivity.
  assert (H : writable muted_world = true) by reflexivity.
  assert (A : fst (ui.accept sample_repr sample_toString
                     (sample_dialog ctrl_alt_up [] ctrl_m) muted_world) = true)
    by (vm_compute; reflexivity).
  pose proof (accepted_shortcuts_are_distinct sample_repr sample_toString
                (sample_dialog ctrl_alt_up [] ctrl_m) muted_world E H A) as T.
  split; [exact E|]. split; [exact H|]. split; [exact A|exact T].
Defined.

Lemma validate_shortcut_clears_only_bad_input_witness :
  ui.editor_sequence "volume_down_shortcut_edit"
    (sample_dialog ctrl_m ctrl_m []) = Some ctrl_m /\
  ui.editor_sequence "volume_down_shortcut_edit"
    (fst (ui.validate_shortcut sample_toString
            (Some "volume_down_shortcut_edit")
            (sample_dialog ctrl_m ctrl_m []) loud_world)) = Some [] /\
  ui.editor_sequence "volume_up_shortcut_edit"
    (fst (ui.validate_shortcut sample_toString
            (Some "volume_down_shortcut_edit")
            (sample_dialog ctrl_m ctrl_m []) loud_world)) = Some ctrl_m.
Proof.
  assert (H : ui.editor_sequence "volume_down_shortcut_edit"
                (sample_dialog ctrl_m ctrl_m []) = Some ctrl_m)
    by reflexivity.
  pose proof (validate_shortcut_clears_only_bad_input sample_toString
                "volume_down_shortcut_edit" ctrl_m
                (sample_dialog ctrl_m ctrl_m []) loud_world H) as T.
  cbv zeta in T. destruct T as (T1 & _ & T3 & _).
  split; [exact H|]. split.
  - apply T1. split; [discriminate|]. right.
    exists "volume_up_shortcut_edit", ctrl_m.
    split; [left; reflexivity|]. split; [discriminate|].
    split; [discriminate|reflexivity].
  - rewrite T3 by discriminate. reflexivity.
Defined.

Lemma validate_shortcut_keeps_editors_acceptable_witness :
  ~ unmodified
      (other_editors "mute_shortcut_edit"
         (ui.shortcut_editors (sample_dialog ctrl_alt_up ctrl_m bare_m))) /\
  ~ clash sample_toString
      (other_editors "mute_shortcut_edit"
         (ui.shortcut_editors (sample_dialog ctrl_alt_up ctrl_m bare_m))) /\
  fst (ui.accept sample_repr sample_toString
         (fst (ui.validate_shortcut sample_toString
                 (Some "mute_shortcut_edit")
                 (sample_dialog ctrl_alt_up ctrl_m bare_m) loud_world))
         (exec (ui.validate_shortcut sample_toString
                  (Some "mute_shortcut_edit")
                  (sample_dialog ctrl_alt_up ctrl_m bare_m)) loud_world)) =
  true.
Proof.
  assert (U : ~ unmodified
                (other_editors "mute_shortcut_edit"
                   (ui.shortcut_editors
                      (sample_dialog ctrl_alt_up ctrl_m bare_m)))).
  { intros U. apply missing_modifier_iff in U. vm_compute in U.
    discriminate U. }
  assert (C : ~ clash sample_toString
                (other_editors "mute_shortcut_edit"
                   (ui.shortcut_editors
                      (sample_dialog ctrl_alt_up ctrl_m bare_m)))).
  { intros C.
    assert (D : is_Some (ui.duplicate_shortcut sample_toString
                  (other_editors "mute_shortcut_edit"
                     (ui.shortcut_editors
                        (sample_dialog ctrl_alt_up ctrl_m bare_m))) ∅)).
    { apply duplicate_shortcut_iff; [|right; exact C].
      apply (bool_decide_unpack _). vm_compute. exact I. }
    vm_compute in D. destruct D as [x D]. discriminate D. }
  pose proof (validate_shortcut_keeps_editors_acceptable sample_repr
                sample_toString "mute_shortcut_edit"
                (sample_dialog ctrl_alt_up ctrl_m bare_m) loud_world U C)
    as T.
  cbv zeta in T. destruct T as (_ & _ & T3).
  split; [exact U|]. split; [exact C|exact T3].
Defined.

Lemma round_to_nearest_step_on_slider_positions_witness :
  25 <= 113 <= 200 /\
  ui._round_to_nearest_step (hundredths 113) 0.05%float =
  Some 1.1500000000000001%float.
Proof.
  assert (H : 25 <= 113 <= 200) by (split; discriminate).
  pose proof (round_to_nearest_step_on_slider_positions 113 H) as T.
  cbv zeta in T. destruct T as (_ & T2 & _).
  split; [exact H|]. rewrite T2. vm_compute. reflexivity.
Defined.

Lemma update_volume_controls_at_volume_zero_witness :
  Qt.value (volume_slider silent_dialog) = 0 /\
  mute_check_box
    (fst (fst (ui.update_volume_controls
                 (ui.mute_setChecked sample_repr 1) 0 silent_dialog
                 all_enabled loud_world))) = true /\
  is_muted
    (config.persisted sample_repr
       (snd (ui.update_volume_controls
               (ui.mute_setChecked sample_repr 1) 0 silent_dialog
               all_enabled loud_world))) = true.
Proof.
  assert (H : Qt.value (volume_slider silent_dialog) = 0) by reflexivity.
  pose proof (update_volume_controls_at_volume_zero sample_repr 0 0
                silent_dialog all_enabled loud_world H) as T.
  cbv zeta in T. destruct T as (T1 & _ & _ & T4).
  split; [exact H|]. split.
  - rewrite T1. reflexivity.
  - rewrite T4 by reflexivity. reflexivity.
Defined.

Lemma mute_box_change_is_stored_witness :
  mute_check_box plain_dialog = negb true /\
  writable loud_world = true /\
  is_muted
    (config.persisted sample_repr
       (snd (ui.mute_setChecked sample_repr 2 true plain_dialog all_enabled
               loud_world))) = true /\
  slider_enabled
    (snd (fst (ui.mute_setChecked sample_repr 2 true plain_dialog
                 all_enabled loud_world))) = false.
Proof.
  assert (B : mute_check_box plain_dialog = negb true) by reflexivity.
  assert (H : writable loud_world = true) by reflexivity.
  pose proof (mute_box_change_is_stored sample_repr 0 true plain_dialog
                all_enabled loud_world B H) as T.
  cbv zeta in T. destruct T as (T1 & _).
  destruct T1 as (_ & T2 & T3); [cbn; discriminate|].
  split; [exact B|]. split; [exact H|]. split.
  - rewrite T3. reflexivity.
  - rewrite T2. reflexivity.
Defined.
